(** * Endurain frontend: authentication and session lifecycle

    A shallow embedding of the browser-side authentication code of the
    Endurain frontend:

    - [utils/pkceUtils]   : PKCE verifier / challenge generation and validation;
    - [utils/serviceUtils]: header injection, transport ([attemptFetch]),
      401 recovery ([fetchWithRetry]) and the module-level single-flight
      refresh ([refreshAccessToken] guarded by [refreshTokenPromise]);
    - [stores/authStore]  : the Pinia store holding the session state;
    - [services/sessionService]: the thin wrappers around the auth endpoints.

    JavaScript values are modelled by [JSValue]; asynchronous functions by a
    free monad [Task] whose suspension points are the network calls and the
    awaits on shared promises; the browser's event loop by [Loop]. Calls to
    [console] are left out: they write nothing the code reads. *)

From Stdlib Require Import ZArith NArith Ascii String List Bool Lia DecimalString.
From Stdlib Require Import FunctionalExtensionality.
From Stdlib.Strings Require Import Byte.
From stdpp Require Import base gmap strings list.

Local Open Scope Z_scope.

(* ===================================================================== *)
(** * Strings as JavaScript sees them *)
(* ===================================================================== *)

Module JSString.

(** [s.startsWith(p)] *)
Fixpoint startsWith (s p : string) {struct p} : bool :=
  match p with
  | EmptyString => true
  | String a p' =>
      match s with
      | EmptyString => false
      | String b s' => Ascii.eqb a b && startsWith s' p'
      end
  end.

(** [s.includes(p)] *)
Fixpoint includes (s p : string) : bool :=
  startsWith s p ||
  match s with
  | EmptyString => false
  | String _ s' => includes s' p
  end.

(** [s.length], for strings whose code units fit one [ascii] *)
Definition length (s : string) : Z := Z.of_nat (String.length s).

(** characters of a string, as a list *)
Fixpoint chars (s : string) : list ascii :=
  match s with
  | EmptyString => []
  | String c s' => c :: chars s'
  end.

Definition code (c : ascii) : N := N_of_ascii c.

Definition in_range (lo hi c : ascii) : bool :=
  (code lo <=? code c)%N && (code c <=? code hi)%N.

Definition is_char (x c : ascii) : bool := (code x =? code c)%N.

(** [/^[class]+$/.test(s)]: at least one character, all of the class *)
Definition test_all (class : ascii -> bool) (s : string) : bool :=
  match s with
  | EmptyString => false
  | _ => forallb class (chars s)
  end.

(** [s.replace(/x/g, y)] for a one-character pattern *)
Fixpoint replace_all (x y : ascii) (s : string) : string :=
  match s with
  | EmptyString => EmptyString
  | String c s' => String (if is_char x c then y else c) (replace_all x y s')
  end.

(** [s.replace(/x+$/, '')]: drop the trailing run of [x] *)
Fixpoint strip_trailing (x : ascii) (s : string) : string :=
  match s with
  | EmptyString => EmptyString
  | String c s' =>
      match strip_trailing x s' with
      | EmptyString => if is_char x c then EmptyString else String c EmptyString
      | r => String c r
      end
  end.

(** [s.split(sep)] for a non-empty separator; [skip] counts the characters
    of a separator still to be passed over, [cur] is the piece being read,
    last character first *)
Fixpoint split_from (sep s : string) (skip : nat) (cur : list ascii) : list string :=
  match s with
  | EmptyString => [string_of_list_ascii (rev cur)]
  | String c s' =>
      match skip with
      | S k => split_from sep s' k cur
      | O =>
          if startsWith s sep
          then string_of_list_ascii (rev cur)
                 :: split_from sep s' (String.length sep - 1) []
          else split_from sep s' O (c :: cur)
      end
  end.

Definition split (sep s : string) : list string := split_from sep s O [].

End JSString.

(* ===================================================================== *)
(** * PKCE utilities (RFC 7636) *)
(* ===================================================================== *)

Module PKCE.
Import JSString.

Definition base64_alphabet : string :=
  "ABCDEFGHIJKLMNOPQRSTUVWXYZabcdefghijklmnopqrstuvwxyz0123456789+/".

(** the base64 digit of a 6-bit group *)
Definition b64 (n : N) : ascii :=
  match String.get (N.to_nat (N.land n 63)) base64_alphabet with
  | Some c => c
  | None => "="%char
  end.

(** [btoa]: base64 of a binary string, three bytes to four digits,
    padded with [=] *)
Fixpoint btoa (s : string) : string :=
  match s with
  | EmptyString => EmptyString
  | String a EmptyString =>
      let x := code a in
      String (b64 (N.shiftr x 2))
        (String (b64 (N.shiftl (N.land x 3) 4)) "==")
  | String a (String b EmptyString) =>
      let x := code a in
      let y := code b in
      String (b64 (N.shiftr x 2))
        (String (b64 (N.lor (N.shiftl (N.land x 3) 4) (N.shiftr y 4)))
           (String (b64 (N.shiftl (N.land y 15) 2)) "="))
  | String a (String b (String c rest)) =>
      let x := code a in
      let y := code b in
      let z := code c in
      String (b64 (N.shiftr x 2))
        (String (b64 (N.lor (N.shiftl (N.land x 3) 4) (N.shiftr y 4)))
           (String (b64 (N.lor (N.shiftl (N.land y 15) 2) (N.shiftr z 6)))
              (String (b64 (N.land z 63)) (btoa rest))))
  end.

(** the loop of [base64URLEncode]: [binary += String.fromCharCode(byte)] *)
Fixpoint binary_of (bytes : list byte) : string :=
  match bytes with
  | [] => EmptyString
  | b :: bs => String (ascii_of_byte b) (binary_of bs)
  end.

Definition base64URLEncode (buffer : list byte) : string :=
  strip_trailing "="
    (replace_all "/" "_"
       (replace_all "+" "-" (btoa (binary_of buffer)))).

(** [generateCodeVerifier]: [array] is the content of the 32-byte
    [Uint8Array] after [crypto.getRandomValues] filled it *)
Definition generateCodeVerifier (array : list byte) : string :=
  base64URLEncode array.

(** [new TextEncoder().encode(s)]: UTF-8 of the code units of [s] *)
Fixpoint TextEncoder_encode (s : string) : list byte :=
  match s with
  | EmptyString => []
  | String c s' =>
      let x := code c in
      if (x <? 128)%N then byte_of_ascii c :: TextEncoder_encode s'
      else
        byte_of_ascii (ascii_of_N (N.lor 192 (N.shiftr x 6)))
          :: byte_of_ascii (ascii_of_N (N.lor 128 (N.land x 63)))
          :: TextEncoder_encode s'
  end.

Definition is_alnum (c : ascii) : bool :=
  in_range "A" "Z" c || in_range "a" "z" c || in_range "0" "9" c.

(** [[A-Za-z0-9\-._~]] *)
Definition unreservedChars (c : ascii) : bool :=
  is_alnum c || is_char "-" c || is_char "." c || is_char "_" c || is_char "~" c.

(** [[A-Za-z0-9\-_]] *)
Definition base64urlChars (c : ascii) : bool :=
  is_alnum c || is_char "-" c || is_char "_" c.

Definition validateCodeVerifier (verifier : string) : bool :=
  if (length verifier <? 43) || (128 <? length verifier) then false
  else test_all unreservedChars verifier.

Definition validateCodeChallenge (challenge : string) : bool :=
  if negb (length challenge =? 43) then false
  else test_all base64urlChars challenge.

(** what the two global replacements of [base64URLEncode] do to one digit *)
Definition url_char (c : ascii) : ascii :=
  let c1 := if is_char "+" c then "-"%char else c in
  if is_char "/" c1 then "_"%char else c1.

(** the two replacements on a whole string *)
Definition to_url (s : string) : string :=
  replace_all "/" "_" (replace_all "+" "-" s).

(** a digit of the url alphabet that is not the padding character *)
Definition digit_ok (c : ascii) : bool :=
  base64urlChars (url_char c) && negb (is_char "=" (url_char c)).

(** [base64URLEncode] on the binary string *)
Definition encode_binary (s : string) : string :=
  strip_trailing "=" (to_url (btoa s)).

Section Challenge.
(** [crypto.subtle.digest('SHA-256', data)], the platform's hash *)
Variable digest_SHA256 : list byte -> list byte.

Definition generateCodeChallenge (verifier : string) : string :=
  let data := TextEncoder_encode verifier in
  let hash := digest_SHA256 data in
  base64URLEncode hash.
End Challenge.

End PKCE.


(* ===================================================================== *)
(** * SHA-256 (FIPS 180-4), the hash behind [crypto.subtle.digest] *)
(* ===================================================================== *)

Module SHA256.

Definition w32 (x : Z) : Z := x mod 2 ^ 32.
Definition rotr (n x : Z) : Z := Z.lor (Z.shiftr x n) (w32 (Z.shiftl x (32 - n))).
Definition Ch (x y z : Z) : Z := Z.lxor (Z.land x y) (Z.land (w32 (Z.lnot x)) z).
Definition Maj (x y z : Z) : Z :=
  Z.lxor (Z.lxor (Z.land x y) (Z.land x z)) (Z.land y z).
Definition Sigma0 (x : Z) : Z := Z.lxor (Z.lxor (rotr 2 x) (rotr 13 x)) (rotr 22 x).
Definition Sigma1 (x : Z) : Z := Z.lxor (Z.lxor (rotr 6 x) (rotr 11 x)) (rotr 25 x).
Definition sigma0 (x : Z) : Z := Z.lxor (Z.lxor (rotr 7 x) (rotr 18 x)) (Z.shiftr x 3).
Definition sigma1 (x : Z) : Z := Z.lxor (Z.lxor (rotr 17 x) (rotr 19 x)) (Z.shiftr x 10).

(** the first 64 primes *)
Definition is_prime (n : nat) : bool :=
  (2 <=? n)%nat && forallb (fun d => negb (n mod d =? 0)%nat) (seq 2 (n - 2)).

Definition primes : list Z := map Z.of_nat (filter is_prime (seq 2 310)).

(** the integer part of the cube root of [n], by bisection between [lo]
    and [hi] *)
Fixpoint cube_root (fuel : nat) (n lo hi : Z) : Z :=
  match fuel with
  | O => lo
  | S fuel' =>
      let mid := (lo + hi) / 2 in
      if mid * mid * mid <=? n
      then cube_root fuel' n mid hi
      else cube_root fuel' n lo mid
  end.

(** round constants: the first 32 bits of the fractional parts of the cube
    roots of the first 64 primes *)
Definition K : list Z :=
  map (fun p => w32 (cube_root 40 (p * 2 ^ 96) 0 (2 ^ 35))) primes.

Record state := mkState { ha : Z; hb : Z; hc : Z; hd : Z; he : Z; hf : Z; hg : Z; hh : Z }.

(** the first 32 bits of the fractional part of the square root of [p] *)
Definition root_bits (p : Z) : Z := w32 (Z.sqrt (p * 2 ^ 64)).

(** initial hash value: from the square roots of the first 8 primes *)
Definition H0 : state :=
  mkState (root_bits 2) (root_bits 3) (root_bits 5) (root_bits 7)
          (root_bits 11) (root_bits 13) (root_bits 17) (root_bits 19).

Definition byteZ (b : byte) : Z := Z.of_N (Byte.to_N b).
Definition Zbyte (x : Z) : byte := byte_of_ascii (ascii_of_N (Z.to_N (x mod 256))).

(** message padding: a 1 bit, zeros, the bit length on 64 bits *)
Definition pad (msg : list byte) : list byte :=
  let l := Z.of_nat (List.length msg) in
  let k := (55 - l) mod 64 in
  let bits := 8 * l in
  msg ++ [x80%byte] ++ repeat x00%byte (Z.to_nat k)
      ++ map (fun i => Zbyte (Z.shiftr bits (8 * i))) [7; 6; 5; 4; 3; 2; 1; 0].

(** big-endian 32-bit words of a byte sequence *)
Fixpoint words (bs : list byte) : list Z :=
  match bs with
  | a :: b :: c :: d :: rest =>
      (byteZ a * 2 ^ 24 + byteZ b * 2 ^ 16 + byteZ c * 2 ^ 8 + byteZ d) :: words rest
  | _ => []
  end.

(** the message schedule, most recent word first *)
Fixpoint schedule (n : nat) (rw : list Z) : list Z :=
  match n with
  | O => rw
  | S n' =>
      let w := w32 (sigma1 (nth 1 rw 0) + nth 6 rw 0 + sigma0 (nth 14 rw 0) + nth 15 rw 0) in
      schedule n' (w :: rw)
  end.

Definition round (s : state) (kw : Z * Z) : state :=
  let t1 := w32 (hh s + Sigma1 (he s) + Ch (he s) (hf s) (hg s) + fst kw + snd kw) in
  let t2 := w32 (Sigma0 (ha s) + Maj (ha s) (hb s) (hc s)) in
  mkState (w32 (t1 + t2)) (ha s) (hb s) (hc s) (w32 (hd s + t1)) (he s) (hf s) (hg s).

Definition compress (s : state) (block : list Z) : state :=
  let w := rev (schedule 48 (rev block)) in
  let r := fold_left round (combine K w) s in
  mkState (w32 (ha s + ha r)) (w32 (hb s + hb r)) (w32 (hc s + hc r)) (w32 (hd s + hd r))
          (w32 (he s + he r)) (w32 (hf s + hf r)) (w32 (hg s + hg r)) (w32 (hh s + hh r)).

Fixpoint blocks (n : nat) (ws : list Z) (s : state) : state :=
  match n with
  | O => s
  | S n' =>
      match ws with
      | [] => s
      | _ => blocks n' (skipn 16 ws) (compress s (firstn 16 ws))
      end
  end.

Definition word_bytes (w : Z) : list byte :=
  [Zbyte (Z.shiftr w 24); Zbyte (Z.shiftr w 16); Zbyte (Z.shiftr w 8); Zbyte w].

Definition sha256 (msg : list byte) : list byte :=
  let ws := words (pad msg) in
  let s := blocks (List.length ws) ws H0 in
  word_bytes (ha s) ++ word_bytes (hb s) ++ word_bytes (hc s) ++ word_bytes (hd s)
    ++ word_bytes (he s) ++ word_bytes (hf s) ++ word_bytes (hg s) ++ word_bytes (hh s).

End SHA256.



(* ===================================================================== *)
(** * JavaScript values *)
(* ===================================================================== *)

(** The values that flow through the session code: JSON payloads of the
    backend, the fields of the store, and the [Blob] of a binary download.
    Numbers are integers (no payload of the session code carries a
    fraction). *)
#[warnings="-register-all"] Inductive JSValue : Type :=
| JUndefined
| JNull
| JBool (b : bool)
| JNum (n : Z)
| JStr (s : string)
| JArr (items : list JSValue)
| JObj (fields : list (string * JSValue))
| JBlob (data : list byte).

Inductive ErrorName := Error | TypeError | SyntaxError.

(** a thrown [Error] object *)
Record JSError := mkError { name : ErrorName; message : string }.

Module JS.

(** truthiness, as tested by [if (v)], [!v], [a || b], [a && b] *)
Definition truthy (v : JSValue) : bool :=
  match v with
  | JUndefined | JNull => false
  | JBool b => b
  | JNum n => negb (n =? 0)
  | JStr s => negb (String.eqb s "")
  | JArr _ | JObj _ | JBlob _ => true
  end.

Definition Z_to_string (n : Z) : string :=
  DecimalString.NilZero.string_of_int (Z.to_int n).

Fixpoint join (sep : string) (l : list string) : string :=
  match l with
  | [] => ""
  | [s] => s
  | s :: rest => s +:+ sep +:+ join sep rest
  end.

(** string conversion, as done by a template literal; a number is written
    digit by digit, which is what JavaScript prints for a safe integer *)
Fixpoint toString (v : JSValue) : string :=
  match v with
  | JUndefined => "undefined"
  | JNull => "null"
  | JBool true => "true"
  | JBool false => "false"
  | JNum n => Z_to_string n
  | JStr s => s
  | JArr items =>
      join "," (map (fun x => match x with
                              | JUndefined | JNull => ""
                              | _ => toString x
                              end) items)
  | JObj _ => "[object Object]"
  | JBlob _ => "[object Blob]"
  end.

Fixpoint assoc (name : string) (fields : list (string * JSValue)) : JSValue :=
  match fields with
  | [] => JUndefined
  | (k, v) :: rest => if String.eqb k name then v else assoc name rest
  end.

(** [v.name] for a data property [name]: [None] is the [TypeError] of a
    property read on [null] or [undefined] *)
Definition get (v : JSValue) (name : string) : option JSValue :=
  match v with
  | JUndefined | JNull => None
  | JObj fields => Some (assoc name fields)
  | _ => Some JUndefined
  end.

(** [v.name] where [v] is known not to be [null] or [undefined] *)
Definition prop (v : JSValue) (name : string) : JSValue :=
  match get v name with
  | Some x => x
  | None => JUndefined
  end.

Definition cannot_read (v : JSValue) (name : string) : JSError :=
  mkError TypeError
    ("Cannot read properties of " +:+ toString v +:+ " (reading '" +:+ name +:+ "')").

(** [JSON.parse(JSON.stringify(v))] for a value that serialises: fields
    holding [undefined] are dropped, [undefined] inside an array becomes
    [null], a [Blob] becomes an empty object *)
Fixpoint JSON_normal (v : JSValue) : JSValue :=
  match v with
  | JArr items =>
      JArr (map (fun x => match x with
                          | JUndefined => JNull
                          | _ => JSON_normal x
                          end) items)
  | JObj fields =>
      JObj ((fix go (fs : list (string * JSValue)) : list (string * JSValue) :=
               match fs with
               | [] => []
               | (k, JUndefined) :: rest => go rest
               | (k, x) :: rest => (k, JSON_normal x) :: go rest
               end) fields)
  | JBlob _ => JObj []
  | _ => v
  end.

Definition hex_digit (n : N) : ascii :=
  match String.get (N.to_nat n) "0123456789abcdef" with
  | Some c => c
  | None => "0"%char
  end.

(** a character inside a JSON string literal *)
Definition JSON_escape (c : ascii) : string :=
  let x := N_of_ascii c in
  if (x =? 34)%N then String "\" (String (ascii_of_N 34) "")
  else if (x =? 92)%N then "\\"
  else if (x =? 8)%N then "\b"
  else if (x =? 12)%N then "\f"
  else if (x =? 10)%N then "\n"
  else if (x =? 13)%N then "\r"
  else if (x =? 9)%N then "\t"
  else if (x <? 32)%N
       then "\u00" +:+ String (hex_digit (x / 16)) (String (hex_digit (x mod 16)) "")
       else String c "".

Fixpoint JSON_quote_from (s : string) : string :=
  match s with
  | EmptyString => String (ascii_of_N 34) ""
  | String c s' => JSON_escape c +:+ JSON_quote_from s'
  end.

Definition JSON_quote (s : string) : string :=
  String (ascii_of_N 34) (JSON_quote_from s).

(** the text [JSON.stringify(v)] of a value that serialises *)
Fixpoint JSON_text (v : JSValue) : string :=
  match v with
  | JUndefined => "undefined"
  | JNull => "null"
  | JBool true => "true"
  | JBool false => "false"
  | JNum n => Z_to_string n
  | JStr s => JSON_quote s
  | JArr items =>
      "[" +:+ join "," (map (fun x => match x with
                                      | JUndefined => "null"
                                      | _ => JSON_text x
                                      end) items) +:+ "]"
  | JObj fields =>
      "{" +:+ join ","
        ((fix go (fs : list (string * JSValue)) : list string :=
            match fs with
            | [] => []
            | (k, JUndefined) :: rest => go rest
            | (k, x) :: rest => (JSON_quote k +:+ ":" +:+ JSON_text x) :: go rest
            end) fields) +:+ "}"
  | JBlob _ => "{}"
  end.

End JS.

(* ===================================================================== *)
(** * The browser state the session code reads and writes *)
(* ===================================================================== *)

(** An item of [localStorage]: the text [JSON.stringify] produced for a
    value, kept as that value, or any other text. *)
Inductive Stored :=
| StoredJSON (v : JSValue)
| StoredText (s : string).

Inductive ReadyState := CONNECTING | OPEN | CLOSING | CLOSED.

Record WebSocket := mkWebSocket { ws_url : string; readyState : ReadyState }.

(** The state of the [auth] store ([useAuthStore]). [user_websocket] is a
    reference into the heap of sockets. *)
Record AuthState := mkAuthState {
  user : JSValue;
  isAuthenticated : bool;
  user_websocket : option nat;
  session_id : JSValue;
  accessToken : JSValue;
  csrfToken : JSValue
}.

Record World := mkWorld {
  ENDURAIN_HOST : string;                 (* window.env.ENDURAIN_HOST *)
  authStore : AuthState;                  (* the auth store *)
  localStorage : gmap string Stored;
  refreshTokenPromise : option nat;       (* module variable of serviceUtils *)
  sockets : list WebSocket;               (* the WebSocket objects created so far *)
  location : list string;                 (* window.location.replace calls, latest first *)
  router : list string;                   (* router.push calls, latest first *)
  locale_value : JSValue                  (* [locale.value] of the i18n locale ref *)
}.

Definition set_authStore (f : AuthState -> AuthState) (w : World) : World :=
  mkWorld (ENDURAIN_HOST w) (f (authStore w)) (localStorage w) (refreshTokenPromise w)
          (sockets w) (location w) (router w) (locale_value w).

Definition set_localStorage (f : gmap string Stored -> gmap string Stored) (w : World) : World :=
  mkWorld (ENDURAIN_HOST w) (authStore w) (f (localStorage w)) (refreshTokenPromise w)
          (sockets w) (location w) (router w) (locale_value w).

Definition set_refreshTokenPromise (p : option nat) (w : World) : World :=
  mkWorld (ENDURAIN_HOST w) (authStore w) (localStorage w) p
          (sockets w) (location w) (router w) (locale_value w).

Definition set_sockets (f : list WebSocket -> list WebSocket) (w : World) : World :=
  mkWorld (ENDURAIN_HOST w) (authStore w) (localStorage w) (refreshTokenPromise w)
          (f (sockets w)) (location w) (router w) (locale_value w).

Definition location_replace (url : string) (w : World) : World :=
  mkWorld (ENDURAIN_HOST w) (authStore w) (localStorage w) (refreshTokenPromise w)
          (sockets w) (url :: location w) (router w) (locale_value w).

Definition router_push (path : string) (w : World) : World :=
  mkWorld (ENDURAIN_HOST w) (authStore w) (localStorage w) (refreshTokenPromise w)
          (sockets w) (location w) (path :: router w) (locale_value w).

Definition set_locale_value (v : JSValue) (w : World) : World :=
  mkWorld (ENDURAIN_HOST w) (authStore w) (localStorage w) (refreshTokenPromise w)
          (sockets w) (location w) (router w) v.

Definition with_user (v : JSValue) (a : AuthState) : AuthState :=
  mkAuthState v (isAuthenticated a) (user_websocket a) (session_id a) (accessToken a) (csrfToken a).
Definition with_isAuthenticated (b : bool) (a : AuthState) : AuthState :=
  mkAuthState (user a) b (user_websocket a) (session_id a) (accessToken a) (csrfToken a).
Definition with_user_websocket (s : option nat) (a : AuthState) : AuthState :=
  mkAuthState (user a) (isAuthenticated a) s (session_id a) (accessToken a) (csrfToken a).
Definition with_session_id (v : JSValue) (a : AuthState) : AuthState :=
  mkAuthState (user a) (isAuthenticated a) (user_websocket a) v (accessToken a) (csrfToken a).
Definition with_accessToken (v : JSValue) (a : AuthState) : AuthState :=
  mkAuthState (user a) (isAuthenticated a) (user_websocket a) (session_id a) v (csrfToken a).
Definition with_csrfToken (v : JSValue) (a : AuthState) : AuthState :=
  mkAuthState (user a) (isAuthenticated a) (user_websocket a) (session_id a) (accessToken a) v.

(** [API_URL] and [FRONTEND_URL] of serviceUtils *)
Definition API_URL (w : World) : string := ENDURAIN_HOST w +:+ "/api/v1/".
Definition FRONTEND_URL (w : World) : string := ENDURAIN_HOST w +:+ "/".

(** [localStorage.getItem(key)] tested by [if (item)]: a stored text is
    truthy unless it is empty *)
Definition stored_truthy (item : option Stored) : bool :=
  match item with
  | None => false
  | Some (StoredJSON _) => true
  | Some (StoredText s) => negb (String.eqb s "")
  end.

(** [localStorage.getItem(key)] as a value: the text, or [null] *)
Definition stored_value (item : option Stored) : JSValue :=
  match item with
  | None => JNull
  | Some (StoredText s) => JStr s
  | Some (StoredJSON v) => JStr (JS.JSON_text v)
  end.

(** [JSON.parse(item)]: [None] is a [SyntaxError]. A text that
    [JSON.stringify] did not produce is not parsed. *)
Definition JSON_parse (item : Stored) : option JSValue :=
  match item with
  | StoredJSON JUndefined => None
  | StoredJSON v => Some v
  | StoredText _ => None
  end.

(** [JSON.stringify(v)], as stored *)
Definition JSON_stringify (v : JSValue) : Stored := StoredJSON (JS.JSON_normal v).

(* ===================================================================== *)
(** * The auth store: synchronous actions *)
(* ===================================================================== *)

(** Outcome of a synchronous action: it returns, or it throws after the
    writes it made so far. *)
Inductive Sync :=
| Done (w : World)
| Raised (w : World) (e : JSError).

Module AuthStore.

(** the empty user of [state()] and of [clearUser] *)
Definition empty_user : JSValue :=
  JObj [ ("id", JNull); ("name", JNull); ("username", JNull); ("email", JNull);
         ("city", JNull); ("birthdate", JNull); ("preferred_language", JNull);
         ("gender", JNull); ("units", JNull); ("height", JNull);
         ("access_type", JNull); ("photo_path", JNull); ("active", JNull);
         ("first_day_of_week", JStr "monday"); ("currency", JNull);
         ("max_heart_rate", JNull); ("is_strava_linked", JNull);
         ("is_garminconnect_linked", JNull);
         ("default_activity_visibility", JStr "public");
         ("hide_activity_start_time", JBool false);
         ("hide_activity_location", JBool false);
         ("hide_activity_map", JBool false);
         ("hide_activity_hr", JBool false);
         ("hide_activity_power", JBool false);
         ("hide_activity_cadence", JBool false);
         ("hide_activity_elevation", JBool false);
         ("hide_activity_speed", JBool false);
         ("hide_activity_pace", JBool false);
         ("hide_activity_laps", JBool false);
         ("hide_activity_workout_sets_steps", JBool false);
         ("hide_activity_gear", JBool false) ].

(** [state()] *)
Definition state : AuthState :=
  mkAuthState empty_user false None JNull JNull JNull.

(** [setLocale(language, locale)]; [locale] tells whether the caller passed
    the locale ref *)
Definition setLocale (language : JSValue) (locale : bool) (w : World) : World :=
  let w := if locale then set_locale_value language w else w in
  set_localStorage (insert "lang" (StoredText (JS.toString language))) w.

(** [setUserSessionId(session_id)] *)
Definition setUserSessionId (sid : JSValue) (w : World) : World :=
  let w := set_authStore (with_session_id sid) w in
  set_localStorage (insert "session_id" (StoredText (JS.toString sid))) w.

(** [setUserWebsocket()]: the constructor is taken to succeed, the event
    handlers only log *)
Definition setUserWebsocket (w : World) : World :=
  let urlSplit := JSString.split "://" (API_URL w) in
  let protocol :=
    if String.eqb (nth 0 urlSplit "undefined") "http" then "ws" else "wss" in
  let websocketURL :=
    protocol +:+ "://" +:+ nth 1 urlSplit "undefined"
      +:+ "ws?access_token=" +:+ JS.toString (accessToken (authStore w)) in
  let ref := List.length (sockets w) in
  let w := set_sockets (fun l => l ++ [mkWebSocket websocketURL CONNECTING]) w in
  set_authStore (with_user_websocket (Some ref)) w.

(** [this.user_websocket && this.user_websocket.readyState === WebSocket.OPEN] *)
Definition websocket_open (w : World) : bool :=
  match user_websocket (authStore w) with
  | Some ref =>
      match sockets w !! ref with
      | Some (mkWebSocket _ OPEN) => true
      | _ => false
      end
  | None => false
  end.

(** [this.user_websocket.close()] *)
Definition websocket_close (w : World) : World :=
  match user_websocket (authStore w) with
  | Some ref =>
      set_sockets (fun l =>
        match l !! ref with
        | Some s => <[ref := mkWebSocket (ws_url s) CLOSING]> l
        | None => l
        end) w
  | None => w
  end.

(** [setUser(userData, session_id, locale)] *)
Definition setUser (userData sid : JSValue) (locale : bool) (w : World) : Sync :=
  let w := set_authStore (with_user userData) w in
  let w := set_localStorage (insert "user" (JSON_stringify (user (authStore w)))) w in
  let w := setUserSessionId sid w in
  let w := set_authStore (with_isAuthenticated true) w in
  let w := setUserWebsocket w in
  match JS.get (user (authStore w)) "preferred_language" with
  | Some language => Done (setLocale language locale w)
  | None => Raised w (JS.cannot_read (user (authStore w)) "preferred_language")
  end.

(** [clearUser(locale)] *)
Definition clearUser (locale : bool) (w : World) : World :=
  let w := set_authStore (with_isAuthenticated false) w in
  let w := set_authStore (with_user empty_user) w in
  let w := if websocket_open w then websocket_close w else w in
  let w := set_authStore (with_user_websocket None) w in
  let w := set_authStore (with_session_id JNull) w in
  let w := set_authStore (with_accessToken JNull) w in
  let w := set_authStore (with_csrfToken JNull) w in
  let w := set_localStorage (delete "user") w in
  let w := set_localStorage (delete "session_id") w in
  setLocale (JStr "us") locale w.

(** [loadUserFromStorage(locale)] *)
Definition loadUserFromStorage (locale : bool) (w : World) : Sync :=
  let storedUser := localStorage w !! "user" in
  if stored_truthy storedUser then
    match storedUser ≫= JSON_parse with
    | Some u =>
        let w := set_authStore (with_user u) w in
        let w := set_authStore (with_isAuthenticated true) w in
        match JS.get (user (authStore w)) "preferred_language" with
        | Some language =>
            let w := setLocale language locale w in
            Done (set_authStore
                    (with_session_id (stored_value (localStorage w !! "session_id"))) w)
        | None => Raised w (JS.cannot_read (user (authStore w)) "preferred_language")
        end
    | None => Raised w (mkError SyntaxError "Unexpected token in JSON")
    end
  else Done w.

Definition setAccessToken (token : JSValue) (w : World) : World :=
  set_authStore (with_accessToken token) w.

Definition setCsrfToken (token : JSValue) (w : World) : World :=
  set_authStore (with_csrfToken token) w.

Definition getAccessToken (w : World) : JSValue := accessToken (authStore w).

Definition getCsrfToken (w : World) : JSValue := csrfToken (authStore w).

End AuthStore.

(* ===================================================================== *)
(** * Requests, responses and asynchronous tasks *)
(* ===================================================================== *)

Inductive Body :=
| NoBody
| JsonBody (data : JSValue)            (* JSON.stringify(data) *)
| FormDataBody (formData : JSValue)    (* a FormData object *)
| UrlEncodedBody (formData : JSValue). (* new URLSearchParams(formData) *)

(** the [options] object handed to [fetch] *)
Record Options := mkOptions {
  method : string;
  body : Body;
  credentials : option string;
  headers : gmap string string
}.

Definition with_headers (h : gmap string string) (o : Options) : Options :=
  mkOptions (method o) (body o) (credentials o) h.

(** [response.json()]: the parsed payload, or the [SyntaxError] of a
    payload that is not JSON *)
Inductive Payload :=
| NotJSON (message : string)
| JSON (v : JSValue).

Record Response := mkResponse {
  status : Z;
  json : Payload;        (* what [response.json()] settles to *)
  blob : list byte       (* what [response.blob()] resolves to *)
}.

(** [response.ok] *)
Definition ok (r : Response) : bool := (200 <=? status r) && (status r <=? 299).

(** what [fetch] settles to *)
Inductive FetchResult :=
| NetworkError (message : string)      (* rejected with a TypeError *)
| Responded (response : Response).

Inductive Settled :=
| Fulfilled (v : JSValue)
| Rejected (e : JSError).

(** An asynchronous computation up to its next suspension. [Fetch] is
    [await fetch(url, options)]; [GetW] and [PutW] read and write the browser
    state; [Async body k] calls an async function (or runs an async IIFE)
    without awaiting it and hands its promise to [k]; [Await p k] awaits
    promise [p]. *)
Inductive Task : Type :=
| Ret (v : JSValue)
| Throw (e : JSError)
| Fetch (url : string) (options : Options) (k : FetchResult -> Task)
| GetW (k : World -> Task)
| PutW (w : World) (k : Task)
| Async (body : Task) (k : nat -> Task)
| Await (p : nat) (k : Settled -> Task).

(** [const x = await t; f(x)] *)
Fixpoint bind (t : Task) (f : JSValue -> Task) : Task :=
  match t with
  | Ret v => f v
  | Throw e => Throw e
  | Fetch url o k => Fetch url o (fun r => bind (k r) f)
  | GetW k => GetW (fun w => bind (k w) f)
  | PutW w k => PutW w (bind k f)
  | Async b k => Async b (fun p => bind (k p) f)
  | Await p k => Await p (fun s => bind (k s) f)
  end.

(** [try { t } catch (error) { h(error) }] *)
Fixpoint try_catch (t : Task) (h : JSError -> Task) : Task :=
  match t with
  | Ret v => Ret v
  | Throw e => h e
  | Fetch url o k => Fetch url o (fun r => try_catch (k r) h)
  | GetW k => GetW (fun w => try_catch (k w) h)
  | PutW w k => PutW w (try_catch k h)
  | Async b k => Async b (fun p => try_catch (k p) h)
  | Await p k => Await p (fun s => try_catch (k s) h)
  end.

(** [try { t } finally { fin }] *)
Fixpoint try_finally (t : Task) (fin : Task) : Task :=
  match t with
  | Ret v => bind fin (fun _ => Ret v)
  | Throw e => bind fin (fun _ => Throw e)
  | Fetch url o k => Fetch url o (fun r => try_finally (k r) fin)
  | GetW k => GetW (fun w => try_finally (k w) fin)
  | PutW w k => PutW w (try_finally k fin)
  | Async b k => Async b (fun p => try_finally (k p) fin)
  | Await p k => Await p (fun s => try_finally (k s) fin)
  end.

Definition andThen (t u : Task) : Task := bind t (fun _ => u).

(** a synchronous write of the browser state *)
Definition modify (f : World -> World) : Task :=
  GetW (fun w => PutW (f w) (Ret JUndefined)).

(** a synchronous action that may throw *)
Definition sync (f : World -> Sync) : Task :=
  GetW (fun w => match f w with
                 | Done w' => PutW w' (Ret JUndefined)
                 | Raised w' e => PutW w' (Throw e)
                 end).

(** [await p] on a promise: its value, or its rejection thrown *)
Definition settled (s : Settled) : Task :=
  match s with
  | Fulfilled v => Ret v
  | Rejected e => Throw e
  end.

Notation "x <- t ;; u" := (bind t (fun x => u))
  (at level 100, t at next level, right associativity).
Notation "t ;;; u" := (andThen t u) (at level 100, right associativity).

(* ===================================================================== *)
(** * serviceUtils: headers and transport *)
(* ===================================================================== *)

Module ServiceUtils.

Definition neq (a b : string) : bool := negb (String.eqb a b).

(** [addAuthHeaders(url, options)] *)
Definition addAuthHeaders (w : World) (url : string) (options : Options) : Options :=
  let options :=
    if neq url "auth/login" &&
       neq url "password-reset/request" &&
       neq url "password-reset/confirm" &&
       neq url "sign-up/request" &&
       neq url "sign-up/confirm" &&
       negb (JSString.startsWith url "public/")
    then
      let accessToken := AuthStore.getAccessToken w in
      if JS.truthy accessToken
      then with_headers
             (<["Authorization" := "Bearer " +:+ JS.toString accessToken]> (headers options))
             options
      else options
    else options in
  if existsb (String.eqb (method options)) ["POST"; "PUT"; "DELETE"; "PATCH"] &&
     neq url "auth/login" &&
     neq url "auth/mfa/verify" &&
     neq url "password-reset/request" &&
     neq url "password-reset/confirm" &&
     neq url "sign-up/request" &&
     neq url "sign-up/confirm"
  then
    let csrfToken := AuthStore.getCsrfToken w in
    if JS.truthy csrfToken
    then with_headers
           (<["X-CSRF-Token" := JS.toString csrfToken]> (headers options))
           options
    else options
  else options.

(** The part of [attemptFetch] that follows [await fetch(fullUrl, options)]:
    what the call settles to, given what [fetch] settled to. *)
Definition received (responseType : string) (result : FetchResult) : Settled :=
  match result with
  | NetworkError m => Rejected (mkError TypeError m)
  | Responded response =>
      if negb (ok response) then
        match json response with
        | NotJSON m => Rejected (mkError SyntaxError m)
        | JSON errorBody =>
            match JS.get errorBody "detail" with
            | None => Rejected (JS.cannot_read errorBody "detail")
            | Some detail =>
                let errorMessage :=
                  if JS.truthy detail then detail else JStr "Unknown error" in
                Rejected (mkError Error
                            (JS.Z_to_string (status response) +:+ " - "
                               +:+ JS.toString errorMessage))
            end
        end
      else if status response =? 204 then Fulfilled JNull
      else if String.eqb responseType "blob" then Fulfilled (JBlob (blob response))
      else match json response with
           | NotJSON m => Rejected (mkError SyntaxError m)
           | JSON v => Fulfilled v
           end
  end.

(** [attemptFetch(url, options, responseType)] *)
Definition attemptFetch (url : string) (options : Options) (responseType : string) : Task :=
  GetW (fun w =>
  let fullUrl := API_URL w +:+ url in
  Fetch fullUrl options (fun result => settled (received responseType result))).

Definition json_headers : gmap string string :=
  {[ "Content-Type" := "application/json"; "X-Client-Type" := "web" ]}.

(** [refreshAccessToken()] of serviceUtils: the single-flight refresh kept
    in the module variable [refreshTokenPromise] *)
Definition refreshAccessToken : Task :=
  GetW (fun w =>
  match refreshTokenPromise w with
  | Some p => Await p settled
  | None =>
      let url := "refresh" in
      let csrfToken := AuthStore.getCsrfToken w in
      let options := mkOptions "POST" NoBody (Some "include") json_headers in
      let options :=
        if JS.truthy csrfToken
        then with_headers (<["X-CSRF-Token" := JS.toString csrfToken]> (headers options)) options
        else options in
      Async
        (try_finally
           (try_catch
              (response <- attemptFetch url options "json" ;;
               match JS.get response "access_token" with
               | None => Throw (JS.cannot_read response "access_token")
               | Some access_token =>
                   (if JS.truthy access_token
                    then modify (AuthStore.setAccessToken access_token)
                    else Ret JUndefined) ;;;
                   (if JS.truthy (JS.prop response "csrf_token")
                    then modify (AuthStore.setCsrfToken (JS.prop response "csrf_token"))
                    else Ret JUndefined) ;;;
                   (if JS.truthy (JS.prop response "session_id")
                    then modify (AuthStore.setUserSessionId (JS.prop response "session_id"))
                    else Ret JUndefined) ;;;
                   Ret response
               end)
              (fun error => Throw error))
           (modify (set_refreshTokenPromise None)))
        (fun p =>
           modify (set_refreshTokenPromise (Some p)) ;;;
           Await p settled)
  end).

Section Recovery.

(** [useAuthStore().refreshAccessToken()] and [useAuthStore().logoutUser()],
    the two store actions [fetchWithRetry] calls *)
Variable authStore_refreshAccessToken : Task.
Variable authStore_logoutUser : Task.

(** [fetchWithRetry(url, options, responseType)] *)
Definition fetchWithRetry_with (url : string) (options : Options) (responseType : string) : Task :=
  GetW (fun w =>
  let options := addAuthHeaders w url options in
  try_catch (attemptFetch url options responseType)
    (fun error =>
       if JSString.startsWith (message error) "401" &&
          neq url "auth/login" &&
          neq url "auth/refresh" &&
          neq url "auth/logout"
       then
         if String.eqb url "garminconnect/link" &&
            JSString.includes (message error)
              "There was an authentication error using Garmin Connect"
         then Throw error
         else if String.eqb url "mfa/verify" &&
                 JSString.includes (message error) "Invalid MFA code"
         then Throw error
         else
           try_catch
             (authStore_refreshAccessToken ;;;
              GetW (fun w =>
              let options := addAuthHeaders w url options in
              attemptFetch url options responseType))
             (fun _ =>
                Async authStore_logoutUser (fun _ =>
                GetW (fun w =>
                PutW (location_replace (FRONTEND_URL w +:+ "login?sessionExpired=true") w)
                     (Ret JUndefined))))
       else Throw error)).

(** [fetchGetRequest(url, options = {})]; [responseType] is
    [options.responseType]. The value [options.responseType || 'json'] is
    handed on as it is and only ever compared with ['blob'] by [===], which
    nothing but that string satisfies: a truthy value that is not a string
    behaves as ['json']. *)
Definition fetchGetRequest_with (url : string) (responseType : JSValue) : Task :=
  let requestOptions := mkOptions "GET" NoBody (Some "include") json_headers in
  let responseType :=
    match responseType with
    | JStr s => if JS.truthy responseType then s else "json"
    | _ => "json"
    end in
  fetchWithRetry_with url requestOptions responseType.

Definition fetchPostFileRequest_with (url : string) (formData : JSValue) : Task :=
  let options := mkOptions "POST" (FormDataBody formData) (Some "include")
                   {[ "X-Client-Type" := "web" ]} in
  fetchWithRetry_with url options "json".

Definition fetchPostFormUrlEncoded_with (url : string) (formData : JSValue) : Task :=
  let options := mkOptions "POST" (UrlEncodedBody formData) (Some "include")
                   {[ "Content-Type" := "application/x-www-form-urlencoded";
                      "X-Client-Type" := "web" ]} in
  fetchWithRetry_with url options "json".

Definition fetchPostRequest_with (url : string) (data : JSValue) : Task :=
  let options := mkOptions "POST" (JsonBody data) (Some "include") json_headers in
  fetchWithRetry_with url options "json".

Definition fetchPutRequest_with (url : string) (data : JSValue) : Task :=
  let options := mkOptions "PUT" (JsonBody data) (Some "include") json_headers in
  fetchWithRetry_with url options "json".

Definition fetchDeleteRequest_with (url : string) : Task :=
  let options := mkOptions "DELETE" NoBody (Some "include") json_headers in
  fetchWithRetry_with url options "json".

End Recovery.

End ServiceUtils.

(* ===================================================================== *)
(** * sessionService and the asynchronous actions of the auth store *)
(* ===================================================================== *)

(** [fetchWithRetry] calls the store's [refreshAccessToken] and
    [logoutUser], which call [fetchWithRetry] back on [auth/refresh] and
    [auth/logout]. For these two urls the recovery branch is excluded by the
    url test, so the store actions are defined over a [fetchWithRetry] whose
    recovery actions are never run ([refreshToken_closed] and
    [logoutUser_closed] below prove that this is the same function). *)
Definition excluded : Task := Ret JUndefined.

Module Session.

Definition logoutUser : Task :=
  ServiceUtils.fetchPostRequest_with excluded excluded "auth/logout" JNull.

Definition refreshToken : Task :=
  ServiceUtils.fetchPostRequest_with excluded excluded "auth/refresh" JNull.

End Session.

Module AuthActions.

(** the writes of [refreshAccessToken] once the response carries an
    access token *)
Definition refreshed (response : JSValue) (w : World) : World :=
  let w := set_authStore (with_accessToken (JS.prop response "access_token")) w in
  let w := if JS.truthy (JS.prop response "csrf_token")
           then set_authStore (with_csrfToken (JS.prop response "csrf_token")) w
           else w in
  if AuthStore.websocket_open w
  then AuthStore.setUserWebsocket (AuthStore.websocket_close w)
  else w.

(** the writes of the [catch] block of [refreshAccessToken] *)
Definition refresh_failed (w : World) : World :=
  let w := set_authStore (with_accessToken JNull) w in
  let w := set_authStore (with_csrfToken JNull) w in
  set_authStore (with_isAuthenticated false) w.

(** [refreshAccessToken()] of the auth store *)
Definition refreshAccessToken : Task :=
  try_catch
    (response <- Session.refreshToken ;;
     if JS.truthy response && JS.truthy (JS.prop response "access_token")
     then
       modify (refreshed response) ;;;
       Ret (JS.prop response "access_token")
     else Throw (mkError Error "No access token in refresh response"))
    (fun error =>
       modify refresh_failed ;;;
       Throw error).

(** [logoutUser(router, locale)]; the two flags tell whether the caller
    passed a router and a locale ref. [router.push] is recorded in the
    browser state and taken to settle at once. *)
Definition logoutUser (router locale : bool) : Task :=
  try_finally
    (try_catch
       (GetW (fun w =>
          if negb (JS.truthy (csrfToken (authStore w))) ||
             negb (JS.truthy (accessToken (authStore w)))
          then try_catch refreshAccessToken (fun refreshError => Ret JUndefined)
          else Ret JUndefined) ;;;
        Session.logoutUser)
       (fun error => Ret JUndefined))
    (modify (AuthStore.clearUser locale) ;;;
     if router
     then modify (router_push "/login?logoutSuccess=true")
     else Ret JUndefined) ;;;
  Ret JUndefined.

End AuthActions.

(** The request functions of serviceUtils, closed over the store. *)
Module Client.

Definition fetchWithRetry : string -> Options -> string -> Task :=
  ServiceUtils.fetchWithRetry_with
    AuthActions.refreshAccessToken (AuthActions.logoutUser false false).

Definition fetchGetRequest : string -> JSValue -> Task :=
  ServiceUtils.fetchGetRequest_with
    AuthActions.refreshAccessToken (AuthActions.logoutUser false false).

Definition fetchPostFileRequest : string -> JSValue -> Task :=
  ServiceUtils.fetchPostFileRequest_with
    AuthActions.refreshAccessToken (AuthActions.logoutUser false false).

Definition fetchPostFormUrlEncoded : string -> JSValue -> Task :=
  ServiceUtils.fetchPostFormUrlEncoded_with
    AuthActions.refreshAccessToken (AuthActions.logoutUser false false).

Definition fetchPostRequest : string -> JSValue -> Task :=
  ServiceUtils.fetchPostRequest_with
    AuthActions.refreshAccessToken (AuthActions.logoutUser false false).

Definition fetchPutRequest : string -> JSValue -> Task :=
  ServiceUtils.fetchPutRequest_with
    AuthActions.refreshAccessToken (AuthActions.logoutUser false false).

Definition fetchDeleteRequest : string -> Task :=
  ServiceUtils.fetchDeleteRequest_with
    AuthActions.refreshAccessToken (AuthActions.logoutUser false false).

(** sessionService *)
Definition authenticateUser (formData : JSValue) : Task :=
  fetchPostFormUrlEncoded "auth/login" formData.
Definition verifyMFAAndLogin (data : JSValue) : Task :=
  fetchPostRequest "auth/mfa/verify" data.
Definition logoutUser : Task := fetchPostRequest "auth/logout" JNull.
Definition refreshToken : Task := fetchPostRequest "auth/refresh" JNull.

End Client.

(* ===================================================================== *)
(** * The event loop *)
(* ===================================================================== *)

(** a network call in flight, and the task that resumes when it settles *)
Record Pending := mkPending {
  owner : nat;
  req_url : string;
  req_options : Options;
  resume : FetchResult -> Task
}.

(** a task suspended on a promise *)
Record Waiter := mkWaiter {
  waiter : nat;
  awaited : nat;
  wake : Settled -> Task
}.

(** The state of the page: the browser state, the promises of the async
    calls made so far ([None] while pending), the network calls in flight,
    the tasks awaiting a promise, and the log of every network call issued,
    oldest first. Each running task is named by the promise it settles. *)
Record Loop := mkLoop {
  world : World;
  promises : list (option Settled);
  inflight : list Pending;
  waiting : list Waiter;
  requests : list (string * Options)
}.

Definition set_world (w : World) (L : Loop) : Loop :=
  mkLoop w (promises L) (inflight L) (waiting L) (requests L).
Definition set_promises (ps : list (option Settled)) (L : Loop) : Loop :=
  mkLoop (world L) ps (inflight L) (waiting L) (requests L).
Definition set_inflight (fs : list Pending) (L : Loop) : Loop :=
  mkLoop (world L) (promises L) fs (waiting L) (requests L).
Definition set_waiting (ws : list Waiter) (L : Loop) : Loop :=
  mkLoop (world L) (promises L) (inflight L) ws (requests L).

Definition settle (p : nat) (s : Settled) (L : Loop) : Loop :=
  set_promises (<[p := Some s]> (promises L)) L.

Definition issue (x : Pending) (L : Loop) : Loop :=
  mkLoop (world L) (promises L) (inflight L ++ [x]) (waiting L)
         (requests L ++ [(req_url x, req_options x)]).

(** Run task [t], whose promise is [self], up to its suspension. *)
Fixpoint exec (t : Task) (self : nat) (L : Loop) {struct t} : Loop :=
  match t with
  | Ret v => settle self (Fulfilled v) L
  | Throw e => settle self (Rejected e) L
  | Fetch url o k => issue (mkPending self url o k) L
  | GetW k => exec (k (world L)) self L
  | PutW w k => exec k self (set_world w L)
  | Async b k =>
      let p := List.length (promises L) in
      let L := exec b p (set_promises (promises L ++ [None]) L) in
      exec (k p) self L
  | Await p k => set_waiting (waiting L ++ [mkWaiter self p k]) L
  end.

(** the first waiter whose promise is settled, and the other waiters *)
Fixpoint find_ready (ws : list Waiter) (ps : list (option Settled))
  : option (Waiter * Settled * list Waiter) :=
  match ws with
  | [] => None
  | x :: rest =>
      match ps !! awaited x with
      | Some (Some s) => Some (x, s, rest)
      | _ =>
          match find_ready rest ps with
          | Some (y, s, rest') => Some (y, s, x :: rest')
          | None => None
          end
      end
  end.

(** resume up to [fuel] tasks whose awaited promise is settled *)
Fixpoint drain (fuel : nat) (L : Loop) : Loop :=
  match fuel with
  | O => L
  | S n =>
      match find_ready (waiting L) (promises L) with
      | None => L
      | Some (x, s, rest) => drain n (exec (wake x s) (waiter x) (set_waiting rest L))
      end
  end.

(** nothing is left to resume *)
Definition quiescent (L : Loop) : Prop :=
  find_ready (waiting L) (promises L) = None.

(** the microtask checkpoint that ends a turn of the loop: one resumption
    for each task waiting when it starts *)
Definition microtasks (L : Loop) : Loop := drain (List.length (waiting L)) L.

(** A page in browser state [w], nothing running. *)
Definition page (w : World) : Loop := mkLoop w [] [] [] [].

(** An event handler calls the async function [t]; its promise is
    [length (promises L)]. *)
Definition call (t : Task) (L : Loop) : Loop :=
  let p := List.length (promises L) in
  microtasks (exec t p (set_promises (promises L ++ [None]) L)).

(** The network call at position [i] of [inflight] settles with [r]. *)
Definition deliver (i : nat) (r : FetchResult) (L : Loop) : Loop :=
  match inflight L !! i with
  | Some x =>
      microtasks (exec (resume x r) (owner x) (set_inflight (delete i (inflight L)) L))
  | None => L
  end.

(** urls of the calls in flight *)
Definition inflight_urls (L : Loop) : list string := map req_url (inflight L).

(* ===================================================================== *)
(** * Vocabulary of the properties *)
(* ===================================================================== *)

(** the allow-list of public endpoints *)
Definition public_endpoint (url : string) : bool :=
  String.eqb url "auth/login" ||
  String.eqb url "password-reset/request" ||
  String.eqb url "password-reset/confirm" ||
  String.eqb url "sign-up/request" ||
  String.eqb url "sign-up/confirm" ||
  JSString.startsWith url "public/".

(** urls for which a 401 always enters the recovery branch of
    [fetchWithRetry] *)
Definition eligible (url : string) : bool :=
  negb (String.eqb url "auth/login") &&
  negb (String.eqb url "auth/refresh") &&
  negb (String.eqb url "auth/logout") &&
  negb (String.eqb url "garminconnect/link") &&
  negb (String.eqb url "mfa/verify").

(** [Some e] when the store's [refreshAccessToken], receiving [r] from the
    network, throws [e]; [None] when it returns the new access token *)
Definition refresh_rejected (r : FetchResult) : option JSError :=
  match ServiceUtils.received "json" r with
  | Rejected e => Some e
  | Fulfilled response =>
      if JS.truthy response && JS.truthy (JS.prop response "access_token")
      then None
      else Some (mkError Error "No access token in refresh response")
  end.

(** where a synchronous action leaves the browser state *)
Definition outcome_world (s : Sync) : World :=
  match s with
  | Done w => w
  | Raised w _ => w
  end.

(** a field that holds something: neither [null] nor [undefined] *)
Definition is_set (v : JSValue) : bool :=
  match v with
  | JNull | JUndefined => false
  | _ => true
  end.

(** the access token and the CSRF token are set together *)
Definition tokens_paired (a : AuthState) : Prop :=
  is_set (accessToken a) = is_set (csrfToken a).

(** the store holds an identity *)
Definition user_populated (a : AuthState) : bool :=
  is_set (JS.prop (user a) "id").

Definition session_invariant (a : AuthState) : Prop :=
  tokens_paired a /\ (user_populated a = true -> isAuthenticated a = true).


(** ** Sample data *)
Module Sample.

Definition athlete : JSValue :=
  JObj [("id", JNum 7); ("name", JStr "Ana"); ("preferred_language", JStr "pt")].

(** a page just loaded, with the user of an earlier login in storage *)
Definition fresh : World :=
  mkWorld "https://endurain.example" AuthStore.state
    {[ "user" := JSON_stringify athlete; "session_id" := StoredText "s-1" ]}
    None [] [] [] JNull.

(** ... after [loadUserFromStorage] *)
Definition reloaded : World :=
  outcome_world (AuthStore.loadUserFromStorage false fresh).

(** a signed-in page holding both tokens *)
Definition signed_in : World :=
  set_authStore
    (fun a => with_csrfToken (JStr "csrf-1") (with_accessToken (JStr "token-1") a))
    reloaded.

Definition get_options : Options :=
  mkOptions "GET" NoBody (Some "include") ServiceUtils.json_headers.

Definition failure (code : Z) (detail : string) : FetchResult :=
  Responded (mkResponse code (JSON (JObj [("detail", JStr detail)])) []).

Definition expired : FetchResult := failure 401 "Token has expired".
Definition invalid_mfa : FetchResult := failure 401 "Invalid MFA code".

Definition tokens : FetchResult :=
  Responded (mkResponse 200
    (JSON (JObj [("session_id", JStr "s-2"); ("access_token", JStr "token-2");
                 ("csrf_token", JStr "csrf-2"); ("token_type", JStr "bearer");
                 ("expires_in", JNum 1734567890)])) []).

Definition no_content : FetchResult :=
  Responded (mkResponse 204 (NotJSON "Unexpected end of JSON input") []).

Definition profile : JSValue :=
  JObj [("id", JNum 7); ("name", JStr "Ana"); ("city", JStr "Porto")].

Definition profile_ok : FetchResult :=
  Responded (mkResponse 200 (JSON profile) []).

End Sample.

(** [n] more callers of the single-flight refresh, each with its own
    promise, while the refresh started in [L] is in flight: promise 0 is the
    first caller, promise 1 the shared refresh, promise [2 + i] the [i]-th
    later caller *)
Fixpoint later_callers (n : nat) (L : Loop) : Loop :=
  match n with
  | O => L
  | S n' => call ServiceUtils.refreshAccessToken (later_callers n' L)
  end.

Definition single_flight_callers (n : nat) : list nat :=
  0%nat :: map (fun i => (2 + i)%nat) (seq 0 n).

(** the promise table once every waiter of [ws] was settled with [s] *)
Definition settle_all (s : Settled) (ws : list Waiter) (ps : list (option Settled)) :=
  foldl (fun ps x => <[waiter x := Some s]> ps) ps ws.

(* ===================================================================== *)
(** * publicServiceUtils *)
(* ===================================================================== *)

Module PublicServiceUtils.

(** [fetchPublicGetRequest(url)] *)
Definition fetchPublicGetRequest (url : string) : Task :=
  let options := mkOptions "GET" NoBody None ServiceUtils.json_headers in
  ServiceUtils.attemptFetch url options "json".

(** [fetchPublicPostRequest(url, data)] *)
Definition fetchPublicPostRequest (url : string) (data : JSValue) : Task :=
  let options := mkOptions "POST" (JsonBody data) None ServiceUtils.json_headers in
  ServiceUtils.attemptFetch url options "json".

End PublicServiceUtils.

(** ** Vocabulary of the header policy *)

(** the methods of [addAuthHeaders] that change state *)
Definition state_changing (m : string) : bool :=
  existsb (String.eqb m) ["POST"; "PUT"; "DELETE"; "PATCH"].

(** the urls for which [addAuthHeaders] never sends the CSRF token *)
Definition csrf_exempt (url : string) : bool :=
  String.eqb url "auth/login" ||
  String.eqb url "auth/mfa/verify" ||
  String.eqb url "password-reset/request" ||
  String.eqb url "password-reset/confirm" ||
  String.eqb url "sign-up/request" ||
  String.eqb url "sign-up/confirm".

(** the urls for which [fetchWithRetry] rethrows every error *)
Definition never_recovered (url : string) : bool :=
  String.eqb url "auth/login" || String.eqb url "auth/refresh" ||
  String.eqb url "auth/logout".

(** the message [fetchWithRetry] looks for on [garminconnect/link] *)
Definition garmin_error : string :=
  "There was an authentication error using Garmin Connect".

(** the options of the call to [auth/refresh] made in store state [w] *)
Definition refresh_options (w : World) : Options :=
  ServiceUtils.addAuthHeaders w "auth/refresh"
    (mkOptions "POST" (JsonBody JNull) (Some "include") ServiceUtils.json_headers).
(** the writes of the single-flight refresh of serviceUtils once it has a
    response: each of the three fields is stored only when truthy *)
Definition single_flight_writes (response : JSValue) (w : World) : World :=
  let w := if JS.truthy (JS.prop response "access_token")
           then AuthStore.setAccessToken (JS.prop response "access_token") w else w in
  let w := if JS.truthy (JS.prop response "csrf_token")
           then AuthStore.setCsrfToken (JS.prop response "csrf_token") w else w in
  if JS.truthy (JS.prop response "session_id")
  then AuthStore.setUserSessionId (JS.prop response "session_id") w else w.

(** what the shared promise of the single-flight refresh settles to *)
Definition single_flight_result (r : FetchResult) : Settled :=
  match ServiceUtils.received "json" r with
  | Rejected e => Rejected e
  | Fulfilled response =>
      match JS.get response "access_token" with
      | None => Rejected (JS.cannot_read response "access_token")
      | Some _ => Fulfilled response
      end
  end.

(** the options of the call to [auth/logout] made in store state [w] *)
Definition logout_options (w : World) : Options :=
  ServiceUtils.addAuthHeaders w "auth/logout"
    (mkOptions "POST" (JsonBody JNull) (Some "include") ServiceUtils.json_headers).

(** the store holds both tokens: the test of [logoutUser] *)
Definition holds_tokens (w : World) : bool :=
  JS.truthy (csrfToken (authStore w)) && JS.truthy (accessToken (authStore w)).

(** the end of [logoutUser(router, locale)]: the [finally] block *)
Definition logged_out (router locale : bool) (w : World) : World :=
  let w := AuthStore.clearUser locale w in
  if router then router_push "/login?logoutSuccess=true" w else w.

(** where the store's [refreshAccessToken] leaves the browser state when the
    network answers [r] *)
Definition refresh_world (r : FetchResult) (w : World) : World :=
  match ServiceUtils.received "json" r with
  | Fulfilled response =>
      if JS.truthy response && JS.truthy (JS.prop response "access_token")
      then AuthActions.refreshed response w
      else AuthActions.refresh_failed w
  | Rejected _ => AuthActions.refresh_failed w
  end.

(* ===================================================================== *)
(** * The auth store: the remaining setters *)
(* ===================================================================== *)

Module JSAssign.

(** the fields of an object after [obj.name = x]: the property is updated
    where it stands, or added last *)
Fixpoint set_field (name : string) (x : JSValue) (fields : list (string * JSValue))
  : list (string * JSValue) :=
  match fields with
  | [] => [(name, x)]
  | (k, v) :: rest =>
      if String.eqb k name then (k, x) :: rest
      else (k, v) :: set_field name x rest
  end.

(** [v.name = x] in module (strict) code: the value [v] refers to
    afterwards, or the [TypeError] thrown. A named property set on an array
    or on a [Blob] is not kept: [JSON.stringify] does not write it. *)
Definition assign (v : JSValue) (name : string) (x : JSValue) : JSValue + JSError :=
  match v with
  | JObj fields => inl (JObj (set_field name x fields))
  | JUndefined | JNull =>
      inr (mkError TypeError
             ("Cannot set properties of " +:+ JS.toString v
                +:+ " (setting '" +:+ name +:+ "')"))
  | JBool _ =>
      inr (mkError TypeError
             ("Cannot create property '" +:+ name +:+ "' on boolean '"
                +:+ JS.toString v +:+ "'"))
  | JNum _ =>
      inr (mkError TypeError
             ("Cannot create property '" +:+ name +:+ "' on number '"
                +:+ JS.toString v +:+ "'"))
  | JStr _ =>
      inr (mkError TypeError
             ("Cannot create property '" +:+ name +:+ "' on string '"
                +:+ JS.toString v +:+ "'"))
  | JArr _ | JBlob _ => inl v
  end.

End JSAssign.

Module AuthSetters.

(** [setPhotoPath(photo_path)] *)
Definition setPhotoPath (photo_path : JSValue) (w : World) : Sync :=
  match JSAssign.assign (user (authStore w)) "photo_path" photo_path with
  | inl u =>
      let w := set_authStore (with_user u) w in
      Done (set_localStorage (insert "user" (JSON_stringify (user (authStore w)))) w)
  | inr e => Raised w e
  end.

(** [setStravaState(is_linked)] *)
Definition setStravaState (is_linked : JSValue) (w : World) : Sync :=
  match JSAssign.assign (user (authStore w)) "is_strava_linked" is_linked with
  | inl u =>
      let w := set_authStore (with_user u) w in
      Done (set_localStorage (insert "user" (JSON_stringify (user (authStore w)))) w)
  | inr e => Raised w e
  end.

(** [setPreferredLanguage(language, locale)] *)
Definition setPreferredLanguage (language : JSValue) (locale : bool) (w : World) : Sync :=
  match JSAssign.assign (user (authStore w)) "preferred_language" language with
  | inl u =>
      let w := set_authStore (with_user u) w in
      let w := set_localStorage (insert "user" (JSON_stringify (user (authStore w)))) w in
      Done (AuthStore.setLocale language locale w)
  | inr e => Raised w e
  end.

End AuthSetters.

(** the store holding the tokens [access] and [csrf] *)
Definition with_tokens (access csrf : JSValue) (w : World) : World :=
  set_authStore (fun a => with_csrfToken csrf (with_accessToken access a)) w.

(** the url [setUserWebsocket] connects to, for the host and the access
    token the store holds *)
Definition websocket_url (w : World) : string :=
  let urlSplit := JSString.split "://" (API_URL w) in
  let protocol :=
    if String.eqb (nth 0 urlSplit "undefined") "http" then "ws" else "wss" in
  protocol +:+ "://" +:+ nth 1 urlSplit "undefined"
    +:+ "ws?access_token=" +:+ JS.toString (accessToken (authStore w)).

(** no [:] in a string *)
Definition no_colon (s : string) : bool :=
  forallb (fun c => negb (JSString.is_char ":" c)) (JSString.chars s).

(* ===================================================================== *)
(** * Reading a base64url string back *)
(* ===================================================================== *)

Module Base64Url.
Import JSString PKCE.

(** the value of a digit of the url alphabet *)
Definition digit_value (c : ascii) : N :=
  match find (fun i => Ascii.eqb (url_char (b64 (N.of_nat i))) c) (seq 0 64) with
  | Some i => N.of_nat i
  | None => 0
  end.

Definition to_byte (n : N) : byte := byte_of_ascii (ascii_of_N n).

(** the bytes an unpadded base64url text stands for *)
Fixpoint decode (s : string) : list byte :=
  match s with
  | String c1 (String c2 EmptyString) =>
      let i1 := digit_value c1 in
      let i2 := digit_value c2 in
      [to_byte (N.lor (N.shiftl i1 2) (N.shiftr i2 4))]
  | String c1 (String c2 (String c3 EmptyString)) =>
      let i1 := digit_value c1 in
      let i2 := digit_value c2 in
      let i3 := digit_value c3 in
      [to_byte (N.lor (N.shiftl i1 2) (N.shiftr i2 4));
       to_byte (N.lor (N.shiftl (N.land i2 15) 4) (N.shiftr i3 2))]
  | String c1 (String c2 (String c3 (String c4 rest))) =>
      let i1 := digit_value c1 in
      let i2 := digit_value c2 in
      let i3 := digit_value c3 in
      let i4 := digit_value c4 in
      to_byte (N.lor (N.shiftl i1 2) (N.shiftr i2 4))
        :: to_byte (N.lor (N.shiftl (N.land i2 15) 4) (N.shiftr i3 2))
        :: to_byte (N.lor (N.shiftl (N.land i3 3) 6) i4)
        :: decode rest
  | _ => []
  end.

(** the four 6-bit groups [btoa] makes of three bytes *)
Definition g1 (x : N) : N := N.shiftr x 2.
Definition g2 (x y : N) : N := N.lor (N.shiftl (N.land x 3) 4) (N.shiftr y 4).
Definition g3 (y z : N) : N := N.lor (N.shiftl (N.land y 15) 2) (N.shiftr z 6).
Definition g4 (z : N) : N := N.land z 63.

(** what reading back needs of two neighbouring bytes *)
Definition groups_ok (x y : N) : bool :=
  (g1 x <? 64)%N && (g2 x y <? 64)%N && (g3 x y <? 64)%N && (g4 y <? 64)%N &&
  (N.lor (N.shiftl (g1 x) 2) (N.shiftr (g2 x y) 4) =? x)%N &&
  (N.land (g2 x y) 15 =? N.shiftr y 4)%N &&
  (N.shiftr (g3 x y) 2 =? N.land x 15)%N &&
  (N.lor (N.shiftl (N.land (g3 x y) 3) 6) (g4 y) =? y)%N &&
  (N.lor (N.shiftl (N.shiftr y 4) 4) (N.land y 15) =? y)%N.

End Base64Url.

(* ===================================================================== *)
(** * userGoalsService and profileService *)
(* ===================================================================== *)

(** [URLSearchParams]: the [application/x-www-form-urlencoded] serialiser *)
Module URLSearchParams.
Import JSString.

(** the bytes written as they are: [A-Za-z0-9*-._] *)
Definition is_plain (c : ascii) : bool :=
  PKCE.is_alnum c || is_char "*" c || is_char "-" c || is_char "." c || is_char "_" c.

Definition hex_upper (n : N) : ascii :=
  match String.get (N.to_nat n) "0123456789ABCDEF" with
  | Some c => c
  | None => "0"%char
  end.

Definition encode_byte (b : byte) : string :=
  let c := ascii_of_byte b in
  if is_char " " c then "+"
  else if is_plain c then String c ""
  else String "%" (String (hex_upper (code c / 16))
                     (String (hex_upper (code c mod 16)) "")).

(** a name or a value: its UTF-8 bytes, percent-encoded *)
Definition encode (s : string) : string :=
  String.concat "" (map encode_byte (PKCE.TextEncoder_encode s)).

(** [params.toString()] *)
Definition toString (params : list (string * string)) : string :=
  JS.join "&" (map (fun p => encode (fst p) +:+ "=" +:+ encode (snd p)) params).

End URLSearchParams.

Module UserGoals.

(** the [params.append] calls of [getUserGoals] for one filter *)
Definition appended (name : string) (value : JSValue) : list (string * string) :=
  if JS.truthy value then [(name, JS.toString value)] else [].

(** the url [getUserGoals(filters = {})] builds; [None] is the [TypeError]
    of reading a filter of [null] *)
Definition goals_url (filters : JSValue) : option string :=
  let filters := match filters with JUndefined => JObj [] | _ => filters end in
  match JS.get filters "interval", JS.get filters "activity_type",
        JS.get filters "goal_type" with
  | Some interval, Some activity_type, Some goal_type =>
      let params := appended "interval" interval ++
                    appended "activity_type" activity_type ++
                    appended "goal_type" goal_type in
      let queryString := URLSearchParams.toString params in
      Some (if JS.truthy (JStr queryString)
            then "profile/goals?" +:+ queryString
            else "profile/goals")
  | _, _, _ => None
  end.

(** [getUserGoals(filters = {})]. The function is not [async]: the
    [TypeError] is thrown to the caller directly. *)
Definition getUserGoals (filters : JSValue) : Task :=
  match goals_url filters with
  | Some url => Client.fetchGetRequest url JUndefined
  | None => Throw (JS.cannot_read filters "interval")
  end.

End UserGoals.

Module Profile.

(** [exportData()] *)
Definition exportData : Task :=
  Client.fetchGetRequest "profile/export" (JStr "blob").

End Profile.

(** occurrences of a character in a string *)
Fixpoint count_char (x : ascii) (s : string) : nat :=
  match s with
  | EmptyString => 0%nat
  | String c s' => ((if Ascii.eqb x c then 1 else 0) + count_char x s')%nat
  end.

(** the characters that structure a url query *)
Definition query_delimiter (c : ascii) : bool :=
  existsb (Ascii.eqb c) ["&"; "="; "?"; "#"; " "; "/"]%char.

(** the filters of [getUserGoals] that are set *)
Definition filters_set (filters : JSValue) : nat :=
  List.length (List.filter (fun name => JS.truthy (JS.prop filters name))
                 ["interval"; "activity_type"; "goal_type"]).

(* ===================================================================== *)
(** * Properties of the PKCE utilities *)
(* ===================================================================== *)

Lemma sha256_length msg : List.length (SHA256.sha256 msg) = 32%nat.
Proof. reflexivity. Qed.

Module PKCEFacts.
Import JSString PKCE.

Lemma to_url_cons c s : to_url (String c s) = String (url_char c) (to_url s).
Proof. reflexivity. Qed.

Lemma b64_land n : b64 n = b64 (N.land n 63).
Proof.
  unfold b64. now rewrite <- N.land_assoc, N.land_diag.
Qed.

Lemma digits_table :
  forallb (fun i => digit_ok (b64 (N.of_nat i))) (seq 0 64) = true.
Proof. vm_compute. reflexivity. Qed.

Lemma b64_digit_ok n : digit_ok (b64 n) = true.
Proof.
  rewrite b64_land.
  assert (Hlt : (N.land n 63 < 64)%N).
  { change 63%N with (N.ones 6). rewrite N.land_ones.
    apply N.mod_lt. discriminate. }
  pose proof digits_table as T.
  rewrite forallb_forall in T.
  specialize (T (N.to_nat (N.land n 63))).
  rewrite N2Nat.id in T. apply T.
  apply in_seq. lia.
Qed.

Lemma b64_url n : base64urlChars (url_char (b64 n)) = true.
Proof.
  pose proof (b64_digit_ok n) as H. unfold digit_ok in H.
  apply andb_prop in H. tauto.
Qed.

Lemma b64_not_pad n : is_char "=" (url_char (b64 n)) = false.
Proof.
  pose proof (b64_digit_ok n) as H. unfold digit_ok in H.
  apply andb_prop in H. destruct H as [_ H].
  now apply negb_true_iff in H.
Qed.

Lemma strip_cons_keep x c s :
  is_char x c = false ->
  strip_trailing x (String c s) = String c (strip_trailing x s).
Proof.
  intros H. simpl. rewrite H. now destruct (strip_trailing x s).
Qed.

Lemma base64URLEncode_binary buffer :
  base64URLEncode buffer = encode_binary (binary_of buffer).
Proof. reflexivity. Qed.

Lemma encode_binary_3 a b c rest :
  exists d1 d2 d3 d4,
    encode_binary (String a (String b (String c rest)))
    = String (url_char (b64 d1)) (String (url_char (b64 d2))
        (String (url_char (b64 d3)) (String (url_char (b64 d4))
           (encode_binary rest)))).
Proof.
  do 4 eexists. unfold encode_binary.
  cbn [btoa]. rewrite !to_url_cons.
  rewrite !strip_cons_keep by apply b64_not_pad.
  reflexivity.
Qed.

Lemma encode_binary_2 a b :
  exists d1 d2 d3,
    encode_binary (String a (String b EmptyString))
    = String (url_char (b64 d1)) (String (url_char (b64 d2))
        (String (url_char (b64 d3)) EmptyString)).
Proof.
  do 3 eexists. unfold encode_binary.
  cbn [btoa]. rewrite !to_url_cons.
  rewrite !strip_cons_keep by apply b64_not_pad.
  reflexivity.
Qed.

(** A buffer of [3k+2] bytes encodes to [4k+3] characters of the
    base64url alphabet: the single padding character is stripped. *)
Lemma encode_3k2 (k : nat) : forall buffer : list byte,
  List.length buffer = (3 * k + 2)%nat ->
  String.length (base64URLEncode buffer) = (4 * k + 3)%nat /\
  forallb base64urlChars (chars (base64URLEncode buffer)) = true.
Proof.
  induction k as [|k IH]; intros buffer Hlen.
  - destruct buffer as [|a [|b [|c rest]]]; try discriminate.
    rewrite base64URLEncode_binary. cbn [binary_of].
    destruct (encode_binary_2 (ascii_of_byte a) (ascii_of_byte b))
      as (d1 & d2 & d3 & ->).
    cbn [String.length chars forallb]. rewrite !b64_url. auto.
  - destruct buffer as [|a [|b [|c rest]]]; try (simpl in Hlen; lia).
    assert (Hrest : List.length rest = (3 * k + 2)%nat) by (simpl in Hlen; lia).
    destruct (IH rest Hrest) as [IHlen IHall].
    rewrite base64URLEncode_binary in *. cbn [binary_of].
    destruct (encode_binary_3 (ascii_of_byte a) (ascii_of_byte b)
                (ascii_of_byte c) (binary_of rest))
      as (d1 & d2 & d3 & d4 & ->).
    cbn [String.length chars forallb]. rewrite !b64_url, IHlen, IHall.
    split; [lia | reflexivity].
Qed.

Lemma base64url_unreserved c : base64urlChars c = true -> unreservedChars c = true.
Proof.
  unfold base64urlChars, unreservedChars. intros H.
  destruct (is_alnum c), (is_char "-" c), (is_char "." c), (is_char "_" c);
    simpl in *; auto; discriminate.
Qed.

Lemma encode_32 (buffer : list byte) :
  List.length buffer = 32%nat ->
  String.length (base64URLEncode buffer) = 43%nat /\
  validateCodeVerifier (base64URLEncode buffer) = true /\
  validateCodeChallenge (base64URLEncode buffer) = true.
Proof.
  intros Hlen. destruct (encode_3k2 10 buffer Hlen) as [L A].
  split; [exact L|].
  unfold validateCodeVerifier, validateCodeChallenge, JSString.length, test_all.
  rewrite L. cbn [Z.of_nat Z.ltb Z.eqb orb negb]. simpl.
  destruct (base64URLEncode buffer) as [|c s]; [discriminate|].
  split; [|exact A].
  apply forallb_forall. intros x Hx.
  apply base64url_unreserved. rewrite forallb_forall in A. now apply A.
Qed.

End PKCEFacts.


(* ===================================================================== *)
(** * Running the session code *)
(* ===================================================================== *)


(** Symbolic execution of the loop: unfold the control structure of the
    tasks and of the loop, leave the data operations folded. *)
Ltac run :=
  cbn [call deliver page microtasks drain find_ready exec settle issue
       set_world set_promises set_inflight set_waiting
       world promises inflight waiting requests
       owner req_url req_options resume waiter awaited wake
       bind try_catch try_finally andThen modify sync settled
       Client.verifyMFAAndLogin Client.fetchPostRequest Client.fetchGetRequest
       Client.fetchWithRetry Client.fetchPostFormUrlEncoded Client.fetchPutRequest
       Client.fetchDeleteRequest Client.fetchPostFileRequest
       Client.authenticateUser Client.logoutUser Client.refreshToken
       Session.refreshToken Session.logoutUser
       AuthActions.refreshAccessToken AuthActions.logoutUser
       ServiceUtils.fetchPostRequest_with ServiceUtils.fetchGetRequest_with
       ServiceUtils.fetchPostFormUrlEncoded_with ServiceUtils.fetchPutRequest_with
       ServiceUtils.fetchDeleteRequest_with ServiceUtils.fetchPostFileRequest_with
       ServiceUtils.fetchWithRetry_with ServiceUtils.attemptFetch
       ServiceUtils.refreshAccessToken excluded
       ServiceUtils.neq String.eqb Ascii.eqb Bool.eqb andb orb negb
       List.length app lookup list_lookup insert list_insert delete list_delete
       inflight_urls map JS.truthy].

(** the same, stopping at the microtask checkpoint *)
Ltac run_task :=
  cbn [page exec settle issue
       set_world set_promises set_inflight set_waiting
       world promises inflight waiting requests
       owner req_url req_options resume waiter awaited wake
       bind try_catch try_finally andThen modify sync settled
       Client.verifyMFAAndLogin Client.fetchPostRequest Client.fetchGetRequest
       Client.fetchWithRetry Client.fetchPostFormUrlEncoded Client.fetchPutRequest
       Client.fetchDeleteRequest Client.fetchPostFileRequest
       Client.authenticateUser Client.logoutUser Client.refreshToken
       Session.refreshToken Session.logoutUser
       AuthActions.refreshAccessToken AuthActions.logoutUser
       ServiceUtils.fetchPostRequest_with ServiceUtils.fetchGetRequest_with
       ServiceUtils.fetchPostFormUrlEncoded_with ServiceUtils.fetchPutRequest_with
       ServiceUtils.fetchDeleteRequest_with ServiceUtils.fetchPostFileRequest_with
       ServiceUtils.fetchWithRetry_with ServiceUtils.attemptFetch
       ServiceUtils.refreshAccessToken excluded
       ServiceUtils.neq String.eqb Ascii.eqb Bool.eqb andb orb negb
       List.length app lookup list_lookup insert list_insert delete list_delete
       inflight_urls map JS.truthy].

(** ... and of the fields of the browser state *)
Ltac fields :=
  cbn [authStore localStorage refreshTokenPromise sockets location router
       locale_value ENDURAIN_HOST API_URL FRONTEND_URL
       set_authStore set_localStorage set_refreshTokenPromise set_sockets
       location_replace router_push set_locale_value
       user isAuthenticated user_websocket session_id accessToken csrfToken
       with_user with_isAuthenticated with_user_websocket with_session_id
       with_accessToken with_csrfToken
       AuthStore.setAccessToken AuthStore.setCsrfToken
       AuthStore.getAccessToken AuthStore.getCsrfToken
       JS.truthy andb orb negb].

Lemma message_401 s : JSString.startsWith (JS.Z_to_string 401 +:+ s) "401" = true.
Proof. reflexivity. Qed.

(** ** The store actions are closed over the same [fetchWithRetry] *)

Lemma fetchWithRetry_excluded refresh logout url options responseType :
  url = "auth/login" \/ url = "auth/refresh" \/ url = "auth/logout" ->
  ServiceUtils.fetchWithRetry_with refresh logout url options responseType
  = ServiceUtils.fetchWithRetry_with excluded excluded url options responseType.
Proof.
  intros Hurl. unfold ServiceUtils.fetchWithRetry_with.
  f_equal. extensionality w. f_equal. extensionality error.
  destruct (JSString.startsWith (message error) "401");
    destruct Hurl as [-> | [-> | ->]]; reflexivity.
Qed.

Lemma refreshToken_closed : Client.refreshToken = Session.refreshToken.
Proof. apply fetchWithRetry_excluded. auto. Qed.

Lemma logoutUser_closed : Client.logoutUser = Session.logoutUser.
Proof. apply fetchWithRetry_excluded. auto. Qed.

(* ===================================================================== *)
(** * Header injection *)
(* ===================================================================== *)

Lemma headers_csrf_step (w : World) url (o : Options) :
  exists o', ServiceUtils.addAuthHeaders w url o = o' /\
    (headers o' !! "Authorization" : option string) =
    if negb (public_endpoint url) then
      if JS.truthy (accessToken (authStore w))
      then Some ("Bearer " +:+ JS.toString (accessToken (authStore w)))
      else headers o !! "Authorization"
    else headers o !! "Authorization".
Proof.
  eexists. split; [reflexivity|].
  unfold ServiceUtils.addAuthHeaders, public_endpoint, ServiceUtils.neq,
    AuthStore.getAccessToken, AuthStore.getCsrfToken.
  destruct (String.eqb url "auth/login"); cbn [negb andb orb];
  destruct (String.eqb url "password-reset/request"); cbn [negb andb orb];
  destruct (String.eqb url "password-reset/confirm"); cbn [negb andb orb];
  destruct (String.eqb url "sign-up/request"); cbn [negb andb orb];
  destruct (String.eqb url "sign-up/confirm"); cbn [negb andb orb];
  destruct (JSString.startsWith url "public/"); cbn [negb andb orb];
  destruct (JS.truthy (accessToken (authStore w)));
  repeat match goal with
         | |- context [if ?c then _ else _] => destruct c
         end;
  cbn [headers with_headers method];
  rewrite ?lookup_insert_ne by discriminate;
  rewrite ?lookup_insert_eq; reflexivity.
Qed.


(* ===================================================================== *)
(** * Transport *)
(* ===================================================================== *)

(** [attemptFetch] issues one network call and settles as [received] says. *)
Lemma attemptFetch_run (w : World) url options responseType (r : FetchResult) :
  let L := call (ServiceUtils.attemptFetch url options responseType) (page w) in
  requests L = [(API_URL w +:+ url, options)] /\
  promises L = [None] /\
  promises (deliver 0 r L) = [Some (ServiceUtils.received responseType r)] /\
  inflight (deliver 0 r L) = [].
Proof.
  run. repeat split.
  all: destruct (ServiceUtils.received responseType r); reflexivity.
Qed.

(** An error payload that is not JSON, or that is the literal [null], makes
    [attemptFetch] fail before the status is used: with the [SyntaxError] of
    [response.json()], or with the [TypeError] of reading [detail]. *)
Lemma error_payload_unreadable (responseType : string) (response : Response) :
  ok response = false ->
  (forall m, json response = NotJSON m ->
     ServiceUtils.received responseType (Responded response)
     = Rejected (mkError SyntaxError m)) /\
  (json response = JSON JNull ->
     ServiceUtils.received responseType (Responded response)
     = Rejected (JS.cannot_read JNull "detail")).
Proof.
  intros Hok. unfold ServiceUtils.received. rewrite Hok. cbn [negb].
  split; [intros m ->|intros ->]; reflexivity.
Qed.

(* ===================================================================== *)
(** * 401 recovery *)
(* ===================================================================== *)

Lemma eligible_inv url :
  eligible url = true ->
  String.eqb url "auth/login" = false /\
  String.eqb url "auth/refresh" = false /\
  String.eqb url "auth/logout" = false /\
  String.eqb url "garminconnect/link" = false /\
  String.eqb url "mfa/verify" = false.
Proof.
  unfold eligible. intros H.
  repeat (apply andb_prop in H; destruct H as [H ?]).
  repeat match goal with
         | X : negb _ = true |- _ => apply negb_true_iff in X
         end.
  auto.
Qed.


(** The exemption works for the url the test names: a 401 with that
    message on [mfa/verify] is rethrown to the caller and nothing else is
    sent. *)
Lemma mfa_verify_literal_exempt
    (w : World) (options : Options) (r : FetchResult) (e : JSError) :
  ServiceUtils.received "json" r = Rejected e ->
  JSString.startsWith (message e) "401" = true ->
  JSString.includes (message e) "Invalid MFA code" = true ->
  let L := deliver 0 r (call (Client.fetchWithRetry "mfa/verify" options "json") (page w)) in
  inflight L = [] /\ promises L = [Some (Rejected e)] /\
  map fst (requests L) = [API_URL w +:+ "mfa/verify"].
Proof.
  intros H1 H2 H3 L. subst L.
  run. rewrite H1. run. rewrite H2, H3. run.
  repeat split.
Qed.


(** Where the wrong MFA code ends when nobody is signed in: the refresh is
    refused too, and the login form gets [undefined] and a redirect to the
    session-expired page instead of the error. *)
Example invalid_mfa_code_ends_in_redirect :
  let L := deliver 0 Sample.expired (deliver 0 Sample.invalid_mfa
             (call (Client.verifyMFAAndLogin
                      (JObj [("username", JStr "ana"); ("mfa_code", JStr "000000")]))
                   (page Sample.fresh))) in
  promises L !! 0%nat = Some (Some (Fulfilled JUndefined)) /\
  location (world L) = ["https://endurain.example/login?sessionExpired=true"].
Proof. vm_compute. split; reflexivity. Qed.

(** Recovery as intended, for one request: the 401 is followed by a
    refresh, the request is sent again with the new token, and its result
    goes to the caller. *)
Example recovery_retries_once :
  let L := deliver 0 Sample.profile_ok (deliver 0 Sample.tokens (deliver 0 Sample.expired
             (call (Client.fetchGetRequest "profile" JUndefined) (page Sample.signed_in)))) in
  promises L = [Some (Fulfilled Sample.profile)] /\
  map fst (requests L)
    = ["https://endurain.example/api/v1/profile";
       "https://endurain.example/api/v1/auth/refresh";
       "https://endurain.example/api/v1/profile"] /\
  map (fun x => (headers (snd x) !! "Authorization" : option string)) (requests L)
    = [Some "Bearer token-1"; Some "Bearer token-1"; Some "Bearer token-2"] /\
  accessToken (authStore (world L)) = JStr "token-2" /\
  csrfToken (authStore (world L)) = JStr "csrf-2" /\
  location (world L) = [].
Proof. vm_compute. repeat split. Qed.

(* ===================================================================== *)
(** * The store's refresh *)
(* ===================================================================== *)

Lemma andb_excluded (b : bool) : b && true && false && true = false.
Proof. destruct b; reflexivity. Qed.

(** One run of the store's [refreshAccessToken]: a single call to
    [auth/refresh]; on failure the error is rethrown after the writes of the
    [catch] block, on success the token is returned after the writes of the
    [try] block. *)
Lemma store_refresh_run (w : World) (r : FetchResult) :
  let L1 := call AuthActions.refreshAccessToken (page w) in
  let L := deliver 0 r L1 in
  inflight_urls L1 = [API_URL w +:+ "auth/refresh"] /\
  world L1 = w /\
  inflight L = [] /\
  match refresh_rejected r with
  | Some e =>
      promises L = [Some (Rejected e)] /\
      world L = AuthActions.refresh_failed w
  | None =>
      exists response,
        ServiceUtils.received "json" r = Fulfilled response /\
        promises L = [Some (Fulfilled (JS.prop response "access_token"))] /\
        world L = AuthActions.refreshed response w
  end.
Proof.
  run. unfold refresh_rejected.
  destruct (ServiceUtils.received "json" r) as [response|e]; run.
  - destruct (JS.truthy response && JS.truthy (JS.prop response "access_token")); run.
    + repeat split. exists response. repeat split.
    + repeat split.
  - rewrite andb_excluded. run. repeat split.
Qed.

(* ===================================================================== *)
(** * The session state *)
(* ===================================================================== *)

Lemma received_json (response : Response) (body : JSValue) :
  ok response = true -> status response <> 204 -> json response = JSON body ->
  ServiceUtils.received "json" (Responded response) = Fulfilled body.
Proof.
  intros Hok H204 Hjson. unfold ServiceUtils.received.
  rewrite Hok, Hjson. cbn [negb].
  destruct (Z.eqb_spec (status response) 204); [contradiction|reflexivity].
Qed.

Lemma truthy_is_set v : JS.truthy v = true -> is_set v = true.
Proof. destruct v; simpl; congruence. Qed.

Lemma truthy_prop_truthy v name : JS.truthy (JS.prop v name) = true -> JS.truthy v = true.
Proof. destruct v; simpl; congruence. Qed.

Lemma authStore_setLocale language locale w :
  authStore (AuthStore.setLocale language locale w) = authStore w.
Proof. unfold AuthStore.setLocale. destruct locale; reflexivity. Qed.

Lemma authStore_websocket_close w :
  authStore (AuthStore.websocket_close w) = authStore w.
Proof.
  unfold AuthStore.websocket_close.
  destruct (user_websocket (authStore w)); reflexivity.
Qed.

Lemma clearUser_authStore locale w :
  authStore (AuthStore.clearUser locale w) = AuthStore.state.
Proof.
  unfold AuthStore.clearUser. rewrite authStore_setLocale.
  fields.
  destruct (AuthStore.websocket_open _);
    rewrite ?authStore_websocket_close; reflexivity.
Qed.

Lemma clearUser_localStorage locale w :
  (localStorage (AuthStore.clearUser locale w) !! "user" : option Stored) = None /\
  (localStorage (AuthStore.clearUser locale w) !! "session_id" : option Stored) = None.
Proof.
  unfold AuthStore.clearUser, AuthStore.setLocale.
  destruct locale; fields;
    (split;
     [ rewrite lookup_insert_ne by discriminate;
       rewrite lookup_delete_ne by discriminate; apply lookup_delete_eq
     | rewrite lookup_insert_ne by discriminate; apply lookup_delete_eq ]).
Qed.

(** what a successful refresh writes *)
Lemma refreshed_fields response w :
  let a := authStore (AuthActions.refreshed response w) in
  accessToken a = JS.prop response "access_token" /\
  csrfToken a = (if JS.truthy (JS.prop response "csrf_token")
                 then JS.prop response "csrf_token"
                 else csrfToken (authStore w)) /\
  user a = user (authStore w) /\
  isAuthenticated a = isAuthenticated (authStore w) /\
  session_id a = session_id (authStore w).
Proof.
  unfold AuthActions.refreshed.
  destruct (JS.truthy (JS.prop response "csrf_token"));
    destruct (AuthStore.websocket_open _);
    unfold AuthStore.setUserWebsocket; fields;
    rewrite ?authStore_websocket_close; fields; auto.
Qed.

(** what a failed refresh writes *)
Lemma refresh_failed_fields w :
  authStore (AuthActions.refresh_failed w)
  = mkAuthState (user (authStore w)) false (user_websocket (authStore w))
      (session_id (authStore w)) JNull JNull.
Proof. reflexivity. Qed.

Lemma refresh_failed_frame w :
  let w' := AuthActions.refresh_failed w in
  localStorage w' = localStorage w /\ sockets w' = sockets w /\
  location w' = location w /\ refreshTokenPromise w' = refreshTokenPromise w /\
  ENDURAIN_HOST w' = ENDURAIN_HOST w.
Proof. repeat split. Qed.


(** ** The invariant, action by action *)

Lemma state_invariant : session_invariant AuthStore.state.
Proof. split; [reflexivity | discriminate]. Qed.

Lemma clearUser_invariant locale w :
  session_invariant (authStore (AuthStore.clearUser locale w)).
Proof. rewrite clearUser_authStore. apply state_invariant. Qed.

Lemma loadUserFromStorage_invariant locale w :
  session_invariant (authStore w) ->
  session_invariant (authStore (outcome_world (AuthStore.loadUserFromStorage locale w))).
Proof.
  intros [Hpair Huser]. unfold AuthStore.loadUserFromStorage.
  destruct (stored_truthy _); [|split; assumption].
  destruct (_ ≫= JSON_parse) as [u|]; [|split; assumption].
  destruct (JS.get _ _); cbn [outcome_world]; fields;
    rewrite ?authStore_setLocale; fields; (split; [exact Hpair | reflexivity]).
Qed.

Lemma setUser_invariant userData sid locale w :
  session_invariant (authStore w) ->
  session_invariant (authStore (outcome_world (AuthStore.setUser userData sid locale w))).
Proof.
  intros [Hpair Huser]. unfold AuthStore.setUser.
  destruct (JS.get _ _); cbn [outcome_world];
    rewrite ?authStore_setLocale;
    unfold AuthStore.setUserWebsocket, AuthStore.setUserSessionId; fields;
    (split; [exact Hpair | reflexivity]).
Qed.

Lemma refreshed_invariant response w :
  JS.truthy (JS.prop response "access_token") = true ->
  is_set (csrfToken (authStore w)) = true \/
    JS.truthy (JS.prop response "csrf_token") = true ->
  session_invariant (authStore w) ->
  session_invariant (authStore (AuthActions.refreshed response w)).
Proof.
  intros Haccess Hcsrf [Hpair Huser].
  destruct (refreshed_fields response w) as (Ha & Hc & Hu & Hi & _).
  unfold session_invariant, tokens_paired, user_populated.
  rewrite Ha, Hc, Hu, Hi. split; [|exact Huser].
  rewrite (truthy_is_set _ Haccess).
  destruct (JS.truthy (JS.prop response "csrf_token")) eqn:E.
  - symmetry. now apply truthy_is_set.
  - destruct Hcsrf as [H|H]; [now rewrite H | discriminate].
Qed.

(* ===================================================================== *)
(** * The single-flight refresh of serviceUtils *)
(* ===================================================================== *)

Lemma exec_settled s self L : exec (settled s) self L = settle self s L.
Proof. destruct s; reflexivity. Qed.

Lemma find_ready_pending (ws : list Waiter) (ps : list (option Settled)) p :
  ps !! p = Some None ->
  Forall (fun x => awaited x = p) ws ->
  find_ready ws ps = None.
Proof.
  intros Hp Hws. induction Hws as [|x ws Hx _ IH]; [reflexivity|].
  cbn [find_ready]. rewrite Hx, Hp, IH. reflexivity.
Qed.

Lemma drain_quiescent fuel L : quiescent L -> drain fuel L = L.
Proof. unfold quiescent. intros H. destruct fuel; cbn [drain]; [|rewrite H]; reflexivity. Qed.

Lemma insert_same_lookup {A} (l : list A) i p (v : A) :
  l !! p = Some v -> <[i := v]> l !! p = Some v.
Proof.
  intros H. destruct (decide (i = p)) as [->|Hne].
  - apply list_lookup_insert_eq. eapply lookup_lt_Some, H.
  - rewrite list_lookup_insert_ne by exact Hne. exact H.
Qed.

Lemma settle_all_keeps s ws : forall ps c,
  ps !! c = Some (Some s) -> settle_all s ws ps !! c = Some (Some s).
Proof.
  induction ws as [|x ws IH]; intros ps c H; [exact H|].
  cbn [settle_all foldl]. apply IH. now apply insert_same_lookup.
Qed.

Lemma settle_all_length s ws : forall ps,
  List.length (settle_all s ws ps) = List.length ps.
Proof.
  induction ws as [|x ws IH]; intros ps; [reflexivity|].
  cbn [settle_all foldl]. unfold settle_all in IH. rewrite IH. apply length_insert.
Qed.

Lemma settle_all_lookup s ws : forall ps c,
  In c (map waiter ws) -> (c < List.length ps)%nat ->
  settle_all s ws ps !! c = Some (Some s).
Proof.
  induction ws as [|x ws IH]; intros ps c Hin Hlt; [destruct Hin|].
  cbn [settle_all foldl]. destruct Hin as [<-|Hin].
  - apply settle_all_keeps. now apply list_lookup_insert_eq.
  - apply IH; [exact Hin|]. now rewrite length_insert.
Qed.

(** Once promise [p] is settled, the checkpoint resumes every task that
    awaits it: each returns (or throws) what [p] settled to. *)
Lemma drain_wakes_all s p : forall ws L,
  waiting L = ws ->
  Forall (fun x => awaited x = p /\ wake x = settled) ws ->
  promises L !! p = Some (Some s) ->
  drain (List.length ws) L
  = mkLoop (world L) (settle_all s ws (promises L)) (inflight L) [] (requests L).
Proof.
  induction ws as [|x ws IH]; intros L Hw Hall Hp.
  - destruct L; cbn in *; subst; reflexivity.
  - inversion Hall as [|x' ws' Hxk Hall']; subst x' ws'. destruct Hxk as [Hx Hk].
    cbn [List.length drain]. rewrite Hw. cbn [find_ready].
    rewrite Hx, Hp, Hk, exec_settled.
    rewrite IH; [reflexivity | reflexivity | exact Hall' |].
    cbn [settle set_promises set_waiting promises].
    now apply insert_same_lookup.
Qed.

(** the state after the first call and [n] later calls *)
Lemma later_callers_state (L1 : Loop) (n : nat) :
  refreshTokenPromise (world L1) = Some 1%nat ->
  promises L1 = [None; None] ->
  waiting L1 = [mkWaiter 0 1 settled] ->
  later_callers n L1
  = mkLoop (world L1) ([None; None] ++ repeat None n) (inflight L1)
      (mkWaiter 0 1 settled :: map (fun i => mkWaiter (2 + i) 1 settled) (seq 0 n))
      (requests L1).
Proof.
  intros Hmark Hps Hws.
  induction n as [|n IH].
  - destruct L1; cbn in *; subst; reflexivity.
  - cbn [later_callers]. rewrite IH. clear IH.
    unfold call. cbn [promises set_promises exec world ServiceUtils.refreshAccessToken].
    rewrite Hmark. cbn [exec set_waiting waiting promises world inflight requests].
    unfold microtasks. rewrite drain_quiescent.
    + unfold set_waiting, set_promises.
      cbn [world promises inflight waiting requests]. f_equal.
      * cbn [app]. do 2 f_equal. symmetry. apply repeat_cons.
      * rewrite seq_S, map_app. cbn [map app]. do 4 f_equal.
        cbn [List.length]. rewrite repeat_length. reflexivity.
    + unfold quiescent, set_waiting, set_promises.
      cbn [world promises inflight waiting requests].
      apply (find_ready_pending _ _ 1%nat); [reflexivity|].
      apply Forall_app. split.
      * constructor; [reflexivity|]. apply Forall_forall. intros x Hx.
        apply list_elem_of_In, in_map_iff in Hx. destruct Hx as (i & <- & _). reflexivity.
      * constructor; [reflexivity|constructor].
Qed.

(** the checkpoint after the shared promise settled with [s] *)
Lemma single_flight_checkpoint (w' : World) (n : nat) (s : Settled) reqs :
  let L' := mkLoop w' (<[1%nat := Some s]> ([None; None] ++ repeat None n)) []
              (mkWaiter 0 1 settled :: map (fun i => mkWaiter (2 + i) 1 settled) (seq 0 n))
              reqs in
  world (microtasks L') = w' /\
  requests (microtasks L') = reqs /\
  inflight (microtasks L') = [] /\
  waiting (microtasks L') = [] /\
  promises (microtasks L') !! 1%nat = Some (Some s) /\
  Forall (fun c => promises (microtasks L') !! c = Some (Some s)) (single_flight_callers n).
Proof.
  intros L'. unfold microtasks.
  assert (Hall : Forall (fun x => awaited x = 1%nat /\ wake x = settled) (waiting L')).
  { cbn [L' waiting]. constructor; [split; reflexivity|].
    apply Forall_forall. intros x Hx.
    apply list_elem_of_In, in_map_iff in Hx. destruct Hx as (i & <- & _).
    split; reflexivity. }
  rewrite (drain_wakes_all s 1%nat (waiting L') L' eq_refl Hall) by reflexivity.
  cbn [world requests inflight waiting promises].
  repeat (split; [reflexivity|]). split.
  - apply settle_all_keeps. reflexivity.
  - unfold single_flight_callers. apply Forall_forall. intros c Hc.
    apply list_elem_of_In in Hc.
    apply settle_all_lookup.
    + cbn [L' waiting map waiter]. destruct Hc as [<-|Hc]; [left; reflexivity|right].
      rewrite map_map. cbn [waiter]. exact Hc.
    + cbn [L' promises]. rewrite length_insert, length_app, repeat_length. cbn [List.length].
      destruct Hc as [<-|Hc]; [lia|].
      apply in_map_iff in Hc. destruct Hc as (i & <- & Hi). apply in_seq in Hi. lia.
Qed.

(** The first call starts the refresh: one network call, owned by the
    shared promise 1, on which the caller waits. When the call settles with
    [r], the shared promise settles; if it is rejected, the only write is the
    reset of [refreshTokenPromise]. *)
Lemma single_flight_first_call (w : World) (r : FetchResult) :
  refreshTokenPromise w = None ->
  exists K o,
    call ServiceUtils.refreshAccessToken (page w)
    = mkLoop (set_refreshTokenPromise (Some 1%nat) w) [None; None]
        [mkPending 1 (API_URL w +:+ "refresh") o K] [mkWaiter 0 1 settled]
        [(API_URL w +:+ "refresh", o)] /\
    forall L', exists s w',
      exec (K r) 1 L' = settle 1 s (set_world w' L') /\
      (forall e, s = Rejected e -> w' = set_refreshTokenPromise None (world L')).
Proof.
  intros Hnone. do 2 eexists. split.
  - unfold call, page.
    cbn [promises set_promises exec world ServiceUtils.refreshAccessToken app List.length].
    rewrite Hnone. run. reflexivity.
  - intros L'. cbn beta.
    destruct (ServiceUtils.received "json" r) as [response|e']; run_task.
    + destruct (JS.get response "access_token") as [token|]; run_task.
      * destruct (JS.truthy token); run_task;
          destruct (JS.truthy (JS.prop response "csrf_token")); run_task;
          destruct (JS.truthy (JS.prop response "session_id")); run_task;
          (do 2 eexists; split; [reflexivity | discriminate]).
      * do 2 eexists. split; [reflexivity|]. reflexivity.
    + do 2 eexists. split; [reflexivity|]. reflexivity.
Qed.

(** The single-flight refresh, [n + 1] callers, the refresh failing with
    [e]: one network call was issued; every caller is rejected with [e];
    [refreshTokenPromise] is cleared; the store is as it was. *)
Lemma single_flight_failure (w : World) (n : nat) (r : FetchResult) (e : JSError) :
  refreshTokenPromise w = None ->
  let L1 := later_callers n (call ServiceUtils.refreshAccessToken (page w)) in
  let L := deliver 0 r L1 in
  promises L !! 1%nat = Some (Some (Rejected e)) ->
  map fst (requests L) = [API_URL w +:+ "refresh"] /\
  inflight_urls L1 = [API_URL w +:+ "refresh"] /\
  Forall (fun c => promises L !! c = Some (Some (Rejected e))) (single_flight_callers n) /\
  refreshTokenPromise (world L) = None /\
  authStore (world L) = authStore w /\
  localStorage (world L) = localStorage w /\
  inflight L = [] /\ waiting L = [] /\ quiescent L.
Proof.
  intros Hnone L1 L.
  destruct (single_flight_first_call w r Hnone) as (K & o & Hcall & HK).
  assert (HL1 : L1 = mkLoop (set_refreshTokenPromise (Some 1%nat) w)
                       ([None; None] ++ repeat None n)
                       [mkPending 1 (API_URL w +:+ "refresh") o K]
                       (mkWaiter 0 1 settled
                          :: map (fun i => mkWaiter (2 + i) 1 settled) (seq 0 n))
                       [(API_URL w +:+ "refresh", o)]).
  { subst L1. rewrite Hcall. now rewrite later_callers_state. }
  clearbody L1. subst L1.
  destruct (HK (set_inflight []
                  (mkLoop (set_refreshTokenPromise (Some 1%nat) w)
                     ([None; None] ++ repeat None n)
                     [mkPending 1 (API_URL w +:+ "refresh") o K]
                     (mkWaiter 0 1 settled
                        :: map (fun i => mkWaiter (2 + i) 1 settled) (seq 0 n))
                     [(API_URL w +:+ "refresh", o)])))
    as (s & w' & Hexec & Hw').
  assert (HL : L = microtasks
                     (mkLoop w' (<[1%nat := Some s]> ([None; None] ++ repeat None n)) []
                        (mkWaiter 0 1 settled
                           :: map (fun i => mkWaiter (2 + i) 1 settled) (seq 0 n))
                        [(API_URL w +:+ "refresh", o)])).
  { subst L. unfold deliver.
    cbn [inflight lookup list_lookup resume owner delete list_delete].
    rewrite Hexec. reflexivity. }
  clearbody L. subst L.
  destruct (single_flight_checkpoint w' n s [(API_URL w +:+ "refresh", o)])
    as (Hworld & Hreq & Hin & Hwait & Hone & Hall).
  cbv zeta in *.
  intros Hrej. rewrite Hone in Hrej. injection Hrej as ->.
  rewrite Hworld, Hreq, Hin, Hwait.
  specialize (Hw' e eq_refl). subst w'.
  do 8 (split; [first [reflexivity | exact Hall]|]).
  unfold quiescent. rewrite Hwait. reflexivity.
Qed.

(** Three callers of the single-flight refresh, the refresh succeeding: one
    network call, the same response for each caller, the tokens and the
    session id stored, the marker cleared. *)
Example single_flight_success :
  let L := deliver 0 Sample.tokens
             (later_callers 2 (call ServiceUtils.refreshAccessToken (page Sample.signed_in))) in
  map fst (requests L) = ["https://endurain.example/api/v1/refresh"] /\
  (exists response,
     promises L = [Some (Fulfilled response); Some (Fulfilled response);
                   Some (Fulfilled response); Some (Fulfilled response)] /\
  JS.prop response "access_token" = JStr "token-2") /\
  accessToken (authStore (world L)) = JStr "token-2" /\
  csrfToken (authStore (world L)) = JStr "csrf-2" /\
  session_id (authStore (world L)) = JStr "s-2" /\
  refreshTokenPromise (world L) = None.
Proof.
  vm_compute. split; [reflexivity|]. split; [|repeat split].
  eexists. split; reflexivity.
Qed.

(* ===================================================================== *)
(** * Refresh failure inside [fetchWithRetry] *)
(* ===================================================================== *)

Lemma andb_excluded_logout (b : bool) : b && true && true && false = false.
Proof. destruct b; reflexivity. Qed.

Lemma refreshed_frame response w :
  let w' := AuthActions.refreshed response w in
  ENDURAIN_HOST w' = ENDURAIN_HOST w /\ location w' = location w /\
  localStorage w' = localStorage w.
Proof.
  unfold AuthActions.refreshed, AuthStore.setUserWebsocket, AuthStore.websocket_close.
  destruct (JS.truthy _); destruct (AuthStore.websocket_open _); fields;
    try destruct (user_websocket _); repeat split.
Qed.

Lemma clearUser_frame locale w :
  let w' := AuthStore.clearUser locale w in
  ENDURAIN_HOST w' = ENDURAIN_HOST w /\ location w' = location w /\
  router w' = router w /\ refreshTokenPromise w' = refreshTokenPromise w.
Proof.
  unfold AuthStore.clearUser, AuthStore.setLocale, AuthStore.websocket_close.
  destruct locale; destruct (AuthStore.websocket_open _); fields;
    try destruct (user_websocket _); repeat split.
Qed.

Lemma refreshed_host response w :
  ENDURAIN_HOST (AuthActions.refreshed response w) = ENDURAIN_HOST w.
Proof. apply refreshed_frame. Qed.

Lemma refreshed_location response w :
  location (AuthActions.refreshed response w) = location w.
Proof. apply refreshed_frame. Qed.

Lemma clearUser_host locale w :
  ENDURAIN_HOST (AuthStore.clearUser locale w) = ENDURAIN_HOST w.
Proof. apply clearUser_frame. Qed.

Lemma clearUser_location locale w :
  location (AuthStore.clearUser locale w) = location w.
Proof. apply clearUser_frame. Qed.

Lemma clearUser_user locale w :
  (localStorage (AuthStore.clearUser locale w) !! "user" : option Stored) = None.
Proof. apply clearUser_localStorage. Qed.

Lemma clearUser_session_id locale w :
  (localStorage (AuthStore.clearUser locale w) !! "session_id" : option Stored) = None.
Proof. apply clearUser_localStorage. Qed.

(** one step of a run: unfold the control flow, use what is known of the
    responses *)
Ltac step :=
  run; unfold ServiceUtils.neq;
  repeat match goal with
         | H : ServiceUtils.received _ _ = _ |- _ => rewrite H
         | H : JSString.startsWith _ _ = _ |- _ => rewrite H
         | H : String.eqb _ _ = _ |- _ => rewrite H
         | H : JS.truthy _ && JS.truthy _ = _ |- _ => rewrite H
         end;
  rewrite ?andb_excluded, ?andb_excluded_logout;
  cbn [AuthActions.refresh_failed set_authStore authStore csrfToken accessToken
       with_accessToken with_csrfToken with_isAuthenticated JS.truthy negb orb andb].

Ltac steps := do 6 step.

Ltac loop_state :=
  unfold issue, settle, set_inflight, set_promises, set_waiting, set_world;
  cbn [world promises inflight waiting requests app List.length
       lookup list_lookup insert list_insert delete list_delete
       owner req_url req_options resume page].

(** A request to an eligible url is answered 401, and the refresh fails
    with [e2]. [r3] and [r4] are the answers to the two calls that
    [logoutUser] then makes. *)
Lemma teardown_run
    (w : World) (url : string) (options : Options) (responseType : string)
    (r1 r2 r3 r4 : FetchResult) (e1 e2 : JSError) :
  eligible url = true ->
  ServiceUtils.received responseType r1 = Rejected e1 ->
  JSString.startsWith (message e1) "401" = true ->
  refresh_rejected r2 = Some e2 ->
  let L1 := call (Client.fetchWithRetry url options responseType) (page w) in
  let L2 := deliver 0 r1 L1 in
  let L3 := deliver 0 r2 L2 in
  let L4 := deliver 0 r3 L3 in
  let L5 := deliver 0 r4 L4 in
  let login := FRONTEND_URL w +:+ "login?sessionExpired=true" in
  (inflight_urls L2 = [API_URL w +:+ "auth/refresh"] /\
   promises L2 = [None] /\ world L2 = w) /\
  (promises L3 = [Some (Fulfilled JUndefined); None] /\
   world L3 = location_replace login (AuthActions.refresh_failed w) /\
   inflight_urls L3 = [API_URL w +:+ "auth/refresh"] /\
   map fst (requests L3)
     = [API_URL w +:+ url; API_URL w +:+ "auth/refresh"; API_URL w +:+ "auth/refresh"]) /\
  (inflight_urls L4 = [API_URL w +:+ "auth/logout"] /\
   promises L4 = [Some (Fulfilled JUndefined); None] /\
   location (world L4) = login :: location w) /\
  (promises L5 = [Some (Fulfilled JUndefined); Some (Fulfilled JUndefined)] /\
   authStore (world L5) = AuthStore.state /\
   (localStorage (world L5) !! "user" : option Stored) = None /\
   (localStorage (world L5) !! "session_id" : option Stored) = None /\
   location (world L5) = login :: location w /\
   inflight L5 = [] /\
   map fst (requests L5)
     = [API_URL w +:+ url; API_URL w +:+ "auth/refresh"; API_URL w +:+ "auth/refresh";
        API_URL w +:+ "auth/logout"]).
Proof.
  intros Hurl H1 H401 H2 L1 L2 L3 L4 L5 login.
  destruct (eligible_inv url Hurl) as (U1 & U2 & U3 & U4 & U5).
  unfold refresh_rejected in H2.
  destruct (ServiceUtils.received "json" r2) as [v2|e2'] eqn:E2;
    [destruct (JS.truthy v2 && JS.truthy (JS.prop v2 "access_token")) eqn:T2;
     [discriminate H2|] |];
    injection H2 as <-.
  all: eassert (HL2 : L2 = _);
    [subst L2 L1; steps; loop_state; reflexivity | clearbody L2; clear L1; subst L2].
  all: eassert (HL3 : L3 = _);
    [subst L3; steps; loop_state; reflexivity | clearbody L3; subst L3].
  all: destruct (ServiceUtils.received "json" r3) as [v3|e3] eqn:E3;
    [destruct (JS.truthy v3 && JS.truthy (JS.prop v3 "access_token")) eqn:T3|].
  all: eassert (HL4 : L4 = _);
    [subst L4; steps; loop_state; reflexivity | clearbody L4; subst L4].
  all: destruct (ServiceUtils.received "json" r4) as [v4|e4] eqn:E4.
  all: eassert (HL5 : L5 = _);
    [subst L5; steps; loop_state; reflexivity | clearbody L5; subst L5].
  all: cbn [inflight_urls map req_url fst world promises inflight requests].
  all: unfold login, API_URL, FRONTEND_URL.
  all: rewrite ?clearUser_authStore, ?clearUser_user, ?clearUser_session_id,
         ?clearUser_location, ?refreshed_location, ?refreshed_host.
  all: cbn [AuthActions.refresh_failed set_authStore location_replace
            ENDURAIN_HOST location].
  all: repeat split.
Qed.

(* ===================================================================== *)
(** * The properties of the session subsystem *)
(* ===================================================================== *)

(** ** C1 -- concurrent 401s.
    Two requests are in flight and each receives a 401: each of them calls
    the store's [refreshAccessToken], and two calls to [auth/refresh] are in
    flight at the same time. *)
Theorem C1_concurrent_401s_refresh_twice
    (w : World) (r1 r2 : FetchResult) (e1 e2 : JSError) :
  ServiceUtils.received "json" r1 = Rejected e1 ->
  JSString.startsWith (message e1) "401" = true ->
  ServiceUtils.received "json" r2 = Rejected e2 ->
  JSString.startsWith (message e2) "401" = true ->
  let L0 := call (Client.fetchGetRequest "profile/goals/results" JUndefined)
              (call (Client.fetchGetRequest "profile" JUndefined) (page w)) in
  let L := deliver 0 r2 (deliver 0 r1 L0) in
  inflight_urls L0 = [API_URL w +:+ "profile"; API_URL w +:+ "profile/goals/results"] /\
  inflight_urls L = [API_URL w +:+ "auth/refresh"; API_URL w +:+ "auth/refresh"] /\
  promises L = [None; None] /\
  world L = w.
Proof.
  intros H1 H2 H3 H4 L0 L. subst L L0.
  run. rewrite H1. run. rewrite H2. run. rewrite H3. run. rewrite H4. run.
  repeat split.
Qed.

Lemma C1_concurrent_401s_refresh_twice_witness :
  let L := deliver 0 Sample.expired (deliver 0 Sample.expired
             (call (Client.fetchGetRequest "profile/goals/results" JUndefined)
                (call (Client.fetchGetRequest "profile" JUndefined)
                   (page Sample.signed_in)))) in
  inflight_urls L = ["https://endurain.example/api/v1/auth/refresh";
                     "https://endurain.example/api/v1/auth/refresh"].
Proof.
  apply (C1_concurrent_401s_refresh_twice Sample.signed_in Sample.expired Sample.expired
           (mkError Error "401 - Token has expired")
           (mkError Error "401 - Token has expired")); reflexivity.
Defined.

(** ** C2 -- the 401 of an invalid MFA code.
    [verifyMFAAndLogin] posts to [auth/mfa/verify]; [fetchWithRetry] exempts
    the url [mfa/verify]. A 401 whose message contains "Invalid MFA code"
    therefore enters the recovery branch: a call to [auth/refresh] is issued
    and the caller is left waiting instead of receiving the error. *)
Theorem C2_invalid_mfa_code_starts_refresh
    (w : World) (data : JSValue) (r : FetchResult) (e : JSError) :
  ServiceUtils.received "json" r = Rejected e ->
  JSString.startsWith (message e) "401" = true ->
  JSString.includes (message e) "Invalid MFA code" = true ->
  let L := deliver 0 r (call (Client.verifyMFAAndLogin data) (page w)) in
  inflight_urls L = [API_URL w +:+ "auth/refresh"] /\
  promises L = [None] /\
  map fst (requests L) = [API_URL w +:+ "auth/mfa/verify"; API_URL w +:+ "auth/refresh"].
Proof.
  intros H1 H2 H3 L. subst L.
  run. rewrite H1. run. rewrite H2. run.
  repeat split.
Qed.

Lemma C2_invalid_mfa_code_starts_refresh_witness :
  let L := deliver 0 Sample.invalid_mfa
             (call (Client.verifyMFAAndLogin
                      (JObj [("username", JStr "ana"); ("mfa_code", JStr "000000")]))
                   (page Sample.fresh)) in
  inflight_urls L = ["https://endurain.example/api/v1/auth/refresh"] /\
  promises L = [None] /\
  map fst (requests L) = ["https://endurain.example/api/v1/auth/mfa/verify";
                          "https://endurain.example/api/v1/auth/refresh"].
Proof.
  apply (C2_invalid_mfa_code_starts_refresh Sample.fresh _ Sample.invalid_mfa
           (mkError Error "401 - Invalid MFA code")); reflexivity.
Defined.

(** The store's [refreshAccessToken] that fails on a signed-in page clears
    the tokens and resets [isAuthenticated]. *)
Lemma C3_store_refresh_failure_writes_state :
  let L := deliver 0 Sample.expired
             (call AuthActions.refreshAccessToken (page Sample.signed_in)) in
  promises L = [Some (Rejected (mkError Error "401 - Token has expired"))] /\
  accessToken (authStore Sample.signed_in) = JStr "token-1" /\
  csrfToken (authStore Sample.signed_in) = JStr "csrf-1" /\
  isAuthenticated (authStore Sample.signed_in) = true /\
  accessToken (authStore (world L)) = JNull /\
  csrfToken (authStore (world L)) = JNull /\
  isAuthenticated (authStore (world L)) = false /\
  authStore (world L) <> authStore Sample.signed_in.
Proof.
  vm_compute. repeat (split; [reflexivity|]). discriminate.
Qed.

(** ** C3 -- refresh failure and the session state.
    The single-flight refresh of serviceUtils, failing with [e]: one network
    call was made for all the callers, each caller is rejected with [e],
    [refreshTokenPromise] is cleared and the store is untouched.
    The store's own [refreshAccessToken], which is the one [fetchWithRetry]
    calls, rethrows [e] to its caller after setting [accessToken] and
    [csrfToken] to [null] and [isAuthenticated] to [false]; [user],
    [session_id], the websocket and the storage stay as they were. *)
Theorem C3_refresh_failure_effects :
  (forall (w : World) (n : nat) (r : FetchResult) (e : JSError),
     refreshTokenPromise w = None ->
     let L1 := later_callers n (call ServiceUtils.refreshAccessToken (page w)) in
     let L := deliver 0 r L1 in
     promises L !! 1%nat = Some (Some (Rejected e)) ->
     map fst (requests L) = [API_URL w +:+ "refresh"] /\
     Forall (fun c => promises L !! c = Some (Some (Rejected e)))
       (single_flight_callers n) /\
     refreshTokenPromise (world L) = None /\
     authStore (world L) = authStore w /\
     quiescent L) /\
  (forall (w : World) (r : FetchResult) (e : JSError),
     refresh_rejected r = Some e ->
     let L := deliver 0 r (call AuthActions.refreshAccessToken (page w)) in
     promises L = [Some (Rejected e)] /\
     authStore (world L)
       = mkAuthState (user (authStore w)) false (user_websocket (authStore w))
           (session_id (authStore w)) JNull JNull /\
     localStorage (world L) = localStorage w /\
     sockets (world L) = sockets w).
Proof.
  split.
  - intros w n r e Hnone L1 L Hrej.
    destruct (single_flight_failure w n r e Hnone Hrej)
      as (Hreq & _ & Hall & Hmark & Hstore & _ & _ & _ & Hq).
    auto.
  - intros w r e Hr L. subst L.
    destruct (store_refresh_run w r) as (_ & _ & _ & Hrun).
    rewrite Hr in Hrun. destruct Hrun as [Hp Hw].
    rewrite Hp, Hw. repeat split.
Qed.

Lemma C3_refresh_failure_effects_witness :
  let L := deliver 0 Sample.expired
             (later_callers 2 (call ServiceUtils.refreshAccessToken (page Sample.signed_in))) in
  promises L !! 1%nat = Some (Some (Rejected (mkError Error "401 - Token has expired"))) /\
  Forall (fun c => promises L !! c
                   = Some (Some (Rejected (mkError Error "401 - Token has expired"))))
    [0; 2; 3]%nat /\
  authStore (world L) = authStore Sample.signed_in /\
  accessToken
    (authStore (world (deliver 0 Sample.expired
                         (call AuthActions.refreshAccessToken (page Sample.signed_in)))))
  = JNull.
Proof.
  destruct C3_refresh_failure_effects as [Hsingle Hstore].
  assert (H1 : promises (deliver 0 Sample.expired
                 (later_callers 2
                    (call ServiceUtils.refreshAccessToken (page Sample.signed_in))))
               !! 1%nat
               = Some (Some (Rejected (mkError Error "401 - Token has expired"))))
    by (vm_compute; reflexivity).
  destruct (Hsingle Sample.signed_in 2%nat Sample.expired
              (mkError Error "401 - Token has expired") eq_refl H1)
    as (_ & Hall & _ & Hsame & _).
  destruct (Hstore Sample.signed_in Sample.expired
              (mkError Error "401 - Token has expired") eq_refl)
    as (_ & Hstate & _).
  split; [exact H1|]. split; [exact Hall|]. split; [exact Hsame|].
  rewrite Hstate. reflexivity.
Defined.

(** The invariant fails after a refresh that fails on a reloaded page: the
    tokens are cleared and [isAuthenticated] is reset, [user] stays. *)
Lemma C4_refresh_failure_keeps_user :
  let L := deliver 0 Sample.expired
             (call AuthActions.refreshAccessToken (page Sample.reloaded)) in
  session_invariant (authStore Sample.reloaded) /\
  promises L = [Some (Rejected (mkError Error "401 - Token has expired"))] /\
  JS.prop (user (authStore (world L))) "id" = JNum 7 /\
  isAuthenticated (authStore (world L)) = false /\
  ~ session_invariant (authStore (world L)).
Proof.
  vm_compute. split; [split; [reflexivity|reflexivity]|].
  do 3 (split; [reflexivity|]).
  intros [_ H]. specialize (H eq_refl). discriminate.
Qed.

(** ** C4 -- the session invariant, as the store keeps it.
    The initial state satisfies the invariant and [clearUser] establishes
    it; [loadUserFromStorage] and [setUser] preserve it; a successful refresh
    preserves it when the response carries a CSRF token (or one is already
    held). A failed refresh clears both tokens together and resets
    [isAuthenticated] but keeps [user]. [setAccessToken] and [setCsrfToken]
    each write their own token only. *)
Theorem C4_session_invariant_by_action :
  session_invariant AuthStore.state /\
  (forall locale w, session_invariant (authStore (AuthStore.clearUser locale w))) /\
  (forall locale w,
     session_invariant (authStore w) ->
     session_invariant
       (authStore (outcome_world (AuthStore.loadUserFromStorage locale w)))) /\
  (forall userData sid locale w,
     session_invariant (authStore w) ->
     session_invariant
       (authStore (outcome_world (AuthStore.setUser userData sid locale w)))) /\
  (forall w r response,
     ServiceUtils.received "json" r = Fulfilled response ->
     JS.truthy (JS.prop response "access_token") = true ->
     is_set (csrfToken (authStore w)) = true \/
       JS.truthy (JS.prop response "csrf_token") = true ->
     session_invariant (authStore w) ->
     let L := deliver 0 r (call AuthActions.refreshAccessToken (page w)) in
     promises L = [Some (Fulfilled (JS.prop response "access_token"))] /\
     session_invariant (authStore (world L))) /\
  (forall w r e,
     refresh_rejected r = Some e ->
     let L := deliver 0 r (call AuthActions.refreshAccessToken (page w)) in
     promises L = [Some (Rejected e)] /\
     tokens_paired (authStore (world L)) /\
     accessToken (authStore (world L)) = JNull /\
     csrfToken (authStore (world L)) = JNull /\
     isAuthenticated (authStore (world L)) = false /\
     user (authStore (world L)) = user (authStore w)) /\
  (forall token w,
     authStore (AuthStore.setAccessToken token w) = with_accessToken token (authStore w)) /\
  (forall token w,
     authStore (AuthStore.setCsrfToken token w) = with_csrfToken token (authStore w)).
Proof.
  split; [exact state_invariant|].
  split; [exact clearUser_invariant|].
  split; [exact loadUserFromStorage_invariant|].
  split; [exact setUser_invariant|].
  split; [|split; [|split; reflexivity]].
  - intros w r response Hr Haccess Hcsrf Hinv L. subst L.
    destruct (store_refresh_run w r) as (_ & _ & _ & Hrun).
    unfold refresh_rejected in Hrun. rewrite Hr in Hrun.
    rewrite Haccess, (truthy_prop_truthy _ _ Haccess) in Hrun.
    destruct Hrun as (v & Hv & Hp & Hw). injection Hv as <-.
    rewrite Hp, Hw. split; [reflexivity|].
    now apply refreshed_invariant.
  - intros w r e Hr L. subst L.
    destruct (store_refresh_run w r) as (_ & _ & _ & Hrun).
    rewrite Hr in Hrun. destruct Hrun as [Hp Hw].
    rewrite Hp, Hw, refresh_failed_fields. repeat split.
Qed.

Lemma C4_session_invariant_by_action_witness :
  session_invariant (authStore Sample.reloaded) /\
  session_invariant
    (authStore (world (deliver 0 Sample.tokens
                         (call AuthActions.refreshAccessToken (page Sample.reloaded))))) /\
  isAuthenticated
    (authStore (world (deliver 0 Sample.expired
                         (call AuthActions.refreshAccessToken (page Sample.signed_in)))))
  = false.
Proof.
  destruct C4_session_invariant_by_action as (_ & _ & Hload & _ & Hok & Hfail & _).
  assert (Hinv : session_invariant (authStore Sample.reloaded)).
  { apply (Hload false Sample.fresh). split; [reflexivity | discriminate]. }
  split; [exact Hinv|]. split.
  - apply (Hok Sample.reloaded Sample.tokens
             (JObj [("session_id", JStr "s-2"); ("access_token", JStr "token-2");
                    ("csrf_token", JStr "csrf-2"); ("token_type", JStr "bearer");
                    ("expires_in", JNum 1734567890)]));
      [reflexivity | reflexivity | right; reflexivity | exact Hinv].
  - apply (Hfail Sample.signed_in Sample.expired
             (mkError Error "401 - Token has expired")). reflexivity.
Defined.



(** ** C6 -- PKCE round trip.
    Every verifier that [generateCodeVerifier] produces from its 32 random
    bytes has exactly 43 characters and passes [validateCodeVerifier];
    [generateCodeChallenge] yields the same challenge for the same verifier,
    and its result has exactly 43 characters and passes
    [validateCodeChallenge] (the platform's SHA-256 digest has 32 bytes). *)
Theorem C6_pkce_round_trip
    (digest_SHA256 : list byte -> list byte)
    (digest_size : forall data, List.length (digest_SHA256 data) = 32%nat) :
  (forall array : list byte, List.length array = 32%nat ->
     JSString.length (PKCE.generateCodeVerifier array) = 43 /\
     PKCE.validateCodeVerifier (PKCE.generateCodeVerifier array) = true) /\
  (forall verifier1 verifier2 : string, verifier1 = verifier2 ->
     PKCE.generateCodeChallenge digest_SHA256 verifier1
     = PKCE.generateCodeChallenge digest_SHA256 verifier2) /\
  (forall verifier : string,
     JSString.length (PKCE.generateCodeChallenge digest_SHA256 verifier) = 43 /\
     PKCE.validateCodeChallenge (PKCE.generateCodeChallenge digest_SHA256 verifier) = true).
Proof.
  split; [|split].
  - intros array Hlen. unfold PKCE.generateCodeVerifier, JSString.length.
    destruct (PKCEFacts.encode_32 array Hlen) as (L & V & _).
    rewrite L. auto.
  - intros v1 v2 ->. reflexivity.
  - intros verifier. unfold PKCE.generateCodeChallenge, JSString.length.
    destruct (PKCEFacts.encode_32 _ (digest_size (PKCE.TextEncoder_encode verifier)))
      as (L & _ & V).
    rewrite L. auto.
Qed.

(** The round trip instantiated with SHA-256 itself, on the verifier of the
    documentation of [generateCodeChallenge]. *)
Lemma C6_pkce_round_trip_witness :
  (forall data, List.length (SHA256.sha256 data) = 32%nat) /\
  PKCE.generateCodeChallenge SHA256.sha256 "dBjftJeZ4CVP-mB92K27uhbUJU1p1r_wW1gFWFOEjXk"
    = "E9Melhoa2OwvFrEMTJguCHaoeK1t8URWbuGJSstw-cM" /\
  PKCE.validateCodeChallenge
    (PKCE.generateCodeChallenge SHA256.sha256 "dBjftJeZ4CVP-mB92K27uhbUJU1p1r_wW1gFWFOEjXk")
    = true /\
  PKCE.validateCodeVerifier (PKCE.generateCodeVerifier (repeat x2a%byte 32)) = true.
Proof.
  split; [exact sha256_length|].
  split; [vm_compute; reflexivity|].
  pose proof (C6_pkce_round_trip SHA256.sha256 sha256_length) as (V & _ & C).
  split.
  - apply C.
  - apply V. reflexivity.
Defined.

(** A signed-in page, a request answered 401, the refresh answered 401: when
    the redirect is issued, [logoutUser] has sent a second call to
    [auth/refresh], and the user, the session id and the storage are still
    in place. *)
Lemma C7_second_refresh_before_teardown :
  let L := deliver 0 Sample.expired (deliver 0 Sample.expired
             (call (Client.fetchGetRequest "profile" JUndefined) (page Sample.signed_in))) in
  location (world L) = ["https://endurain.example/login?sessionExpired=true"] /\
  map fst (requests L)
    = ["https://endurain.example/api/v1/profile";
       "https://endurain.example/api/v1/auth/refresh";
       "https://endurain.example/api/v1/auth/refresh"] /\
  inflight_urls L = ["https://endurain.example/api/v1/auth/refresh"] /\
  JS.prop (user (authStore (world L))) "id" = JNum 7 /\
  session_id (authStore (world L)) = JStr "s-1" /\
  (localStorage (world L) !! "user" : option Stored) = Some (StoredJSON Sample.athlete).
Proof. vm_compute. repeat split. Qed.

(** ** C7 -- teardown after a failed refresh.
    A request to an eligible url is answered 401 and the refresh fails.
    [fetchWithRetry] does not retry the request; it starts [logoutUser]
    without awaiting it and redirects to [login?sessionExpired=true].
    [logoutUser] finds the tokens cleared by the failed refresh and makes one
    more call to [auth/refresh], then one to [auth/logout]; whatever the two
    answers, it then clears the session state entirely: the store is back to
    its initial state and [user] and [session_id] are removed from storage. *)
Theorem C7_teardown_after_failed_refresh
    (w : World) (url : string) (options : Options) (responseType : string)
    (r1 r2 r3 r4 : FetchResult) (e1 e2 : JSError) :
  eligible url = true ->
  ServiceUtils.received responseType r1 = Rejected e1 ->
  JSString.startsWith (message e1) "401" = true ->
  refresh_rejected r2 = Some e2 ->
  let L3 := deliver 0 r2 (deliver 0 r1
              (call (Client.fetchWithRetry url options responseType) (page w))) in
  let L5 := deliver 0 r4 (deliver 0 r3 L3) in
  let login := FRONTEND_URL w +:+ "login?sessionExpired=true" in
  location (world L3) = login :: location w /\
  map fst (requests L3)
    = [API_URL w +:+ url; API_URL w +:+ "auth/refresh"; API_URL w +:+ "auth/refresh"] /\
  inflight_urls L3 = [API_URL w +:+ "auth/refresh"] /\
  inflight_urls (deliver 0 r3 L3) = [API_URL w +:+ "auth/logout"] /\
  authStore (world L5) = AuthStore.state /\
  (localStorage (world L5) !! "user" : option Stored) = None /\
  (localStorage (world L5) !! "session_id" : option Stored) = None /\
  location (world L5) = login :: location w /\
  inflight L5 = [] /\
  map fst (requests L5)
    = [API_URL w +:+ url; API_URL w +:+ "auth/refresh"; API_URL w +:+ "auth/refresh";
       API_URL w +:+ "auth/logout"].
Proof.
  intros Hurl H1 H401 H2 L3 L5 login.
  destruct (teardown_run w url options responseType r1 r2 r3 r4 e1 e2 Hurl H1 H401 H2)
    as (_ & (_ & Hw3 & Hin3 & Hreq3) & (Hin4 & _) & (_ & Hst & Hu & Hs & Hloc & Hin5 & Hreq5)).
  subst L3 L5 login. rewrite Hw3.
  repeat (split; [first [reflexivity | assumption]|]). assumption.
Qed.

Lemma C7_teardown_after_failed_refresh_witness :
  let L3 := deliver 0 Sample.expired (deliver 0 Sample.expired
              (call (Client.fetchWithRetry "profile" Sample.get_options "json")
                 (page Sample.signed_in))) in
  let L5 := deliver 0 Sample.no_content (deliver 0 Sample.tokens L3) in
  location (world L3) = ["https://endurain.example/login?sessionExpired=true"] /\
  authStore (world L5) = AuthStore.state /\
  (localStorage (world L5) !! "user" : option Stored) = None.
Proof.
  destruct (C7_teardown_after_failed_refresh Sample.signed_in "profile" Sample.get_options
              "json" Sample.expired Sample.expired Sample.tokens Sample.no_content
              (mkError Error "401 - Token has expired")
              (mkError Error "401 - Token has expired")
              eq_refl eq_refl eq_refl eq_refl)
    as (Hloc & _ & _ & _ & Hst & Hu & _).
  split; [exact Hloc|]. split; [exact Hst | exact Hu].
Defined.




(** ** C9 -- reload, then refresh.
    A page starts with a user in storage: [loadUserFromStorage] sets [user]
    from storage and [isAuthenticated], and both tokens stay [null].  A
    following refresh whose response carries an access token and a CSRF token
    stores both and leaves [user] (hence [user.id]) and [isAuthenticated] as
    they were. *)
Theorem C9_reload_then_refresh
    (w0 : World) (fields : list (string * JSValue)) (locale : bool)
    (response : Response) (body : JSValue) :
  authStore w0 = AuthStore.state ->
  localStorage w0 !! "user" = Some (StoredJSON (JObj fields)) ->
  ok response = true -> status response <> 204 -> json response = JSON body ->
  JS.truthy (JS.prop body "access_token") = true ->
  JS.truthy (JS.prop body "csrf_token") = true ->
  exists w1,
    AuthStore.loadUserFromStorage locale w0 = Done w1 /\
    accessToken (authStore w1) = JNull /\
    csrfToken (authStore w1) = JNull /\
    user (authStore w1) = JObj fields /\
    isAuthenticated (authStore w1) = true /\
    let L := deliver 0 (Responded response)
               (call AuthActions.refreshAccessToken (page w1)) in
    promises L = [Some (Fulfilled (JS.prop body "access_token"))] /\
    accessToken (authStore (world L)) = JS.prop body "access_token" /\
    csrfToken (authStore (world L)) = JS.prop body "csrf_token" /\
    user (authStore (world L)) = JObj fields /\
    JS.prop (user (authStore (world L))) "id" = JS.prop (JObj fields) "id" /\
    isAuthenticated (authStore (world L)) = true.
Proof.
  intros Hstate Hstored Hok H204 Hjson Haccess Hcsrf.
  eexists. split.
  { unfold AuthStore.loadUserFromStorage. rewrite Hstored.
    cbn [stored_truthy mbind option_bind JSON_parse JS.get]. fields.
    reflexivity. }
  fields. rewrite !authStore_setLocale. fields. rewrite Hstate.
  do 4 (split; [reflexivity|]).
  match goal with
  | |- context [call _ (page ?w)] =>
      destruct (store_refresh_run w (Responded response)) as (_ & _ & _ & Hrun)
  end.
  unfold refresh_rejected in Hrun.
  rewrite (received_json response body Hok H204 Hjson) in Hrun.
  rewrite Haccess, (truthy_prop_truthy _ _ Haccess) in Hrun.
  destruct Hrun as (v & Hv & Hp & Hw). injection Hv as <-.
  rewrite Hp, Hw.
  match goal with
  | |- context [AuthActions.refreshed body ?w] =>
      destruct (refreshed_fields body w) as (Ha & Hc & Hu & Hi & _)
  end.
  rewrite Ha, Hc, Hu, Hi, Hcsrf. fields. rewrite !authStore_setLocale. fields.
  repeat split.
Qed.

Lemma C9_reload_then_refresh_witness :
  exists w1,
    AuthStore.loadUserFromStorage false Sample.fresh = Done w1 /\
    accessToken (authStore w1) = JNull /\
    csrfToken (authStore w1) = JNull /\
    JS.prop (user (authStore w1)) "id" = JNum 7 /\
    let L := deliver 0 Sample.tokens (call AuthActions.refreshAccessToken (page w1)) in
    accessToken (authStore (world L)) = JStr "token-2" /\
    csrfToken (authStore (world L)) = JStr "csrf-2" /\
    JS.prop (user (authStore (world L))) "id" = JNum 7.
Proof.
  destruct (C9_reload_then_refresh Sample.fresh
              [("id", JNum 7); ("name", JStr "Ana"); ("preferred_language", JStr "pt")]
              false
              (mkResponse 200
                 (JSON (JObj [("session_id", JStr "s-2"); ("access_token", JStr "token-2");
                              ("csrf_token", JStr "csrf-2"); ("token_type", JStr "bearer");
                              ("expires_in", JNum 1734567890)])) [])
              (JObj [("session_id", JStr "s-2"); ("access_token", JStr "token-2");
                     ("csrf_token", JStr "csrf-2"); ("token_type", JStr "bearer");
                     ("expires_in", JNum 1734567890)]))
    as (w1 & Hload & Ha & Hc & Hu & _ & Hrun);
    [reflexivity | reflexivity | reflexivity | discriminate | reflexivity
    | reflexivity | reflexivity |].
  exists w1. split; [exact Hload|]. split; [exact Ha|]. split; [exact Hc|].
  split; [rewrite Hu; reflexivity|].
  destruct Hrun as (_ & Ha' & Hc' & _ & Hid & _).
  split; [exact Ha'|]. split; [exact Hc'|]. exact Hid.
Defined.

(** The caller of a request whose recovery failed is resumed with
    [undefined] while the store still holds the user and the session id and
    the storage still holds the user. *)
Lemma C10_caller_resumed_before_clearUser :
  let L := deliver 0 Sample.expired (deliver 0 Sample.expired
             (call (Client.fetchGetRequest "profile/goals/results" JUndefined)
                (page Sample.signed_in))) in
  promises L !! 0%nat = Some (Some (Fulfilled JUndefined)) /\
  location (world L) = ["https://endurain.example/login?sessionExpired=true"] /\
  user (authStore (world L)) = Sample.athlete /\
  session_id (authStore (world L)) = JStr "s-1" /\
  (localStorage (world L) !! "user" : option Stored) = Some (StoredJSON Sample.athlete) /\
  authStore (world L) <> AuthStore.state.
Proof. vm_compute. repeat (split; [reflexivity|]). discriminate. Qed.

(** ** C10 -- what the caller sees when recovery fails.
    A request to an eligible url is answered 401 and the refresh fails: the
    promise of [fetchWithRetry] is fulfilled with [undefined] -- neither the
    401 nor the refresh error reaches the caller -- once the redirect is
    issued and [logoutUser] has been started. At that moment the failed
    refresh has cleared the tokens and [isAuthenticated]; [user], the session
    id and the storage are still in place, and [logoutUser] is waiting for
    its own call to [auth/refresh]. [user], the session id and the persisted
    storage are cleared later: once the two calls of [logoutUser] have
    settled, whatever their answers, [logoutUser] is done, the store is back
    to its initial state and [user] and [session_id] are gone from storage;
    the caller's promise is still fulfilled with [undefined]. *)
Theorem C10_caller_resumed_with_undefined
    (w : World) (url : string) (options : Options) (responseType : string)
    (r1 r2 r3 r4 : FetchResult) (e1 e2 : JSError) :
  eligible url = true ->
  ServiceUtils.received responseType r1 = Rejected e1 ->
  JSString.startsWith (message e1) "401" = true ->
  refresh_rejected r2 = Some e2 ->
  let L2 := deliver 0 r1 (call (Client.fetchWithRetry url options responseType) (page w)) in
  let L3 := deliver 0 r2 L2 in
  let L5 := deliver 0 r4 (deliver 0 r3 L3) in
  promises L2 = [None] /\
  promises L3 = [Some (Fulfilled JUndefined); None] /\
  location (world L3) = (FRONTEND_URL w +:+ "login?sessionExpired=true") :: location w /\
  authStore (world L3)
    = mkAuthState (user (authStore w)) false (user_websocket (authStore w))
        (session_id (authStore w)) JNull JNull /\
  localStorage (world L3) = localStorage w /\
  inflight_urls L3 = [API_URL w +:+ "auth/refresh"] /\
  promises L5 !! 0%nat = Some (Some (Fulfilled JUndefined)) /\
  promises L5 !! 1%nat = Some (Some (Fulfilled JUndefined)) /\
  authStore (world L5) = AuthStore.state /\
  (localStorage (world L5) !! "user" : option Stored) = None /\
  (localStorage (world L5) !! "session_id" : option Stored) = None /\
  inflight L5 = [].
Proof.
  intros Hurl H1 H401 H2 L2 L3 L5.
  destruct (teardown_run w url options responseType r1 r2 r3 r4 e1 e2 Hurl H1 H401 H2)
    as ((_ & Hp2 & _) & (Hp3 & Hw3 & Hin3 & _) & _ &
        (Hp5 & Hst5 & Hu5 & Hs5 & _ & Hin5 & _)).
  subst L2 L3 L5. rewrite Hw3, Hp5.
  repeat (split; [first [reflexivity | assumption]|]). assumption.
Qed.

Lemma C10_caller_resumed_with_undefined_witness :
  let L3 := deliver 0 Sample.expired (deliver 0 Sample.expired
              (call (Client.fetchWithRetry "profile/goals/results" Sample.get_options "json")
                 (page Sample.signed_in))) in
  let L5 := deliver 0 Sample.expired (deliver 0 Sample.expired L3) in
  promises L3 = [Some (Fulfilled JUndefined); None] /\
  location (world L3) = ["https://endurain.example/login?sessionExpired=true"] /\
  authStore (world L5) = AuthStore.state /\
  (localStorage (world L5) !! "user" : option Stored) = None.
Proof.
  destruct (C10_caller_resumed_with_undefined Sample.signed_in "profile/goals/results"
              Sample.get_options "json" Sample.expired Sample.expired
              Sample.expired Sample.expired
              (mkError Error "401 - Token has expired")
              (mkError Error "401 - Token has expired")
              eq_refl eq_refl eq_refl eq_refl)
    as (_ & Hp & Hloc & _ & _ & _ & _ & _ & Hst & Hu & _).
  split; [exact Hp|]. split; [exact Hloc|]. split; [exact Hst | exact Hu].
Defined.

(* ===================================================================== *)
(** * Further properties of the session code

    Properties read off the code beyond the ones above: the CSRF half of
    header injection, [fetchWithRetry] outside and inside a recovery that
    succeeds, the public request functions, the single-flight refresh for any
    outcome, [logoutUser] called directly, the synchronous actions of the
    store and its websocket, base64url for any buffer, and the query built by
    [getUserGoals]. *)
(* ===================================================================== *)

(* ===================================================================== *)
(** * Header injection, continued *)
(* ===================================================================== *)

Lemma csrf_header_step (w : World) (url : string) (o : Options) :
  (headers (ServiceUtils.addAuthHeaders w url o) !! "X-CSRF-Token" : option string)
  = if state_changing (method o) && negb (csrf_exempt url) &&
       JS.truthy (csrfToken (authStore w))
    then Some (JS.toString (csrfToken (authStore w)))
    else headers o !! "X-CSRF-Token".
Proof.
  unfold ServiceUtils.addAuthHeaders, csrf_exempt, state_changing, ServiceUtils.neq,
    AuthStore.getAccessToken, AuthStore.getCsrfToken.
  destruct (String.eqb url "auth/login"); cbn [negb andb orb];
  destruct (String.eqb url "auth/mfa/verify"); cbn [negb andb orb];
  destruct (String.eqb url "password-reset/request"); cbn [negb andb orb];
  destruct (String.eqb url "password-reset/confirm"); cbn [negb andb orb];
  destruct (String.eqb url "sign-up/request"); cbn [negb andb orb];
  destruct (String.eqb url "sign-up/confirm"); cbn [negb andb orb];
  destruct (JSString.startsWith url "public/"); cbn [negb andb orb];
  destruct (JS.truthy (accessToken (authStore w)));
  destruct (JS.truthy (csrfToken (authStore w)));
  cbn [method with_headers headers];
  rewrite ?andb_false_r, ?andb_true_r;
  destruct (existsb (String.eqb (method o)) ["POST"; "PUT"; "DELETE"; "PATCH"]);
  cbn [method with_headers headers];
  rewrite ?lookup_insert_eq; rewrite ?lookup_insert_ne by discriminate; reflexivity.
Qed.

(** ** X1 -- the CSRF header.
    [addAuthHeaders] sets [X-CSRF-Token] to the store's CSRF token exactly
    when the method is POST, PUT, DELETE or PATCH, the url is none of
    [auth/login], [auth/mfa/verify], [password-reset/*], [sign-up/*], and the
    store holds a truthy CSRF token; in every other case the header is left
    as the caller gave it. The [public/] prefix, which suppresses the
    [Authorization] header, does not suppress this one. *)
Theorem X1_csrf_header_policy (w : World) (url : string) (o : Options) :
  (headers (ServiceUtils.addAuthHeaders w url o) !! "X-CSRF-Token" : option string)
  = if state_changing (method o) && negb (csrf_exempt url) &&
       JS.truthy (csrfToken (authStore w))
    then Some (JS.toString (csrfToken (authStore w)))
    else headers o !! "X-CSRF-Token".
Proof. apply csrf_header_step. Qed.

(** [addAuthHeaders] as two conditional insertions into the headers *)
Lemma addAuthHeaders_shape (w : World) (url : string) (o : Options) :
  exists a c : bool,
    (forall o', method o' = method o ->
       ServiceUtils.addAuthHeaders w url o'
       = with_headers
           ((if c then <["X-CSRF-Token" := JS.toString (csrfToken (authStore w))]> else id)
              ((if a then <["Authorization" :=
                               "Bearer " +:+ JS.toString (accessToken (authStore w))]>
                else id) (headers o')))
           o').
Proof.
  unfold ServiceUtils.addAuthHeaders, AuthStore.getAccessToken, AuthStore.getCsrfToken.
  set (pa := (_ && negb (JSString.startsWith url "public/"))%bool).
  exists (pa && JS.truthy (accessToken (authStore w)))%bool.
  exists (state_changing (method o) && negb (csrf_exempt url)
          && JS.truthy (csrfToken (authStore w)))%bool.
  intros o' Hm. unfold state_changing, csrf_exempt, ServiceUtils.neq.
  rewrite <- Hm.
  destruct pa, (JS.truthy (accessToken (authStore w))); cbn [andb method with_headers headers];
  destruct (existsb (String.eqb (method o')) ["POST"; "PUT"; "DELETE"; "PATCH"]);
  cbn [andb];
  destruct (String.eqb url "auth/login"); cbn [negb andb orb];
  destruct (String.eqb url "auth/mfa/verify"); cbn [negb andb orb];
  destruct (String.eqb url "password-reset/request"); cbn [negb andb orb];
  destruct (String.eqb url "password-reset/confirm"); cbn [negb andb orb];
  destruct (String.eqb url "sign-up/request"); cbn [negb andb orb];
  destruct (String.eqb url "sign-up/confirm"); cbn [negb andb orb];
  destruct (JS.truthy (csrfToken (authStore w))); cbn [with_headers headers id];
  destruct o'; reflexivity.
Qed.

(** ** X2 -- what header injection leaves alone, and doing it twice.
    [addAuthHeaders] changes nothing of the request but the two headers
    [Authorization] and [X-CSRF-Token]: method, body, credentials and every
    other header are the caller's. Applied again in the same store state, as
    the retry of [fetchWithRetry] does when the refresh brought nothing new,
    it returns the same request. *)
Theorem X2_header_injection_frame (w : World) (url : string) (o : Options) :
  let o' := ServiceUtils.addAuthHeaders w url o in
  method o' = method o /\ body o' = body o /\ credentials o' = credentials o /\
  (forall k : string, k <> "Authorization" -> k <> "X-CSRF-Token" ->
     (headers o' !! k : option string) = headers o !! k) /\
  ServiceUtils.addAuthHeaders w url o' = o'.
Proof.
  destruct (addAuthHeaders_shape w url o) as (a & c & H).
  cbv zeta. rewrite (H o eq_refl).
  split; [reflexivity|]. split; [reflexivity|]. split; [reflexivity|]. split.
  - intros k Ha Hc. cbn [headers with_headers].
    destruct a, c; cbn [id];
      rewrite ?lookup_insert_ne by congruence; reflexivity.
  - rewrite H by reflexivity. unfold with_headers. cbn [method body credentials headers].
    f_equal. apply map_eq. intros k.
    destruct (decide (k = "X-CSRF-Token")) as [Ec|Hc];
      destruct (decide (k = "Authorization")) as [Ea|Ha];
      try (rewrite Ec in Ea; discriminate Ea); try subst k;
      destruct a, c; cbn [id];
      repeat first [ rewrite lookup_insert_eq
                   | rewrite lookup_insert_ne by congruence ];
      reflexivity.
Qed.
Lemma X2_header_injection_frame_witness :
  (headers (ServiceUtils.addAuthHeaders Sample.signed_in "profile/goals"
              (mkOptions "POST" NoBody (Some "include") ServiceUtils.json_headers))
     !! "X-Client-Type" : option string) = Some "web".
Proof.
  destruct (X2_header_injection_frame Sample.signed_in "profile/goals"
              (mkOptions "POST" NoBody (Some "include") ServiceUtils.json_headers))
    as (_ & _ & _ & H & _).
  rewrite (H "X-Client-Type"); [reflexivity | discriminate | discriminate].
Defined.

(* ===================================================================== *)
(** * [fetchWithRetry] outside the recovery branch *)
(* ===================================================================== *)

Lemma never_recovered_inv url :
  never_recovered url = false ->
  String.eqb url "auth/login" = false /\
  String.eqb url "auth/refresh" = false /\
  String.eqb url "auth/logout" = false.
Proof.
  unfold never_recovered. intros H.
  apply orb_false_elim in H. destruct H as [H H3].
  apply orb_false_elim in H. destruct H as [H1 H2]. auto.
Qed.

Lemma never_recovered_guard b url :
  never_recovered url = true ->
  (b && ServiceUtils.neq url "auth/login" && ServiceUtils.neq url "auth/refresh"
     && ServiceUtils.neq url "auth/logout")%bool = false.
Proof.
  unfold never_recovered, ServiceUtils.neq. intros H.
  destruct (String.eqb url "auth/login"), (String.eqb url "auth/refresh"),
    (String.eqb url "auth/logout"), b; try reflexivity; discriminate H.
Qed.

(** ** X3 -- [fetchWithRetry] is transparent outside the recovery branch.
    When the request succeeds, or fails with an error whose message does not
    start with [401], or the url is [auth/login], [auth/refresh] or
    [auth/logout], the caller's promise settles exactly as [attemptFetch]
    does: one network call was made, with the injected headers, no refresh
    was started and the browser state is untouched. *)
Theorem X3_fetchWithRetry_transparent
    (w : World) (url : string) (options : Options) (responseType : string)
    (r : FetchResult) :
  (forall e, ServiceUtils.received responseType r = Rejected e ->
     JSString.startsWith (message e) "401" = false \/ never_recovered url = true) ->
  let L := deliver 0 r (call (Client.fetchWithRetry url options responseType) (page w)) in
  promises L = [Some (ServiceUtils.received responseType r)] /\
  requests L = [(API_URL w +:+ url, ServiceUtils.addAuthHeaders w url options)] /\
  inflight L = [] /\ waiting L = [] /\ world L = w.
Proof.
  intros H L. subst L. run.
  destruct (ServiceUtils.received responseType r) as [v|e]; run.
  - repeat split.
  - destruct (H e eq_refl) as [H401|Hurl].
    + rewrite H401. run. repeat split.
    + fold (ServiceUtils.neq url "auth/login") (ServiceUtils.neq url "auth/refresh")
        (ServiceUtils.neq url "auth/logout").
      rewrite never_recovered_guard by exact Hurl. run. repeat split.
Qed.

Lemma X3_fetchWithRetry_transparent_witness :
  let L := deliver 0 (Sample.failure 403 "Forbidden")
             (call (Client.fetchWithRetry "profile" Sample.get_options "json")
                (page Sample.signed_in)) in
  promises L = [Some (Rejected (mkError Error "403 - Forbidden"))] /\
  inflight L = [].
Proof.
  destruct (X3_fetchWithRetry_transparent Sample.signed_in "profile" Sample.get_options
              "json" (Sample.failure 403 "Forbidden")) as (Hp & _ & Hi & _).
  - intros e He. left. vm_compute in He. injection He as <-. reflexivity.
  - split; [exact Hp | exact Hi].
Defined.
(** the decimal text of a three-digit status starts with [401] only for 401 *)
Lemma status_prefix_table (s : string) :
  forallb (fun k => Bool.eqb
             (JSString.startsWith (JS.Z_to_string (100 + Z.of_nat k) +:+ s) "401")
             (100 + Z.of_nat k =? 401))
          (seq 0 500) = true.
Proof. vm_compute. reflexivity. Qed.

Lemma status_prefix (status : Z) (s : string) :
  100 <= status <= 599 ->
  JSString.startsWith (JS.Z_to_string status +:+ s) "401" = (status =? 401).
Proof.
  intros H. pose proof (status_prefix_table s) as T.
  rewrite forallb_forall in T.
  specialize (T (Z.to_nat (status - 100))).
  replace (100 + Z.of_nat (Z.to_nat (status - 100))) with status in T by lia.
  apply eqb_prop. apply T. apply in_seq. lia.
Qed.

(** ** X4 -- which HTTP errors enter the recovery test.
    [fetchWithRetry] recognises a 401 by the text of the error message. For
    a response outside 200..299 with a three-digit status and a JSON error
    payload, the message of the error thrown by [attemptFetch] starts with
    [401] exactly when the status is 401: no other status is mistaken for
    one, whatever the [detail] text says. *)
Theorem X4_only_status_401_is_recognised
    (responseType : string) (response : Response) (errorBody detail : JSValue)
    (e : JSError) :
  100 <= status response <= 599 ->
  ok response = false ->
  json response = JSON errorBody ->
  JS.get errorBody "detail" = Some detail ->
  ServiceUtils.received responseType (Responded response) = Rejected e ->
  JSString.startsWith (message e) "401" = (status response =? 401).
Proof.
  intros Hst Hok Hjson Hdetail He.
  unfold ServiceUtils.received in He. rewrite Hok, Hjson, Hdetail in He.
  cbn [negb] in He. injection He as <-. cbn [message].
  now apply status_prefix.
Qed.

Lemma X4_only_status_401_is_recognised_witness :
  JSString.startsWith "404 - 401 Unauthorized upstream" "401" = false.
Proof.
  apply (X4_only_status_401_is_recognised "json"
           (mkResponse 404 (JSON (JObj [("detail", JStr "401 Unauthorized upstream")])) [])
           (JObj [("detail", JStr "401 Unauthorized upstream")])
           (JStr "401 Unauthorized upstream")
           (mkError Error "404 - 401 Unauthorized upstream"));
    [simpl; lia | reflexivity | reflexivity | reflexivity | reflexivity].
Defined.

(** ** X5 -- the Garmin Connect exemption.
    On [garminconnect/link], a 401 whose message contains the Garmin
    authentication error is rethrown to the caller: one network call, no
    refresh. A 401 on the same url without that text starts the refresh. *)
Theorem X5_garmin_link_error_propagates
    (w : World) (options : Options) (responseType : string)
    (r : FetchResult) (e : JSError) :
  ServiceUtils.received responseType r = Rejected e ->
  JSString.startsWith (message e) "401" = true ->
  let L := deliver 0 r
             (call (Client.fetchWithRetry "garminconnect/link" options responseType)
                (page w)) in
  if JSString.includes (message e) garmin_error
  then promises L = [Some (Rejected e)] /\ inflight L = [] /\
       map fst (requests L) = [API_URL w +:+ "garminconnect/link"] /\ world L = w
  else promises L = [None] /\
       inflight_urls L = [API_URL w +:+ "auth/refresh"].
Proof.
  intros H1 H401 L. subst L. unfold garmin_error.
  run. rewrite H1. run. rewrite H401. run.
  destruct (JSString.includes (message e) _); run; repeat split.
Qed.

Lemma X5_garmin_link_error_propagates_witness :
  let e := mkError Error
             "401 - There was an authentication error using Garmin Connect" in
  let L := deliver 0
             (Sample.failure 401 "There was an authentication error using Garmin Connect")
             (call (Client.fetchWithRetry "garminconnect/link" Sample.get_options "json")
                (page Sample.signed_in)) in
  promises L = [Some (Rejected e)] /\ inflight L = [].
Proof.
  intros e L.
  pose proof (X5_garmin_link_error_propagates Sample.signed_in Sample.get_options "json"
                (Sample.failure 401 "There was an authentication error using Garmin Connect")
                e eq_refl eq_refl) as H.
  change (JSString.includes (message e) garmin_error) with true in H.
  destruct H as (Hp & Hi & _). split; [exact Hp | exact Hi].
Defined.

(* ===================================================================== *)
(** * Public requests *)
(* ===================================================================== *)

(** ** X6 -- public requests are anonymous and never recovered.
    [fetchPublicGetRequest] and [fetchPublicPostRequest] send one request
    with neither [Authorization] nor [X-CSRF-Token] header and with no
    [credentials] member in its options (the default of [fetch] then
    applies), whatever tokens the store holds; the caller's promise
    settles as [attemptFetch] does, so a 401 is propagated: no refresh, no
    logout, no write to the browser state. *)
Theorem X6_public_requests_are_anonymous
    (w : World) (url : string) (data : JSValue) (r : FetchResult) :
  Forall (fun t =>
    let L := deliver 0 r (call t (page w)) in
    (exists o, requests L = [(API_URL w +:+ url, o)] /\
       (headers o !! "Authorization" : option string) = None /\
       (headers o !! "X-CSRF-Token" : option string) = None /\
       (headers o !! "X-Client-Type" : option string) = Some "web" /\
       credentials o = None) /\
    promises L = [Some (ServiceUtils.received "json" r)] /\
    inflight L = [] /\ waiting L = [] /\ world L = w)
  [PublicServiceUtils.fetchPublicGetRequest url;
   PublicServiceUtils.fetchPublicPostRequest url data].
Proof.
  apply List.Forall_cons; [|apply List.Forall_cons; [|apply List.Forall_nil]]; cbn zeta;
    unfold PublicServiceUtils.fetchPublicGetRequest,
      PublicServiceUtils.fetchPublicPostRequest; run.
  all: destruct (ServiceUtils.received "json" r); run.
  all: split; [eexists; split; [reflexivity|]; repeat split | repeat split].
Qed.
(* ===================================================================== *)
(** * Recovery that succeeds *)
(* ===================================================================== *)

Lemma refreshed_accessToken response w :
  accessToken (authStore (AuthActions.refreshed response w))
  = JS.prop response "access_token".
Proof. apply refreshed_fields. Qed.

(** A request to an eligible url is answered 401, the refresh succeeds with
    [response], and the retried request is answered [r3]. *)
Lemma recovery_run
    (w : World) (url : string) (options : Options) (responseType : string)
    (r1 r2 r3 : FetchResult) (e1 : JSError) (response : JSValue) :
  eligible url = true ->
  ServiceUtils.received responseType r1 = Rejected e1 ->
  JSString.startsWith (message e1) "401" = true ->
  ServiceUtils.received "json" r2 = Fulfilled response ->
  (JS.truthy response && JS.truthy (JS.prop response "access_token"))%bool = true ->
  let w2 := AuthActions.refreshed response w in
  let o1 := ServiceUtils.addAuthHeaders w url options in
  let o2 := ServiceUtils.addAuthHeaders w2 url o1 in
  let L3 := deliver 0 r2 (deliver 0 r1
              (call (Client.fetchWithRetry url options responseType) (page w))) in
  let L4 := deliver 0 r3 L3 in
  (requests L3 = [(API_URL w +:+ url, o1);
                  (API_URL w +:+ "auth/refresh", refresh_options w);
                  (API_URL w +:+ url, o2)] /\
   promises L3 = [None] /\ world L3 = w2 /\ inflight_urls L3 = [API_URL w +:+ url]) /\
  match ServiceUtils.received responseType r3 with
  | Fulfilled v =>
      promises L4 = [Some (Fulfilled v)] /\ world L4 = w2 /\
      inflight L4 = [] /\ requests L4 = requests L3
  | Rejected _ =>
      promises L4 = [Some (Fulfilled JUndefined); None] /\
      location (world L4) = (FRONTEND_URL w +:+ "login?sessionExpired=true") :: location w /\
      authStore (world L4) = authStore w2 /\
      inflight_urls L4
        = [API_URL w +:+ (if JS.truthy (csrfToken (authStore w2))
                          then "auth/logout" else "auth/refresh")]
  end.
Proof.
  intros Hurl H1 H401 H2 T2 w2 o1 o2 L3 L4.
  destruct (eligible_inv url Hurl) as (U1 & U2 & U3 & U4 & U5).
  assert (Ha : JS.truthy (accessToken (authStore w2)) = true).
  { unfold w2. rewrite refreshed_accessToken.
    apply andb_prop in T2. tauto. }
  assert (Hhost : ENDURAIN_HOST w2 = ENDURAIN_HOST w) by apply refreshed_host.
  assert (Hloc : location w2 = location w) by apply refreshed_location.
  eassert (HL3 : L3 = _).
  { subst L3. steps. loop_state. reflexivity. }
  clearbody L3. subst L3.
  fold w2 in L4 |- *. fold o1 in L4 |- *.
  split.
  - cbn [requests promises world inflight_urls inflight map req_url].
    unfold API_URL. rewrite Hhost. repeat split.
  - destruct (ServiceUtils.received responseType r3) as [v3|e3] eqn:E3.
    + eassert (HL4 : L4 = _).
      { subst L4. steps. loop_state. reflexivity. }
      clearbody L4. subst L4. repeat split.
    + destruct (JS.truthy (csrfToken (authStore w2))) eqn:Hc.
      * eassert (HL4 : L4 = _).
        { subst L4. run. rewrite E3. run.
          fold w2. rewrite Hc, Ha. run. loop_state. reflexivity. }
        clearbody L4. subst L4.
        cbn [promises world inflight_urls inflight map req_url location location_replace
             authStore].
        unfold API_URL, FRONTEND_URL. rewrite Hhost, Hloc. repeat split.
      * eassert (HL4 : L4 = _).
        { subst L4. run. rewrite E3. run.
          fold w2. rewrite Hc, Ha. run. loop_state. reflexivity. }
        clearbody L4. subst L4.
        cbn [promises world inflight_urls inflight map req_url location location_replace
             authStore].
        unfold API_URL, FRONTEND_URL. rewrite Hhost, Hloc. repeat split.
Qed.



(** ** X8 -- a retry that fails ends the session.
    The retried request is inside the same [try] as the refresh: when it
    fails, with whatever error (a second 401, a 500, a network failure), the
    caller does not get that error. Its promise is fulfilled with
    [undefined], the browser is redirected to [login?sessionExpired=true],
    and [logoutUser] is started; no further refresh-and-retry round is made
    for the request. [logoutUser] goes straight to [auth/logout] when the
    refreshed store holds a CSRF token, and refreshes once more first when it
    does not. *)
Theorem X8_failed_retry_ends_session
    (w : World) (url : string) (options : Options) (responseType : string)
    (r1 r2 r3 : FetchResult) (e1 e3 : JSError) (response : JSValue) :
  eligible url = true ->
  ServiceUtils.received responseType r1 = Rejected e1 ->
  JSString.startsWith (message e1) "401" = true ->
  ServiceUtils.received "json" r2 = Fulfilled response ->
  (JS.truthy response && JS.truthy (JS.prop response "access_token"))%bool = true ->
  ServiceUtils.received responseType r3 = Rejected e3 ->
  let w2 := AuthActions.refreshed response w in
  let L := deliver 0 r3 (deliver 0 r2 (deliver 0 r1
             (call (Client.fetchWithRetry url options responseType) (page w)))) in
  promises L = [Some (Fulfilled JUndefined); None] /\
  location (world L) = (FRONTEND_URL w +:+ "login?sessionExpired=true") :: location w /\
  authStore (world L) = authStore w2 /\
  inflight_urls L
    = [API_URL w +:+ (if JS.truthy (csrfToken (authStore w2))
                      then "auth/logout" else "auth/refresh")].
Proof.
  intros Hurl H1 H401 H2 T2 H3 w2 L.
  destruct (recovery_run w url options responseType r1 r2 r3 e1 response
              Hurl H1 H401 H2 T2) as (_ & H4).
  cbv zeta in H4. rewrite H3 in H4. exact H4.
Qed.

Lemma X8_failed_retry_ends_session_witness :
  let L := deliver 0 (Sample.failure 500 "Internal Server Error")
             (deliver 0 Sample.tokens (deliver 0 Sample.expired
               (call (Client.fetchWithRetry "profile" Sample.get_options "json")
                  (page Sample.signed_in)))) in
  promises L = [Some (Fulfilled JUndefined); None] /\
  location (world L) = ["https://endurain.example/login?sessionExpired=true"] /\
  inflight_urls L = ["https://endurain.example/api/v1/auth/logout"].
Proof.
  destruct (X8_failed_retry_ends_session Sample.signed_in "profile"
              Sample.get_options "json" Sample.expired Sample.tokens
              (Sample.failure 500 "Internal Server Error")
              (mkError Error "401 - Token has expired")
              (mkError Error "500 - Internal Server Error")
              (JObj [("session_id", JStr "s-2"); ("access_token", JStr "token-2");
                     ("csrf_token", JStr "csrf-2"); ("token_type", JStr "bearer");
                     ("expires_in", JNum 1734567890)])
              eq_refl eq_refl eq_refl eq_refl eq_refl eq_refl)
    as (Hp & Hloc & _ & Hin).
  split; [exact Hp|]. split; [exact Hloc | exact Hin].
Defined.
(* ===================================================================== *)
(** * The single-flight refresh, any outcome *)
(* ===================================================================== *)

Lemma get_prop v name x : JS.get v name = Some x -> JS.prop v name = x.
Proof. unfold JS.prop. now intros ->. Qed.

(** The first call, and what the shared promise does when the network
    answers [r]. *)
Lemma single_flight_settles (w : World) (r : FetchResult) :
  refreshTokenPromise w = None ->
  exists K o,
    call ServiceUtils.refreshAccessToken (page w)
    = mkLoop (set_refreshTokenPromise (Some 1%nat) w) [None; None]
        [mkPending 1 (API_URL w +:+ "refresh") o K] [mkWaiter 0 1 settled]
        [(API_URL w +:+ "refresh", o)] /\
    (headers o !! "X-CSRF-Token" : option string)
    = (if JS.truthy (csrfToken (authStore w))
       then Some (JS.toString (csrfToken (authStore w))) else None) /\
    forall L',
      exec (K r) 1 L'
      = settle 1 (single_flight_result r)
          (set_world
             (set_refreshTokenPromise None
                (match single_flight_result r with
                 | Fulfilled response => single_flight_writes response (world L')
                 | Rejected _ => world L'
                 end)) L').
Proof.
  intros Hnone. do 2 eexists. split; [|split].
  - unfold call, page.
    cbn [promises set_promises exec world ServiceUtils.refreshAccessToken app List.length].
    rewrite Hnone. run. reflexivity.
  - unfold AuthStore.getCsrfToken.
    destruct (JS.truthy (csrfToken (authStore w))); cbn [headers with_headers];
      [apply lookup_insert_eq | reflexivity].
  - intros L'. cbn beta. unfold single_flight_result, single_flight_writes.
    destruct (ServiceUtils.received "json" r) as [response|e']; run_task.
    + destruct (JS.get response "access_token") as [token|] eqn:G; run_task.
      * rewrite (get_prop _ _ _ G).
        destruct (JS.truthy token); run_task;
          destruct (JS.truthy (JS.prop response "csrf_token")); run_task;
          destruct (JS.truthy (JS.prop response "session_id")); run_task;
          reflexivity.
      * reflexivity.
    + reflexivity.
Qed.

(** The run of the single-flight refresh with [n + 1] callers. *)
Lemma single_flight_run (w : World) (n : nat) (r : FetchResult) :
  refreshTokenPromise w = None ->
  let L1 := later_callers n (call ServiceUtils.refreshAccessToken (page w)) in
  let L := deliver 0 r L1 in
  let s := single_flight_result r in
  exists o,
    inflight_urls L1 = [API_URL w +:+ "refresh"] /\
    (headers o !! "X-CSRF-Token" : option string)
    = (if JS.truthy (csrfToken (authStore w))
       then Some (JS.toString (csrfToken (authStore w))) else None) /\
    requests L = [(API_URL w +:+ "refresh", o)] /\
    inflight L = [] /\ waiting L = [] /\
    List.length (promises L) = (2 + n)%nat /\
    promises L !! 1%nat = Some (Some s) /\
    Forall (fun c => promises L !! c = Some (Some s)) (single_flight_callers n) /\
    world L = set_refreshTokenPromise None
                (match s with
                 | Fulfilled response =>
                     single_flight_writes response (set_refreshTokenPromise (Some 1%nat) w)
                 | Rejected _ => set_refreshTokenPromise (Some 1%nat) w
                 end).
Proof.
  intros Hnone L1 L s.
  destruct (single_flight_settles w r Hnone) as (K & o & Hcall & Hcsrf & HK).
  exists o.
  assert (HL1 : L1 = mkLoop (set_refreshTokenPromise (Some 1%nat) w)
                       ([None; None] ++ repeat None n)
                       [mkPending 1 (API_URL w +:+ "refresh") o K]
                       (mkWaiter 0 1 settled
                          :: map (fun i => mkWaiter (2 + i) 1 settled) (seq 0 n))
                       [(API_URL w +:+ "refresh", o)]).
  { subst L1. rewrite Hcall. now rewrite later_callers_state. }
  clearbody L1. subst L1.
  match goal with
  | L0 := deliver 0 r ?X |- _ => pose proof (HK (set_inflight [] X)) as Hexec
  end.
  cbn [world set_inflight] in Hexec. fold s in Hexec.
  set (w' := set_refreshTokenPromise None _) in Hexec.
  assert (HL : L = microtasks
                     (mkLoop w' (<[1%nat := Some s]> ([None; None] ++ repeat None n)) []
                        (mkWaiter 0 1 settled
                           :: map (fun i => mkWaiter (2 + i) 1 settled) (seq 0 n))
                        [(API_URL w +:+ "refresh", o)])).
  { subst L. unfold deliver.
    cbn [inflight lookup list_lookup resume owner delete list_delete].
    rewrite Hexec. reflexivity. }
  clearbody L. subst L.
  destruct (single_flight_checkpoint w' n s [(API_URL w +:+ "refresh", o)])
    as (Hworld & Hreq & Hin & Hwait & Hone & Hall).
  cbv zeta in *.
  rewrite Hworld, Hreq, Hin, Hwait.
  split; [reflexivity|]. split; [exact Hcsrf|].
  do 3 (split; [reflexivity|]). split.
  - unfold microtasks.
    match goal with
    | |- context [drain _ ?X] =>
        assert (Hws : Forall (fun x => awaited x = 1%nat /\ wake x = settled) (waiting X))
    end.
    { cbn [waiting]. constructor; [split; reflexivity|].
      apply Forall_forall. intros x Hx.
      apply list_elem_of_In, in_map_iff in Hx. destruct Hx as (i & <- & _).
      split; reflexivity. }
    rewrite (drain_wakes_all s 1%nat _ _ eq_refl Hws) by reflexivity.
    cbn [promises]. rewrite settle_all_length. cbn [app insert list_insert List.length].
    now rewrite repeat_length.
  - split; [exact Hone|]. split; [exact Hall | reflexivity].
Qed.

(** With no refresh in flight, a call of the single-flight refresh issues a
    network call, whatever else the page is doing. *)
Lemma single_flight_starts (L : Loop) :
  refreshTokenPromise (world L) = None ->
  waiting L = [] ->
  inflight_urls (call ServiceUtils.refreshAccessToken L)
  = inflight_urls L ++ [API_URL (world L) +:+ "refresh"].
Proof.
  intros Hnone Hw. unfold call.
  cbn [promises set_promises exec world ServiceUtils.refreshAccessToken].
  rewrite Hnone. run_task. rewrite Hw.
  unfold microtasks. cbn [waiting set_waiting app List.length drain].
  rewrite (find_ready_pending _ _ (List.length (promises L ++ [None]))).
  - unfold inflight_urls, issue, set_waiting, set_world, set_promises.
    cbn [inflight]. rewrite map_app. reflexivity.
  - unfold issue, set_waiting, set_world, set_promises. cbn [promises].
    rewrite lookup_app_r by reflexivity.
    now rewrite Nat.sub_diag.
  - constructor; [reflexivity | constructor].
Qed.

(** ** X9 -- the single-flight refresh shares its outcome, whatever it is.
    With [n + 1] callers of [refreshAccessToken] of serviceUtils while no
    refresh is in flight, one network call to [refresh] is made; it carries
    the CSRF header exactly when the store holds a truthy CSRF token. When it
    settles, every caller's promise settles to the same result as the shared
    promise -- the response, or the same error -- and [refreshTokenPromise]
    is reset in both cases, so that a call made afterwards starts a new
    network call instead of reusing the settled promise. *)
Theorem X9_single_flight_shares_outcome (w : World) (n : nat) (r : FetchResult) :
  refreshTokenPromise w = None ->
  let L1 := later_callers n (call ServiceUtils.refreshAccessToken (page w)) in
  let L := deliver 0 r L1 in
  inflight_urls L1 = [API_URL w +:+ "refresh"] /\
  (exists o, requests L = [(API_URL w +:+ "refresh", o)] /\
     (headers o !! "X-CSRF-Token" : option string)
     = (if JS.truthy (csrfToken (authStore w))
        then Some (JS.toString (csrfToken (authStore w))) else None)) /\
  Forall (fun c => promises L !! c = Some (Some (single_flight_result r)))
         (single_flight_callers n) /\
  refreshTokenPromise (world L) = None /\
  inflight L = [] /\ waiting L = [] /\
  inflight_urls (call ServiceUtils.refreshAccessToken L)
  = [API_URL w +:+ "refresh"].
Proof.
  intros Hnone L1 L.
  destruct (single_flight_run w n r Hnone)
    as (o & H1 & Hcsrf & Hreq & Hin & Hwait & _ & _ & Hall & Hworld).
  fold L1 L in H1, Hreq, Hin, Hwait, Hall, Hworld.
  split; [exact H1|]. split; [exists o; split; assumption|].
  split; [exact Hall|].
  assert (Hmark : refreshTokenPromise (world L) = None) by now rewrite Hworld.
  split; [exact Hmark|]. split; [exact Hin|]. split; [exact Hwait|].
  rewrite (single_flight_starts L Hmark Hwait).
  unfold inflight_urls. rewrite Hin, Hworld. cbn [map app]. unfold API_URL.
  destruct (single_flight_result r) as [response|e]; [|reflexivity].
  unfold single_flight_writes, AuthStore.setUserSessionId.
  destruct (JS.truthy (JS.prop response "access_token"));
    destruct (JS.truthy (JS.prop response "csrf_token"));
    destruct (JS.truthy (JS.prop response "session_id")); reflexivity.
Qed.

Lemma X9_single_flight_shares_outcome_witness :
  let L := deliver 0 Sample.no_content
             (later_callers 2
                (call ServiceUtils.refreshAccessToken (page Sample.signed_in))) in
  Forall (fun c => promises L !! c
                   = Some (Some (Rejected (JS.cannot_read JNull "access_token"))))
         [0%nat; 2%nat; 3%nat] /\
  refreshTokenPromise (world L) = None.
Proof.
  destruct (X9_single_flight_shares_outcome Sample.signed_in 2 Sample.no_content eq_refl)
    as (_ & _ & Hall & Hmark & _).
  split; [exact Hall | exact Hmark].
Defined.

(** ** X10 -- what the single-flight refresh stores.
    When the network answers the shared refresh with a response object,
    every caller gets that response, and each of [access_token],
    [csrf_token] and [session_id] is written to the store only when the
    response carries a truthy value for it; the session id is also written to
    [localStorage]. [user] and [isAuthenticated] are not touched, and the
    tokens are not written to storage. A response without an access token is
    still a success here. *)
Theorem X10_single_flight_success_writes
    (w : World) (n : nat) (r : FetchResult) (response token : JSValue) :
  refreshTokenPromise w = None ->
  ServiceUtils.received "json" r = Fulfilled response ->
  JS.get response "access_token" = Some token ->
  let L := deliver 0 r
             (later_callers n (call ServiceUtils.refreshAccessToken (page w))) in
  let a := authStore (world L) in
  let pick (v old : JSValue) := if JS.truthy v then v else old in
  Forall (fun c => promises L !! c = Some (Some (Fulfilled response)))
         (single_flight_callers n) /\
  accessToken a = pick token (accessToken (authStore w)) /\
  csrfToken a = pick (JS.prop response "csrf_token") (csrfToken (authStore w)) /\
  session_id a = pick (JS.prop response "session_id") (session_id (authStore w)) /\
  user a = user (authStore w) /\
  isAuthenticated a = isAuthenticated (authStore w) /\
  localStorage (world L)
  = (if JS.truthy (JS.prop response "session_id")
     then <["session_id" := StoredText (JS.toString (JS.prop response "session_id"))]>
            (localStorage w)
     else localStorage w).
Proof.
  intros Hnone Hr Htoken L a pick.
  destruct (single_flight_run w n r Hnone)
    as (o & _ & _ & _ & _ & _ & _ & _ & Hall & Hworld).
  cbv zeta in Hall, Hworld. fold L in Hall, Hworld.
  assert (Hs : single_flight_result r = Fulfilled response).
  { unfold single_flight_result. now rewrite Hr, Htoken. }
  rewrite Hs in Hall, Hworld.
  split; [exact Hall|].
  subst a pick. rewrite Hworld.
  unfold single_flight_writes, AuthStore.setUserSessionId.
  rewrite (get_prop _ _ _ Htoken).
  destruct (JS.truthy token);
    destruct (JS.truthy (JS.prop response "csrf_token"));
    destruct (JS.truthy (JS.prop response "session_id")); repeat split.
Qed.

Lemma X10_single_flight_success_writes_witness :
  let L := deliver 0 Sample.tokens
             (later_callers 1
                (call ServiceUtils.refreshAccessToken (page Sample.signed_in))) in
  accessToken (authStore (world L)) = JStr "token-2" /\
  (localStorage (world L) !! "session_id" : option Stored) = Some (StoredText "s-2").
Proof.
  destruct (X10_single_flight_success_writes Sample.signed_in 1 Sample.tokens
              (JObj [("session_id", JStr "s-2"); ("access_token", JStr "token-2");
                     ("csrf_token", JStr "csrf-2"); ("token_type", JStr "bearer");
                     ("expires_in", JNum 1734567890)])
              (JStr "token-2") eq_refl eq_refl eq_refl)
    as (_ & Ha & _ & _ & _ & _ & Hst).
  split; [exact Ha|]. cbv zeta in Hst. rewrite Hst. reflexivity.
Defined.
(* ===================================================================== *)
(** * Logging out *)
(* ===================================================================== *)

(** ** X11 -- logging out with tokens in hand.
    When the store holds both tokens, [logoutUser] makes exactly one network
    call, to [auth/logout], carrying [Bearer <access token>] and the CSRF
    token; nothing is cleared before the answer arrives. Whatever the answer
    -- success, an HTTP error (a 401 included: no refresh is attempted for
    this url) or a network failure -- the promise is fulfilled, the session
    state is cleared by [clearUser], and the router is sent to
    [/login?logoutSuccess=true] when one was passed. *)
Theorem X11_logout_clears_whatever_the_answer
    (w : World) (router locale : bool) (r : FetchResult) :
  holds_tokens w = true ->
  let L1 := call (AuthActions.logoutUser router locale) (page w) in
  let L := deliver 0 r L1 in
  requests L1 = [(API_URL w +:+ "auth/logout", logout_options w)] /\
  (headers (logout_options w) !! "Authorization" : option string)
    = Some ("Bearer " +:+ JS.toString (accessToken (authStore w))) /\
  (headers (logout_options w) !! "X-CSRF-Token" : option string)
    = Some (JS.toString (csrfToken (authStore w))) /\
  world L1 = w /\ promises L1 = [None] /\
  promises L = [Some (Fulfilled JUndefined)] /\
  world L = logged_out router locale w /\
  requests L = requests L1 /\ inflight L = [] /\ waiting L = [].
Proof.
  intros Htok L1 L.
  apply andb_prop in Htok. destruct Htok as [Hc Ha].
  eassert (HL1 : L1 = _).
  { subst L1. unfold call, AuthActions.logoutUser.
    cbn [exec page world set_promises promises bind andThen try_finally try_catch].
    rewrite Hc, Ha. run. loop_state. reflexivity. }
  clearbody L1. subst L1.
  split; [reflexivity|].
  split.
  { destruct (headers_csrf_step w "auth/logout"
                (mkOptions "POST" (JsonBody JNull) (Some "include")
                   ServiceUtils.json_headers)) as (o' & <- & Hh).
    unfold logout_options. rewrite Hh, Ha. reflexivity. }
  split.
  { unfold logout_options. rewrite csrf_header_step, Hc. reflexivity. }
  split; [reflexivity|]. split; [reflexivity|].
  unfold logged_out.
  destruct (ServiceUtils.received "json" r) as [v|e] eqn:E; destruct router.
  all: eassert (HL : L = _);
    [ subst L; run; rewrite E; run; rewrite ?andb_excluded_logout; run;
      loop_state; reflexivity
    | clearbody L; subst L; repeat split ].
Qed.

Lemma X11_logout_clears_whatever_the_answer_witness :
  let L := deliver 0 (Sample.failure 401 "Token has expired")
             (call (AuthActions.logoutUser true false) (page Sample.signed_in)) in
  promises L = [Some (Fulfilled JUndefined)] /\
  authStore (world L) = AuthStore.state /\
  router (world L) = ["/login?logoutSuccess=true"] /\
  map fst (requests L) = ["https://endurain.example/api/v1/auth/logout"].
Proof.
  destruct (X11_logout_clears_whatever_the_answer Sample.signed_in true false
              (Sample.failure 401 "Token has expired") eq_refl)
    as (Hreq1 & _ & _ & _ & _ & Hp & Hw & Hreq & _).
  cbv zeta in *. rewrite Hp, Hw, Hreq, Hreq1. repeat split.
Defined.

Lemma holds_tokens_guard (w : World) :
  (negb (JS.truthy (csrfToken (authStore w))) ||
   negb (JS.truthy (accessToken (authStore w))))%bool = negb (holds_tokens w).
Proof.
  unfold holds_tokens.
  destruct (JS.truthy (csrfToken (authStore w))), (JS.truthy (accessToken (authStore w)));
    reflexivity.
Qed.

(** where the store's [refreshAccessToken] leaves the browser state *)
Lemma refresh_world_host (r : FetchResult) (w : World) :
  ENDURAIN_HOST (refresh_world r w) = ENDURAIN_HOST w.
Proof.
  unfold refresh_world. destruct (ServiceUtils.received "json" r) as [response|e];
    [destruct (_ && _)%bool|]; try reflexivity. apply refreshed_host.
Qed.

(** ** X12 -- logging out without tokens (after a page reload).
    When the store lacks a token, [logoutUser] first calls [auth/refresh]
    and waits for the answer; whether the refresh succeeds or fails it then
    calls [auth/logout] once, with the headers of the store as the refresh
    left it -- [Bearer <new access token>] after a successful refresh -- and
    whatever the second answer it clears the session state and navigates as
    in the case with tokens. Two network calls are made in all. *)
Theorem X12_logout_refreshes_first_without_tokens
    (w : World) (router locale : bool) (r1 r2 : FetchResult) :
  holds_tokens w = false ->
  let L1 := call (AuthActions.logoutUser router locale) (page w) in
  let L2 := deliver 0 r1 L1 in
  let L3 := deliver 0 r2 L2 in
  let w2 := refresh_world r1 w in
  requests L1 = [(API_URL w +:+ "auth/refresh", refresh_options w)] /\
  world L2 = w2 /\
  requests L2 = [(API_URL w +:+ "auth/refresh", refresh_options w);
                 (API_URL w +:+ "auth/logout", logout_options w2)] /\
  inflight_urls L2 = [API_URL w +:+ "auth/logout"] /\
  (forall response,
     ServiceUtils.received "json" r1 = Fulfilled response ->
     (JS.truthy response && JS.truthy (JS.prop response "access_token"))%bool = true ->
     (headers (logout_options w2) !! "Authorization" : option string)
     = Some ("Bearer " +:+ JS.toString (JS.prop response "access_token"))) /\
  promises L3 = [Some (Fulfilled JUndefined)] /\
  world L3 = logged_out router locale w2 /\
  requests L3 = requests L2 /\ inflight L3 = [] /\ waiting L3 = [].
Proof.
  intros Htok L1 L2 L3 w2.
  assert (Hg := holds_tokens_guard w). rewrite Htok in Hg. cbn [negb] in Hg.
  assert (Hhost : ENDURAIN_HOST w2 = ENDURAIN_HOST w) by apply refresh_world_host.
  eassert (HL1 : L1 = _).
  { subst L1. unfold call, AuthActions.logoutUser.
    cbn [exec page world set_promises promises bind andThen try_finally try_catch].
    rewrite Hg. run. loop_state. reflexivity. }
  clearbody L1. subst L1.
  split; [reflexivity|].
  unfold refresh_world in w2, Hhost.
  destruct (ServiceUtils.received "json" r1) as [v1|e1] eqn:E1;
    [destruct (JS.truthy v1 && JS.truthy (JS.prop v1 "access_token"))%bool eqn:T1|].
  all: eassert (HL2 : L2 = _);
    [ subst L2; run; rewrite E1; run; rewrite ?andb_excluded, ?T1; run;
      loop_state; reflexivity
    | clearbody L2; subst L2 ].
  all: fold w2 in L3 |- *.
  all: split; [reflexivity|].
  all: split; [cbn [requests]; unfold API_URL; rewrite Hhost; reflexivity|].
  all: split; [cbn [inflight_urls inflight map req_url]; unfold API_URL;
               rewrite Hhost; reflexivity|].
  all: split;
    [ intros response Hr Ht; try discriminate Hr;
      try (injection Hr as <-; try (rewrite T1 in Ht; discriminate Ht))|].
  1: { destruct (headers_csrf_step w2 "auth/logout"
                   (mkOptions "POST" (JsonBody JNull) (Some "include")
                      ServiceUtils.json_headers)) as (o' & <- & Hh).
       unfold logout_options. rewrite Hh. cbn [public_endpoint negb String.eqb].
       unfold w2. rewrite refreshed_accessToken.
       apply andb_prop in Ht. destruct Ht as [_ ->]. reflexivity. }
  all: unfold logged_out.
  all: destruct (ServiceUtils.received "json" r2) as [v2|e2] eqn:E2; destruct router.
  all: eassert (HL3 : L3 = _);
    [ subst L3; run; rewrite E2; run; rewrite ?andb_excluded_logout; run;
      loop_state; reflexivity
    | clearbody L3; subst L3; repeat split ].
Qed.

Lemma X12_logout_refreshes_first_without_tokens_witness :
  let L2 := deliver 0 Sample.tokens
              (call (AuthActions.logoutUser true false) (page Sample.reloaded)) in
  let L3 := deliver 0 Sample.no_content L2 in
  map fst (requests L3)
    = ["https://endurain.example/api/v1/auth/refresh";
       "https://endurain.example/api/v1/auth/logout"] /\
  authStore (world L3) = AuthStore.state /\
  router (world L3) = ["/login?logoutSuccess=true"].
Proof.
  destruct (X12_logout_refreshes_first_without_tokens Sample.reloaded true false
              Sample.tokens Sample.no_content eq_refl)
    as (_ & _ & Hreq2 & _ & _ & _ & Hw & Hreq & _).
  cbv zeta in *. rewrite Hw, Hreq, Hreq2. repeat split.
Defined.
(* ===================================================================== *)
(** * The session state, continued *)
(* ===================================================================== *)

Lemma websocket_close_frame w :
  let w' := AuthStore.websocket_close w in
  localStorage w' = localStorage w /\ locale_value w' = locale_value w /\
  List.length (sockets w') = List.length (sockets w).
Proof.
  unfold AuthStore.websocket_close.
  destruct (user_websocket (authStore w)) as [ref|]; [|repeat split].
  cbn [set_sockets localStorage locale_value sockets]. repeat split.
  destruct (sockets w !! ref); [apply length_insert | reflexivity].
Qed.

Lemma clearUser_storage locale w :
  localStorage (AuthStore.clearUser locale w)
  = <["lang" := StoredText "us"]> (delete "session_id" (delete "user" (localStorage w))).
Proof.
  unfold AuthStore.clearUser, AuthStore.setLocale.
  destruct locale; fields;
    (destruct (AuthStore.websocket_open _);
     [ destruct (websocket_close_frame
                   (set_authStore (with_user AuthStore.empty_user)
                      (set_authStore (with_isAuthenticated false) w))) as (-> & _)
     | ]; reflexivity).
Qed.

Lemma clearUser_sockets locale w :
  sockets (AuthStore.clearUser locale w)
  = if AuthStore.websocket_open w
    then sockets (AuthStore.websocket_close w) else sockets w.
Proof.
  unfold AuthStore.clearUser, AuthStore.setLocale.
  destruct locale; fields;
    change (AuthStore.websocket_open
              (set_authStore (with_user AuthStore.empty_user)
                 (set_authStore (with_isAuthenticated false) w)))
      with (AuthStore.websocket_open w);
    destruct (AuthStore.websocket_open w); try reflexivity;
    unfold AuthStore.websocket_close; fields;
    destruct (user_websocket (authStore w)); reflexivity.
Qed.

Lemma clearUser_locale_value locale w :
  locale_value (AuthStore.clearUser locale w)
  = if locale then JStr "us" else locale_value w.
Proof.
  unfold AuthStore.clearUser, AuthStore.setLocale.
  destruct locale; fields; try reflexivity.
  destruct (AuthStore.websocket_open _); [|reflexivity].
  now destruct (websocket_close_frame
                  (set_authStore (with_user AuthStore.empty_user)
                     (set_authStore (with_isAuthenticated false) w))) as (_ & -> & _).
Qed.

Lemma World_eq (w1 w2 : World) :
  ENDURAIN_HOST w1 = ENDURAIN_HOST w2 -> authStore w1 = authStore w2 ->
  localStorage w1 = localStorage w2 -> refreshTokenPromise w1 = refreshTokenPromise w2 ->
  sockets w1 = sockets w2 -> location w1 = location w2 -> router w1 = router w2 ->
  locale_value w1 = locale_value w2 -> w1 = w2.
Proof. destruct w1, w2. cbn. intros. subst. reflexivity. Qed.

(** ** X13 -- what [clearUser] does beyond the store fields.
    [clearUser] removes [user] and [session_id] from [localStorage], sets
    [lang] to [us] (also in the locale ref when one is passed) and leaves
    every other stored item alone. It never creates or drops a socket: the
    store's socket is asked to close when it is OPEN, any other socket and a
    store socket in another state are left as they are. Clearing twice is the
    same as clearing once. *)
Theorem X13_clearUser_effects (locale : bool) (w : World) :
  let w' := AuthStore.clearUser locale w in
  (forall k : string, k <> "user" -> k <> "session_id" -> k <> "lang" ->
     (localStorage w' !! k : option Stored) = localStorage w !! k) /\
  (localStorage w' !! "lang" : option Stored) = Some (StoredText "us") /\
  locale_value w' = (if locale then JStr "us" else locale_value w) /\
  List.length (sockets w') = List.length (sockets w) /\
  (forall ref s, user_websocket (authStore w) = Some ref -> sockets w !! ref = Some s ->
     sockets w' !! ref
     = Some (match readyState s with
             | OPEN => mkWebSocket (ws_url s) CLOSING
             | _ => s
             end)) /\
  (forall i, user_websocket (authStore w) <> Some i -> sockets w' !! i = sockets w !! i) /\
  AuthStore.clearUser locale w' = w'.
Proof.
  intros w'.
  assert (Hst : localStorage w'
                = <["lang" := StoredText "us"]>
                    (delete "session_id" (delete "user" (localStorage w))))
    by apply clearUser_storage.
  assert (Hso : sockets w' = if AuthStore.websocket_open w
                             then sockets (AuthStore.websocket_close w) else sockets w)
    by apply clearUser_sockets.
  split.
  { intros k Hu Hs Hl. rewrite Hst.
    rewrite lookup_insert_ne by congruence.
    rewrite lookup_delete_ne by congruence.
    now rewrite lookup_delete_ne by congruence. }
  split; [rewrite Hst; apply lookup_insert_eq|].
  split; [apply clearUser_locale_value|].
  split.
  { rewrite Hso. destruct (AuthStore.websocket_open w); [|reflexivity].
    apply websocket_close_frame. }
  split.
  { intros ref s Href Hs. rewrite Hso.
    unfold AuthStore.websocket_open, AuthStore.websocket_close.
    rewrite Href, Hs. destruct s as [u st]. cbn [readyState ws_url sockets set_sockets].
    destruct st; try exact Hs.
    rewrite Hs. apply list_lookup_insert_eq. eapply lookup_lt_Some, Hs. }
  split.
  { intros i Hi. rewrite Hso.
    destruct (AuthStore.websocket_open w); [|reflexivity].
    unfold AuthStore.websocket_close.
    destruct (user_websocket (authStore w)) as [ref|]; [|reflexivity].
    cbn [sockets set_sockets].
    destruct (sockets w !! ref); [|reflexivity].
    apply list_lookup_insert_ne. congruence. }
  assert (Hopen : AuthStore.websocket_open w' = false).
  { unfold AuthStore.websocket_open, w'. now rewrite clearUser_authStore. }
  apply World_eq.
  - apply clearUser_host.
  - unfold w'. now rewrite !clearUser_authStore.
  - rewrite clearUser_storage, Hst. apply map_eq. intros k.
    destruct (decide (k = "lang")) as [->|Hl]; [now rewrite !lookup_insert_eq|].
    rewrite !(lookup_insert_ne _ "lang") by congruence.
    destruct (decide (k = "session_id")) as [->|Hs]; [now rewrite !lookup_delete_eq|].
    rewrite !(lookup_delete_ne _ "session_id") by congruence.
    destruct (decide (k = "user")) as [->|Hu]; [now rewrite !lookup_delete_eq|].
    rewrite !(lookup_delete_ne _ "user") by congruence.
    rewrite lookup_insert_ne by congruence.
    rewrite lookup_delete_ne by congruence.
    now rewrite lookup_delete_ne by congruence.
  - apply clearUser_frame.
  - rewrite clearUser_sockets, Hopen. reflexivity.
  - apply clearUser_location.
  - apply clearUser_frame.
  - rewrite clearUser_locale_value. unfold w'. rewrite clearUser_locale_value.
    now destruct locale.
Qed.

Lemma X13_clearUser_effects_witness :
  let w := set_localStorage (insert "serverSettings" (StoredText "{}")) Sample.signed_in in
  (localStorage (AuthStore.clearUser false w) !! "serverSettings" : option Stored)
  = Some (StoredText "{}").
Proof.
  intros w.
  destruct (X13_clearUser_effects false w) as (H & _).
  rewrite (H "serverSettings"); [reflexivity | discriminate | discriminate | discriminate].
Defined.

(* ===================================================================== *)
(** * Persisting and restoring the user *)
(* ===================================================================== *)

Lemma get_normal (v : JSValue) (name : string) (x : JSValue) :
  JS.get v name = Some x ->
  JS.JSON_normal v <> JUndefined /\ exists y, JS.get (JS.JSON_normal v) name = Some y.
Proof.
  destruct v; cbn; intros H; try discriminate H; (split; [discriminate | eauto]).
Qed.

Lemma setUser_storage userData sid locale w :
  localStorage (outcome_world (AuthStore.setUser userData sid locale w)) !! "user"
    = Some (JSON_stringify userData) /\
  localStorage (outcome_world (AuthStore.setUser userData sid locale w)) !! "session_id"
    = Some (StoredText (JS.toString sid)).
Proof.
  unfold AuthStore.setUser, AuthStore.setUserWebsocket, AuthStore.setUserSessionId,
    AuthStore.setLocale.
  fields.
  destruct (JS.get userData "preferred_language"); destruct locale;
    cbn [outcome_world]; fields;
    rewrite ?(lookup_insert_ne _ "lang") by discriminate;
    (split; [ rewrite lookup_insert_ne by discriminate; apply lookup_insert_eq
            | apply lookup_insert_eq ]).
Qed.

(** ** X14 -- the user survives a reload, the tokens do not.
    [setUser] persists the user and the session id; on a page whose storage
    is the one [setUser] left, [loadUserFromStorage] succeeds and restores
    the user as [JSON.parse(JSON.stringify(userData))], marks the store
    authenticated and restores the session id as the stored text (the text
    [null] for a session id that was [null]). It writes neither token and
    opens no socket: after a reload the store is authenticated without an
    access token until a refresh supplies one. *)
Theorem X14_user_survives_reload
    (userData sid : JSValue) (locale locale' : bool) (w0 w1 w2 : World) :
  AuthStore.setUser userData sid locale w0 = Done w1 ->
  localStorage w2 = localStorage w1 ->
  exists w3,
    AuthStore.loadUserFromStorage locale' w2 = Done w3 /\
    user (authStore w3) = JS.JSON_normal userData /\
    isAuthenticated (authStore w3) = true /\
    session_id (authStore w3) = JStr (JS.toString sid) /\
    accessToken (authStore w3) = accessToken (authStore w2) /\
    csrfToken (authStore w3) = csrfToken (authStore w2) /\
    user_websocket (authStore w3) = user_websocket (authStore w2) /\
    sockets w3 = sockets w2.
Proof.
  intros Hset Hsame.
  destruct (setUser_storage userData sid locale w0) as [Hu Hs].
  rewrite Hset in Hu, Hs. cbn [outcome_world] in Hu, Hs.
  assert (Hget : exists x, JS.get userData "preferred_language" = Some x).
  { unfold AuthStore.setUser in Hset. cbv zeta in Hset.
    match type of Hset with
    | context [JS.get ?u "preferred_language"] => change u with userData in Hset
    end.
    destruct (JS.get userData "preferred_language"); [eauto | discriminate Hset]. }
  destruct Hget as (x & Hget).
  destruct (get_normal _ _ _ Hget) as (Hdef & y & Hy).
  unfold AuthStore.loadUserFromStorage.
  rewrite Hsame, Hu. cbn [stored_truthy mbind option_bind JSON_stringify JSON_parse].
  destruct (JS.JSON_normal userData) eqn:En; try congruence.
  all: fields; rewrite Hy; eexists; split; [reflexivity|].
  all: unfold AuthStore.setLocale; destruct locale'; fields.
  all: rewrite lookup_insert_ne by discriminate.
  all: rewrite Hsame, Hs; repeat split.
Qed.

Lemma X14_user_survives_reload_witness :
  exists w3,
    AuthStore.loadUserFromStorage false
      (mkWorld "https://endurain.example" AuthStore.state
         (localStorage (outcome_world
            (AuthStore.setUser Sample.athlete JNull false Sample.signed_in)))
         None [] [] [] JNull) = Done w3 /\
    session_id (authStore w3) = JStr "null" /\
    accessToken (authStore w3) = JNull.
Proof.
  destruct (X14_user_survives_reload Sample.athlete JNull false false Sample.signed_in
              (outcome_world (AuthStore.setUser Sample.athlete JNull false Sample.signed_in))
              (mkWorld "https://endurain.example" AuthStore.state
                 (localStorage (outcome_world
                    (AuthStore.setUser Sample.athlete JNull false Sample.signed_in)))
                 None [] [] [] JNull)
              eq_refl eq_refl)
    as (w3 & Hload & _ & _ & Hsid & Hacc & _).
  exists w3. split; [exact Hload|]. split; [exact Hsid | exact Hacc].
Defined.

(** ** X15 -- the tokens never reach [localStorage].
    The actions that write a token ([setAccessToken], [setCsrfToken], the
    two outcomes of the store's refresh) leave [localStorage] as it is; the
    actions that write [localStorage] produce the same storage whatever
    tokens the store holds. The access token and the CSRF token live in
    memory only. *)
Theorem X15_tokens_never_reach_storage
    (w : World) (access csrf token response userData sid language : JSValue)
    (locale : bool) :
  let same (f : World -> World) :=
    localStorage (f (with_tokens access csrf w)) = localStorage (f w) in
  (localStorage (AuthStore.setAccessToken token w) = localStorage w /\
   localStorage (AuthStore.setCsrfToken token w) = localStorage w /\
   localStorage (AuthActions.refreshed response w) = localStorage w /\
   localStorage (AuthActions.refresh_failed w) = localStorage w) /\
  same (fun w => outcome_world (AuthStore.setUser userData sid locale w)) /\
  same (fun w => outcome_world (AuthStore.loadUserFromStorage locale w)) /\
  same (AuthStore.clearUser locale) /\
  same (AuthStore.setUserSessionId sid) /\
  same (AuthStore.setLocale language locale) /\
  same (fun w => outcome_world (AuthSetters.setPhotoPath token w)) /\
  same (fun w => outcome_world (AuthSetters.setStravaState token w)) /\
  same (fun w => outcome_world (AuthSetters.setPreferredLanguage language locale w)).
Proof.
  intros same. subst same. cbv beta.
  split.
  { split; [reflexivity|]. split; [reflexivity|].
    split; [apply refreshed_frame | reflexivity]. }
  split.
  { unfold AuthStore.setUser, AuthStore.setUserWebsocket, AuthStore.setUserSessionId,
      AuthStore.setLocale, with_tokens. fields.
    destruct (JS.get userData "preferred_language"); destruct locale; reflexivity. }
  split.
  { unfold AuthStore.loadUserFromStorage, AuthStore.setLocale, with_tokens. fields.
    destruct (stored_truthy _); [|reflexivity].
    destruct (_ ≫= JSON_parse) as [u|]; [|reflexivity].
    destruct (JS.get u "preferred_language"); destruct locale; reflexivity. }
  split; [now rewrite !clearUser_storage|].
  split; [reflexivity|].
  split; [unfold AuthStore.setLocale; destruct locale; reflexivity|].
  unfold AuthSetters.setPhotoPath, AuthSetters.setStravaState,
    AuthSetters.setPreferredLanguage, AuthStore.setLocale, with_tokens. fields.
  repeat split;
    match goal with
    | |- context [JSAssign.assign ?u ?n ?x] => destruct (JSAssign.assign u n x)
    end; try destruct locale; reflexivity.
Qed.

(* ===================================================================== *)
(** * The remaining setters of the store *)
(* ===================================================================== *)

Lemma assoc_set_field_eq name x fields :
  JS.assoc name (JSAssign.set_field name x fields) = x.
Proof.
  induction fields as [|[k v] rest IH]; cbn [JSAssign.set_field JS.assoc].
  - now rewrite String.eqb_refl.
  - destruct (String.eqb k name) eqn:E; cbn [JS.assoc]; rewrite E; [reflexivity | exact IH].
Qed.

Lemma assoc_set_field_ne name k x fields :
  k <> name -> JS.assoc k (JSAssign.set_field name x fields) = JS.assoc k fields.
Proof.
  intros Hne.
  induction fields as [|[k' v] rest IH]; cbn [JSAssign.set_field JS.assoc].
  - destruct (String.eqb_spec name k); [congruence | reflexivity].
  - destruct (String.eqb_spec k' name) as [->|Hk]; cbn [JS.assoc].
    + destruct (String.eqb_spec name k); [congruence | reflexivity].
    + destruct (String.eqb k' k); [reflexivity | exact IH].
Qed.

(** ** X16 -- the user setters write through to storage.
    For a store whose user is an object, [setPhotoPath], [setStravaState]
    and [setPreferredLanguage] set their one property of the user -- read
    back, it is the new value; every other property reads as before -- and
    persist the updated user, so that the stored copy is always the
    serialisation of the user in memory. Tokens, session id and the
    authenticated flag are untouched. [setPreferredLanguage] also stores the
    language as [lang]. *)
Theorem X16_user_setters_write_through
    (w : World) (fields : list (string * JSValue)) (x : JSValue) (locale : bool) :
  user (authStore w) = JObj fields ->
  Forall (fun '(name, action) =>
    exists w',
      action w = Done w' /\
      JS.get (user (authStore w')) name = Some x /\
      (forall k, k <> name ->
         JS.get (user (authStore w')) k = JS.get (user (authStore w)) k) /\
      (localStorage w' !! "user" : option Stored)
        = Some (JSON_stringify (user (authStore w'))) /\
      authStore w' = with_user (user (authStore w')) (authStore w) /\
      (forall k : string, k <> "user" -> k <> "lang" ->
         (localStorage w' !! k : option Stored) = localStorage w !! k))
    [("photo_path", AuthSetters.setPhotoPath x);
     ("is_strava_linked", AuthSetters.setStravaState x);
     ("preferred_language", AuthSetters.setPreferredLanguage x locale)] /\
  (localStorage (outcome_world (AuthSetters.setPreferredLanguage x locale w)) !! "lang"
     : option Stored) = Some (StoredText (JS.toString x)).
Proof.
  intros Hu.
  split.
  - apply List.Forall_cons; [|apply List.Forall_cons; [|apply List.Forall_cons;
                                                           [|apply List.Forall_nil]]].
    all: unfold AuthSetters.setPhotoPath, AuthSetters.setStravaState,
           AuthSetters.setPreferredLanguage, AuthStore.setLocale.
    all: rewrite Hu; cbn [JSAssign.assign].
    all: eexists; split; [reflexivity|].
    all: try destruct locale; fields; cbn [JS.get].
    all: split; [now rewrite assoc_set_field_eq|].
    all: split; [intros k Hk; now rewrite assoc_set_field_ne|].
    all: rewrite ?(lookup_insert_ne _ "lang") by discriminate.
    all: split; [apply lookup_insert_eq|].
    all: split; [reflexivity|].
    all: intros k Hk Hl; rewrite ?(lookup_insert_ne _ "lang") by congruence;
      now rewrite lookup_insert_ne by congruence.
  - unfold AuthSetters.setPreferredLanguage, AuthStore.setLocale.
    rewrite Hu. cbn [JSAssign.assign outcome_world].
    destruct locale; fields; apply lookup_insert_eq.
Qed.

Lemma X16_user_setters_write_through_witness :
  (localStorage (outcome_world
     (AuthSetters.setPreferredLanguage (JStr "fr") false Sample.signed_in)) !! "lang"
     : option Stored) = Some (StoredText "fr").
Proof.
  destruct (X16_user_setters_write_through Sample.signed_in
              [("id", JNum 7); ("name", JStr "Ana"); ("preferred_language", JStr "pt")]
              (JStr "fr") false eq_refl) as (_ & H).
  exact H.
Defined.

(* ===================================================================== *)
(** * The websocket *)
(* ===================================================================== *)

Lemma append_cons (x : ascii) (a b : string) : String x a +:+ b = String x (a +:+ b).
Proof. reflexivity. Qed.

Lemma append_assoc (a b c : string) : (a +:+ b) +:+ c = a +:+ (b +:+ c).
Proof. induction a as [|x a IH]; [reflexivity | now rewrite !append_cons, IH]. Qed.

Lemma string_of_snoc (l : list ascii) (c : ascii) (s : string) :
  string_of_list_ascii (l ++ [c]) +:+ s = string_of_list_ascii l +:+ String c s.
Proof.
  induction l as [|x l IH]; [reflexivity|].
  cbn [app string_of_list_ascii]. now rewrite !append_cons, IH.
Qed.

Lemma append_empty_r (s : string) : s +:+ "" = s.
Proof. induction s as [|x s IH]; [reflexivity | now rewrite append_cons, IH]. Qed.

(** a string without the separator is one piece *)
Lemma split_from_whole (sep : string) : forall (s : string) (cur : list ascii),
  JSString.includes s sep = false ->
  JSString.split_from sep s 0 cur = [string_of_list_ascii (rev cur) +:+ s].
Proof.
  induction s as [|c s IH]; intros cur H.
  - cbn [JSString.split_from]. now rewrite append_empty_r.
  - cbn [JSString.includes] in H. apply orb_false_elim in H. destruct H as [H1 H2].
    cbn [JSString.split_from]. rewrite H1, (IH _ H2).
    cbn [rev]. now rewrite string_of_snoc.
Qed.

(** the piece before the first [://] *)
Lemma split_from_scheme (tail : string) : forall (scheme : string) (cur : list ascii),
  no_colon scheme = true ->
  JSString.split_from "://" (scheme +:+ "://" +:+ tail) 0 cur
  = (string_of_list_ascii (rev cur) +:+ scheme) :: JSString.split_from "://" tail 0 [].
Proof.
  induction scheme as [|c scheme IH]; intros cur H.
  - change ("" +:+ "://" +:+ tail) with (String ":" (String "/" (String "/" tail))).
    cbn [JSString.split_from JSString.startsWith Ascii.eqb Bool.eqb andb String.length
         Nat.sub].
    now rewrite append_empty_r.
  - unfold no_colon in H. cbn [JSString.chars forallb] in H.
    apply andb_prop in H. destruct H as [Hc H].
    change (String c scheme +:+ "://" +:+ tail)
      with (String c (scheme +:+ "://" +:+ tail)).
    cbn [JSString.split_from JSString.startsWith].
    assert (Hne : Ascii.eqb ":" c = false).
    { apply negb_true_iff in Hc. unfold JSString.is_char, JSString.code in Hc.
      apply N.eqb_neq in Hc. apply Ascii.eqb_neq. intros <-. now apply Hc. }
    rewrite Hne. cbn [andb]. rewrite (IH _ H).
    cbn [rev]. now rewrite string_of_snoc.
Qed.

Lemma websocket_url_of_host (w : World) (scheme rest : string) :
  ENDURAIN_HOST w = scheme +:+ "://" +:+ rest ->
  no_colon scheme = true ->
  JSString.includes (rest +:+ "/api/v1/") "://" = false ->
  websocket_url w
  = (if String.eqb scheme "http" then "ws" else "wss") +:+ "://" +:+ rest
      +:+ "/api/v1/ws?access_token=" +:+ JS.toString (accessToken (authStore w)).
Proof.
  intros Hhost Hscheme Hrest.
  unfold websocket_url, JSString.split, API_URL. rewrite Hhost.
  rewrite !append_assoc.
  rewrite (split_from_scheme _ _ [] Hscheme).
  rewrite (split_from_whole "://" _ [] Hrest).
  cbn [nth rev string_of_list_ascii].
  change ("" +:+ scheme) with scheme.
  change ("" +:+ rest +:+ "/api/v1/") with (rest +:+ "/api/v1/").
  rewrite !append_assoc. reflexivity.
Qed.

Lemma setUserWebsocket_socket (w : World) :
  sockets (AuthStore.setUserWebsocket w)
    = sockets w ++ [mkWebSocket (websocket_url w) CONNECTING] /\
  authStore (AuthStore.setUserWebsocket w)
    = with_user_websocket (Some (List.length (sockets w))) (authStore w).
Proof. split; reflexivity. Qed.

(** ** X17 -- where the websocket connects.
    For a host [scheme://rest], [setUserWebsocket] opens one new socket, in
    state CONNECTING, to [ws://rest/api/v1/ws?access_token=<token>] when the
    scheme is [http] and to [wss://...] for any other scheme; the token is
    the access token the store holds at that moment, written as a template
    literal writes it. The store then refers to the new socket; the sockets
    created before are untouched. *)
Theorem X17_websocket_url (w : World) (scheme rest : string) :
  ENDURAIN_HOST w = scheme +:+ "://" +:+ rest ->
  no_colon scheme = true ->
  JSString.includes (rest +:+ "/api/v1/") "://" = false ->
  let w' := AuthStore.setUserWebsocket w in
  sockets w'
  = sockets w ++
    [mkWebSocket
       ((if String.eqb scheme "http" then "ws" else "wss") +:+ "://" +:+ rest
          +:+ "/api/v1/ws?access_token=" +:+ JS.toString (accessToken (authStore w)))
       CONNECTING] /\
  user_websocket (authStore w') = Some (List.length (sockets w)) /\
  localStorage w' = localStorage w.
Proof.
  intros Hhost Hscheme Hrest w'.
  destruct (setUserWebsocket_socket w) as [Hs Ha].
  subst w'. rewrite Hs, Ha, (websocket_url_of_host w scheme rest Hhost Hscheme Hrest).
  repeat split.
Qed.

Lemma X17_websocket_url_witness :
  sockets (AuthStore.setUserWebsocket Sample.signed_in)
  = sockets Sample.signed_in ++
    [mkWebSocket "wss://endurain.example/api/v1/ws?access_token=token-1" CONNECTING].
Proof.
  destruct (X17_websocket_url Sample.signed_in "https" "endurain.example"
              eq_refl eq_refl eq_refl) as (H & _).
  exact H.
Defined.

(** ** X18 -- a successful refresh reconnects an open websocket.
    When the store's socket is OPEN at the moment a refresh succeeds, the
    socket is asked to close and a new one is opened whose url carries the
    new access token; the store refers to the new socket. A socket that is
    not OPEN (still connecting, closing, closed), or no socket at all, is
    left as it is and no socket is created: the new token reaches the
    websocket only through a later [setUser]. *)
Theorem X18_refresh_reconnects_open_socket
    (response : JSValue) (w : World) (ref : nat) (s : WebSocket) :
  user_websocket (authStore w) = Some ref ->
  sockets w !! ref = Some s ->
  let w' := AuthActions.refreshed response w in
  match readyState s with
  | OPEN =>
      exists url prefix,
        sockets w' = <[ref := mkWebSocket (ws_url s) CLOSING]> (sockets w)
                     ++ [mkWebSocket url CONNECTING] /\
        user_websocket (authStore w') = Some (List.length (sockets w)) /\
        url = prefix +:+ "ws?access_token="
                +:+ JS.toString (JS.prop response "access_token")
  | _ =>
      sockets w' = sockets w /\ user_websocket (authStore w') = Some ref
  end.
Proof.
  intros Href Hs w'. subst w'. unfold AuthActions.refreshed.
  set (w1 := if JS.truthy (JS.prop response "csrf_token") then _ else _).
  assert (H1 : user_websocket (authStore w1) = Some ref /\ sockets w1 = sockets w /\
               accessToken (authStore w1) = JS.prop response "access_token" /\
               ENDURAIN_HOST w1 = ENDURAIN_HOST w).
  { subst w1. destruct (JS.truthy _); repeat split; exact Href. }
  clearbody w1. destruct H1 as (Href1 & Hs1 & Ha1 & Hh1).
  unfold AuthStore.websocket_open. rewrite Href1, Hs1, Hs.
  destruct s as [u st]. cbn [readyState ws_url].
  destruct st; try (split; [exact Hs1 | exact Href1]).
  destruct (setUserWebsocket_socket (AuthStore.websocket_close w1)) as [Hso Hau].
  rewrite Hso, Hau. unfold websocket_url.
  rewrite authStore_websocket_close, Ha1.
  unfold AuthStore.websocket_close. rewrite Href1.
  cbn [sockets set_sockets ws_url user_websocket with_user_websocket authStore].
  rewrite Hs1, Hs. cbn [ws_url].
  do 2 eexists. split; [reflexivity|]. split.
  - now rewrite length_insert.
  - rewrite <- !append_assoc. reflexivity.
Qed.

Lemma X18_refresh_reconnects_open_socket_witness :
  let w := set_authStore (with_user_websocket (Some 0%nat))
             (set_sockets (fun _ => [mkWebSocket "wss://endurain.example/api/v1/ws" OPEN])
                Sample.signed_in) in
  map readyState
    (sockets (AuthActions.refreshed (JObj [("access_token", JStr "token-2")]) w))
  = [CLOSING; CONNECTING].
Proof.
  intros w.
  destruct (X18_refresh_reconnects_open_socket (JObj [("access_token", JStr "token-2")])
              w 0%nat (mkWebSocket "wss://endurain.example/api/v1/ws" OPEN)
              eq_refl eq_refl) as (url & prefix & H & _).
  cbv zeta in H. rewrite H. reflexivity.
Defined.

(* ===================================================================== *)
(** * base64url, any length *)
(* ===================================================================== *)

Module Base64UrlFacts.
Import JSString PKCE PKCEFacts Base64Url.

(** induction on a buffer, three bytes at a time *)
Lemma three_ind (P : list byte -> Prop) :
  P [] -> (forall a, P [a]) -> (forall a b, P [a; b]) ->
  (forall a b c rest, P rest -> P (a :: b :: c :: rest)) ->
  forall l, P l.
Proof.
  intros H0 H1 H2 H3.
  fix IH 1. intros [|a [|b [|c rest]]]; [exact H0 | apply H1 | apply H2 |].
  apply H3. apply IH.
Qed.

Lemma encode_binary_0 : encode_binary EmptyString = EmptyString.
Proof. reflexivity. Qed.

Lemma encode_binary_1_digits a :
  encode_binary (String a EmptyString)
  = String (url_char (b64 (N.shiftr (code a) 2)))
      (String (url_char (b64 (N.shiftl (N.land (code a) 3) 4))) EmptyString).
Proof.
  unfold encode_binary. cbn [btoa]. rewrite !to_url_cons.
  rewrite !strip_cons_keep by apply b64_not_pad.
  reflexivity.
Qed.

Lemma encode_binary_2_digits a b :
  encode_binary (String a (String b EmptyString))
  = String (url_char (b64 (N.shiftr (code a) 2)))
      (String (url_char (b64 (N.lor (N.shiftl (N.land (code a) 3) 4)
                                    (N.shiftr (code b) 4))))
         (String (url_char (b64 (N.shiftl (N.land (code b) 15) 2))) EmptyString)).
Proof.
  unfold encode_binary. cbn [btoa]. rewrite !to_url_cons.
  rewrite !strip_cons_keep by apply b64_not_pad.
  reflexivity.
Qed.

Lemma encode_binary_3_digits a b c rest :
  encode_binary (String a (String b (String c rest)))
  = String (url_char (b64 (N.shiftr (code a) 2)))
      (String (url_char (b64 (N.lor (N.shiftl (N.land (code a) 3) 4)
                                    (N.shiftr (code b) 4))))
         (String (url_char (b64 (N.lor (N.shiftl (N.land (code b) 15) 2)
                                       (N.shiftr (code c) 6))))
            (String (url_char (b64 (N.land (code c) 63)))
               (encode_binary rest)))).
Proof.
  unfold encode_binary. cbn [btoa]. rewrite !to_url_cons.
  rewrite !strip_cons_keep by apply b64_not_pad.
  reflexivity.
Qed.

Lemma encode_any_length (buffer : list byte) :
  String.length (base64URLEncode buffer) = ((4 * List.length buffer + 2) / 3)%nat /\
  forallb base64urlChars (chars (base64URLEncode buffer)) = true.
Proof.
  induction buffer as [| a | a b | a b c rest [IHlen IHall]] using three_ind.
  - split; reflexivity.
  - rewrite base64URLEncode_binary. cbn [binary_of]. rewrite encode_binary_1_digits.
    cbn [String.length chars forallb]. rewrite !b64_url. split; reflexivity.
  - rewrite base64URLEncode_binary. cbn [binary_of]. rewrite encode_binary_2_digits.
    cbn [String.length chars forallb]. rewrite !b64_url. split; reflexivity.
  - rewrite base64URLEncode_binary in *. cbn [binary_of]. rewrite encode_binary_3_digits.
    cbn [String.length chars forallb]. rewrite !b64_url, IHlen, IHall.
    split; [|reflexivity].
    cbn [List.length].
    replace (4 * S (S (S (List.length rest))) + 2)%nat
      with ((4 * List.length rest + 2) + 4 * 3)%nat by lia.
    rewrite Nat.div_add by discriminate. lia.
Qed.

(** ** Reading the digits back *)

Lemma table1 (P : N -> bool) :
  forallb (fun i => P (N.of_nat i)) (seq 0 256) = true ->
  forall x, (x < 256)%N -> P x = true.
Proof.
  intros T x Hx. rewrite forallb_forall in T.
  specialize (T (N.to_nat x)). rewrite N2Nat.id in T.
  apply T, in_seq. lia.
Qed.

Lemma table2 (P : N -> N -> bool) :
  forallb (fun i => forallb (fun j => P (N.of_nat i) (N.of_nat j)) (seq 0 256))
          (seq 0 256) = true ->
  forall x y, (x < 256)%N -> (y < 256)%N -> P x y = true.
Proof.
  intros T x y Hx Hy. rewrite forallb_forall in T.
  specialize (T (N.to_nat x)). rewrite N2Nat.id in T.
  assert (Tx := T ltac:(apply in_seq; lia)).
  now apply (table1 (P x)).
Qed.

Lemma digit_value_table :
  forallb (fun i => (digit_value (url_char (b64 (N.of_nat i))) =? N.of_nat i)%N)
          (seq 0 64) = true.
Proof. vm_compute. reflexivity. Qed.

Lemma digit_value_b64 n : (n < 64)%N -> digit_value (url_char (b64 n)) = n.
Proof.
  intros Hn. pose proof digit_value_table as T. rewrite forallb_forall in T.
  specialize (T (N.to_nat n)). rewrite N2Nat.id in T.
  apply N.eqb_eq, T, in_seq. lia.
Qed.

(** what reading back needs of two neighbouring bytes [x], [y] *)
Lemma groups_table :
  forallb (fun i => forallb (fun j => groups_ok (N.of_nat i) (N.of_nat j)) (seq 0 256))
          (seq 0 256) = true.
Proof. vm_compute. reflexivity. Qed.

Lemma groups (x y : N) :
  (x < 256)%N -> (y < 256)%N ->
  ((g1 x < 64)%N /\ (g2 x y < 64)%N /\ (g3 x y < 64)%N /\ (g4 y < 64)%N) /\
  N.lor (N.shiftl (g1 x) 2) (N.shiftr (g2 x y) 4) = x /\
  N.land (g2 x y) 15 = N.shiftr y 4 /\
  N.shiftr (g3 x y) 2 = N.land x 15 /\
  N.lor (N.shiftl (N.land (g3 x y) 3) 6) (g4 y) = y /\
  N.lor (N.shiftl (N.shiftr y 4) 4) (N.land y 15) = y.
Proof.
  intros Hx Hy.
  pose proof (table2 groups_ok groups_table x y Hx Hy) as T. unfold groups_ok in T.
  repeat (apply andb_prop in T; destruct T as [T ?]).
  repeat match goal with
         | H : (_ <? _)%N = true |- _ => apply N.ltb_lt in H
         | H : (_ =? _)%N = true |- _ => apply N.eqb_eq in H
         end.
  auto 10.
Qed.

Lemma code_bound (a : byte) : (code (ascii_of_byte a) < 256)%N.
Proof. apply N_ascii_bounded. Qed.

Lemma to_byte_code (a : byte) : to_byte (code (ascii_of_byte a)) = a.
Proof.
  unfold to_byte, code. now rewrite ascii_N_embedding, byte_of_ascii_of_byte.
Qed.

Lemma b64_g (n : N) : (n < 64)%N -> digit_value (url_char (b64 n)) = n.
Proof. apply digit_value_b64. Qed.

(** [decode] reads back what [base64URLEncode] wrote. *)
Lemma decode_encode (buffer : list byte) :
  decode (base64URLEncode buffer) = buffer.
Proof.
  induction buffer as [| a | a b | a b c rest IH] using three_ind.
  - reflexivity.
  - rewrite base64URLEncode_binary. cbn [binary_of]. rewrite encode_binary_1_digits.
    cbn [decode]. cbv zeta.
    set (x := code (ascii_of_byte a)).
    destruct (groups x 0 (code_bound a) eq_refl) as ((L1 & L2 & _) & Hx & _).
    change (N.shiftr x 2) with (g1 x).
    replace (N.shiftl (N.land x 3) 4) with (g2 x 0)
      by (unfold g2; now rewrite N.lor_0_r).
    rewrite !b64_g by assumption. rewrite Hx. unfold x. now rewrite to_byte_code.
  - rewrite base64URLEncode_binary. cbn [binary_of]. rewrite encode_binary_2_digits.
    cbn [decode]. cbv zeta.
    set (x := code (ascii_of_byte a)). set (y := code (ascii_of_byte b)).
    destruct (groups x y (code_bound a) (code_bound b))
      as ((L1 & L2 & _) & Hx & Hy1 & _ & _ & Hy).
    destruct (groups y 0 (code_bound b) eq_refl) as ((_ & _ & L3 & _) & _ & _ & Hy2 & _).
    change (N.shiftr x 2) with (g1 x).
    change (N.lor (N.shiftl (N.land x 3) 4) (N.shiftr y 4)) with (g2 x y).
    replace (N.shiftl (N.land y 15) 2) with (g3 y 0)
      by (unfold g3; now rewrite N.lor_0_r).
    rewrite !b64_g by assumption. rewrite Hx, Hy1, Hy2, Hy.
    unfold x, y. now rewrite !to_byte_code.
  - rewrite base64URLEncode_binary in *. cbn [binary_of]. rewrite encode_binary_3_digits.
    cbn [decode]. cbv zeta. rewrite IH.
    set (x := code (ascii_of_byte a)). set (y := code (ascii_of_byte b)).
    set (z := code (ascii_of_byte c)).
    destruct (groups x y (code_bound a) (code_bound b))
      as ((L1 & L2 & _) & Hx & Hy1 & _ & _ & Hy).
    destruct (groups y z (code_bound b) (code_bound c))
      as ((_ & _ & L3 & L4) & _ & _ & Hy2 & Hz & _).
    change (N.shiftr x 2) with (g1 x).
    change (N.lor (N.shiftl (N.land x 3) 4) (N.shiftr y 4)) with (g2 x y).
    change (N.lor (N.shiftl (N.land y 15) 2) (N.shiftr z 6)) with (g3 y z).
    change (N.land z 63) with (g4 z).
    rewrite !b64_g by assumption. rewrite Hx, Hy1, Hy2, Hy, Hz.
    unfold x, y, z. now rewrite !to_byte_code.
Qed.

End Base64UrlFacts.

(** ** X19 -- base64url of a buffer of any length.
    [base64URLEncode] of [n] bytes is a text of [(4n + 2) / 3] characters,
    all of them letters, digits, [-] or [_]: none of [+], [/] or the padding
    [=] is left, for any length of the buffer and not only for the 32 bytes
    of a verifier. *)
Theorem X19_base64url_any_length (buffer : list byte) :
  String.length (PKCE.base64URLEncode buffer) = ((4 * List.length buffer + 2) / 3)%nat /\
  forallb PKCE.base64urlChars (JSString.chars (PKCE.base64URLEncode buffer)) = true.
Proof. apply Base64UrlFacts.encode_any_length. Qed.

(** ** X20 -- base64url loses nothing.
    Two buffers with the same [base64URLEncode] text are the same buffer:
    the text can be read back byte for byte. Distinct random arrays thus give
    distinct code verifiers, and the 43 characters of a verifier carry all
    256 bits [crypto.getRandomValues] produced. *)
Theorem X20_base64url_is_injective (buffer1 buffer2 : list byte) :
  PKCE.base64URLEncode buffer1 = PKCE.base64URLEncode buffer2 -> buffer1 = buffer2.
Proof.
  intros H.
  rewrite <- (Base64UrlFacts.decode_encode buffer1),
          <- (Base64UrlFacts.decode_encode buffer2).
  now rewrite H.
Qed.

Lemma X20_base64url_is_injective_witness :
  [x01; x02; x03]%byte = [x01; x02; x03]%byte.
Proof.
  apply (X20_base64url_is_injective [x01; x02; x03]%byte [x01; x02; x03]%byte).
  reflexivity.
Defined.

Lemma forallb_weaken {A} (p q : A -> bool) (l : list A) :
  (forall x, p x = true -> q x = true) -> forallb p l = true -> forallb q l = true.
Proof.
  intros Hpq H. apply forallb_forall. intros x Hx.
  apply Hpq. rewrite forallb_forall in H. now apply H.
Qed.

(** ** X21 -- which buffers make a valid verifier or challenge.
    The base64url text of [n] bytes passes [validateCodeVerifier] exactly
    when [32 <= n <= 96], and passes [validateCodeChallenge] exactly when
    [n = 32]: the character tests can never fail on an encoded buffer, so
    only its length decides. *)
Theorem X21_encoded_buffer_validity (buffer : list byte) :
  PKCE.validateCodeVerifier (PKCE.base64URLEncode buffer)
    = ((32 <=? List.length buffer)%nat && (List.length buffer <=? 96)%nat)%bool /\
  PKCE.validateCodeChallenge (PKCE.base64URLEncode buffer)
    = (List.length buffer =? 32)%nat.
Proof.
  destruct (Base64UrlFacts.encode_any_length buffer) as [Hlen Hall].
  assert (Hunres : forallb PKCE.unreservedChars
                     (JSString.chars (PKCE.base64URLEncode buffer)) = true).
  { revert Hall. apply forallb_weaken, PKCEFacts.base64url_unreserved. }
  unfold PKCE.validateCodeVerifier, PKCE.validateCodeChallenge, JSString.length,
    JSString.test_all.
  rewrite Hlen.
  set (n := List.length buffer) in *.
  assert (Hdiv : (3 * ((4 * n + 2) / 3) <= 4 * n + 2 < 3 * ((4 * n + 2) / 3) + 3)%nat).
  { pose proof (Nat.div_mod_eq (4 * n + 2) 3).
    pose proof (Nat.mod_upper_bound (4 * n + 2) 3). lia. }
  set (m := ((4 * n + 2) / 3)%nat) in *.
  split.
  - destruct (Z.ltb_spec (Z.of_nat m) 43), (Z.ltb_spec 128 (Z.of_nat m));
      destruct (Nat.leb_spec 32 n), (Nat.leb_spec n 96); cbn [orb andb]; try lia;
      try reflexivity.
    destruct (PKCE.base64URLEncode buffer) as [|c s] eqn:E; [|exact Hunres].
    cbn [String.length] in Hlen. lia.
  - destruct (Z.eqb_spec (Z.of_nat m) 43); destruct (Nat.eqb_spec n 32); cbn [negb];
      try lia; try reflexivity.
    destruct (PKCE.base64URLEncode buffer) as [|c s] eqn:E; [|exact Hall].
    cbn [String.length] in Hlen. lia.
Qed.

(* ===================================================================== *)
(** * Building the goals query *)
(* ===================================================================== *)

Module QueryFacts.
Import JSString URLSearchParams.

Lemma count_char_app x (a b : string) :
  count_char x (a +:+ b) = (count_char x a + count_char x b)%nat.
Proof.
  induction a as [|c a IH]; [reflexivity|].
  rewrite append_cons. cbn [count_char]. rewrite IH. lia.
Qed.

Lemma encode_byte_table :
  forallb (fun i =>
     forallb (fun d =>
        Nat.eqb (count_char d (encode_byte (byte_of_ascii (ascii_of_nat i)))) 0)
       ["&"; "="; "?"; "#"; " "; "/"]%char)
    (seq 0 256) = true.
Proof. vm_compute. reflexivity. Qed.

Lemma encode_byte_clean (d : ascii) (b : byte) :
  query_delimiter d = true -> count_char d (encode_byte b) = 0%nat.
Proof.
  intros Hd. pose proof encode_byte_table as T. rewrite forallb_forall in T.
  specialize (T (nat_of_ascii (ascii_of_byte b))).
  rewrite ascii_nat_embedding, byte_of_ascii_of_byte in T.
  assert (Hin : In (nat_of_ascii (ascii_of_byte b)) (seq 0 256)).
  { apply in_seq. pose proof (nat_ascii_bounded (ascii_of_byte b)). lia. }
  specialize (T Hin). rewrite forallb_forall in T.
  apply Nat.eqb_eq, T.
  unfold query_delimiter in Hd. apply existsb_exists in Hd.
  destruct Hd as (c & Hc & E). apply Ascii.eqb_eq in E. now subst c.
Qed.

(** an encoded name or value holds no delimiter of a query *)
Lemma encode_clean (d : ascii) (s : string) :
  query_delimiter d = true -> count_char d (encode s) = 0%nat.
Proof.
  intros Hd. unfold encode.
  induction (PKCE.TextEncoder_encode s) as [|b bs IH]; [reflexivity|].
  cbn [map String.concat].
  destruct (map encode_byte bs) as [|e es] eqn:E.
  - apply encode_byte_clean, Hd.
  - change (EmptyString +:+ String.concat "" (e :: es))
      with (String.concat "" (e :: es)).
    rewrite count_char_app, (encode_byte_clean d b Hd). exact IH.
Qed.

Lemma query_nonempty (c : ascii) (k r : string) :
  JS.truthy (JStr (String c k +:+ r)) = true.
Proof. reflexivity. Qed.

Lemma query_nonempty_more (c : ascii) (k r r' : string) :
  JS.truthy (JStr ((String c k +:+ r) +:+ r')) = true.
Proof. reflexivity. Qed.

(** the url of [getUserGoals], by the number of filters set *)
Lemma goals_url_shape (filters : JSValue) :
  filters <> JNull ->
  exists url, UserGoals.goals_url filters = Some url /\
    match filters_set filters with
    | O => url = "profile/goals"
    | S n =>
        exists q, url = "profile/goals?" +:+ q /\
          count_char "&" q = n /\ count_char "=" q = S n /\
          count_char "?" q = 0%nat /\ count_char "#" q = 0%nat /\
          count_char " " q = 0%nat /\ count_char "/" q = 0%nat
    end.
Proof.
  intros Hnull. unfold UserGoals.goals_url, filters_set.
  destruct filters as [| |b|n|s|items|fields|data]; try congruence;
    try (eexists; split; reflexivity).
  cbn [JS.get JS.prop List.filter]. unfold UserGoals.appended.
  destruct (JS.truthy (JS.assoc "interval" fields));
    destruct (JS.truthy (JS.assoc "activity_type" fields));
    destruct (JS.truthy (JS.assoc "goal_type" fields));
    cbn [app List.length map fst snd URLSearchParams.toString JS.join];
    try (eexists; split; reflexivity).
  all: change (encode "interval") with "interval";
    change (encode "activity_type") with "activity_type";
    change (encode "goal_type") with "goal_type".
  all: rewrite ?query_nonempty, ?query_nonempty_more.
  all: eexists; split; [reflexivity|]; eexists; split; [reflexivity|].
  all: rewrite ?count_char_app, ?encode_clean by reflexivity.
  all: repeat split.
Qed.

End QueryFacts.

(** ** X22 -- the query of [getUserGoals].
    For any filters object (or none), [getUserGoals] sends one GET request.
    With no filter set the url is [profile/goals] -- no [?] is left
    dangling. With [n + 1] filters set the url is [profile/goals?q] where [q]
    holds exactly [n + 1] signs [=] and [n] signs [&], and no [?], [#], [/]
    or space: whatever text a filter value brings is percent-encoded, so a
    value cannot add, end or split a parameter. *)
Theorem X22_goals_query_is_well_formed (w : World) (filters : JSValue) :
  filters <> JNull ->
  let L := call (UserGoals.getUserGoals filters) (page w) in
  exists url o,
    requests L = [(API_URL w +:+ url, o)] /\ method o = "GET" /\
    match filters_set filters with
    | O => url = "profile/goals"
    | S n =>
        exists q, url = "profile/goals?" +:+ q /\
          count_char "&" q = n /\ count_char "=" q = S n /\
          count_char "?" q = 0%nat /\ count_char "#" q = 0%nat /\
          count_char " " q = 0%nat /\ count_char "/" q = 0%nat
    end.
Proof.
  intros Hnull L.
  destruct (QueryFacts.goals_url_shape filters Hnull) as (url & Hurl & Hshape).
  subst L. unfold UserGoals.getUserGoals. rewrite Hurl.
  exists url. eexists. split; [run; reflexivity|].
  split; [|exact Hshape].
  match goal with
  | |- method (ServiceUtils.addAuthHeaders ?w0 ?u ?o0) = _ =>
      destruct (addAuthHeaders_shape w0 u o0) as (a & c & H); now rewrite (H o0 eq_refl)
  end.
Qed.

Lemma X22_goals_query_is_well_formed_witness :
  let filters := JObj [("interval", JStr "weekly"); ("goal_type", JStr "a&b=c d")] in
  filters_set filters = 2%nat /\
  exists url o,
    requests (call (UserGoals.getUserGoals filters) (page Sample.signed_in))
      = [("https://endurain.example/api/v1/" +:+ url, o)] /\
    exists q, url = "profile/goals?" +:+ q /\ count_char "&" q = 1%nat.
Proof.
  intros filters. split; [reflexivity|].
  destruct (X22_goals_query_is_well_formed Sample.signed_in filters
              ltac:(discriminate)) as (url & o & Hreq & _ & Hq).
  change (filters_set filters) with 2%nat in Hq.
  destruct Hq as (q & Hurl & Hamp & _).
  exists url, o. split; [exact Hreq|]. exists q. split; [exact Hurl | exact Hamp].
Defined.

(* ===================================================================== *)
(** * The request functions *)
(* ===================================================================== *)

Lemma injected_other_header (w : World) (url : string) (o : Options) (k : string) :
  k <> "Authorization" -> k <> "X-CSRF-Token" ->
  (headers (ServiceUtils.addAuthHeaders w url o) !! k : option string) = headers o !! k /\
  credentials (ServiceUtils.addAuthHeaders w url o) = credentials o /\
  method (ServiceUtils.addAuthHeaders w url o) = method o /\
  body (ServiceUtils.addAuthHeaders w url o) = body o.
Proof.
  intros Ha Hc. destruct (addAuthHeaders_shape w url o) as (a & c & H).
  rewrite (H o eq_refl). cbn [headers with_headers credentials method body].
  destruct a, c; cbn [id]; rewrite ?lookup_insert_ne by congruence; repeat split.
Qed.

(** ** X23 -- what every request function sends.
    Each of the six request functions of serviceUtils makes one network call
    to [API_URL + url], with the method of its name, with
    [credentials: include] and with the header [X-Client-Type: web], header
    injection included. The content type is [application/json] for GET,
    POST, PUT and DELETE, [application/x-www-form-urlencoded] for the form
    variant, and none for a file upload. Calling one writes nothing to the
    browser state. *)
Theorem X23_request_functions_send
    (w : World) (url : string) (data formData responseType : JSValue) :
  Forall (fun '(t, verb, content_type) =>
    let L := call t (page w) in
    exists o,
      requests L = [(API_URL w +:+ url, o)] /\ method o = verb /\
      credentials o = Some "include" /\
      (headers o !! "X-Client-Type" : option string) = Some "web" /\
      (headers o !! "Content-Type" : option string) = content_type /\
      world L = w /\ promises L = [None])
    [(Client.fetchGetRequest url responseType, "GET", Some "application/json");
     (Client.fetchPostRequest url data, "POST", Some "application/json");
     (Client.fetchPutRequest url data, "PUT", Some "application/json");
     (Client.fetchDeleteRequest url, "DELETE", Some "application/json");
     (Client.fetchPostFormUrlEncoded url formData, "POST",
        Some "application/x-www-form-urlencoded");
     (Client.fetchPostFileRequest url formData, "POST", None)].
Proof.
  repeat (apply List.Forall_cons; [|]); [..|apply List.Forall_nil].
  all: cbv zeta; run; eexists; split; [reflexivity|].
  all: match goal with
       | |- context [ServiceUtils.addAuthHeaders ?w0 ?u ?o0] =>
           destruct (injected_other_header w0 u o0 "X-Client-Type"
                       ltac:(discriminate) ltac:(discriminate))
             as (Hclient & Hcred & Hmethod & _);
           destruct (injected_other_header w0 u o0 "Content-Type"
                       ltac:(discriminate) ltac:(discriminate))
             as (Hcontent & _)
       end.
  all: rewrite Hclient, Hcred, Hmethod, Hcontent; repeat split.
Qed.

(** ** X24 -- a data export comes back as a [Blob].
    [profile.exportData] asks for [profile/export] with response type
    [blob]: any response in 200..299 other than 204 fulfils the caller with
    the body as a [Blob], without parsing it as JSON, after a single network
    call. *)
Theorem X24_export_is_a_blob (w : World) (response : Response) :
  ok response = true -> status response <> 204 ->
  let L := deliver 0 (Responded response) (call Profile.exportData (page w)) in
  promises L = [Some (Fulfilled (JBlob (blob response)))] /\
  map fst (requests L) = [API_URL w +:+ "profile/export"] /\
  inflight L = [] /\ world L = w.
Proof.
  intros Hok H204 L. subst L. unfold Profile.exportData. run.
  unfold ServiceUtils.received. rewrite Hok. cbn [negb].
  destruct (Z.eqb_spec (status response) 204); [contradiction|].
  run. repeat split.
Qed.

Lemma X24_export_is_a_blob_witness :
  let response := mkResponse 200 (NotJSON "Unexpected token P in JSON") ["P"; "K"]%byte in
  promises (deliver 0 (Responded response) (call Profile.exportData (page Sample.signed_in)))
  = [Some (Fulfilled (JBlob ["P"; "K"]%byte))].
Proof.
  intros response.
  destruct (X24_export_is_a_blob Sample.signed_in response eq_refl ltac:(discriminate))
    as (H & _).
  exact H.
Defined.

(** ** X25 -- what a successful response gives.
    For a response in 200..299 other than 204, [attemptFetch] resolves with
    the body as a [Blob] when the response type is ['blob'], without reading
    it as JSON; for any other response type it resolves with the parsed
    payload, and fails with the [SyntaxError] of [response.json()] when the
    body is not JSON. One network call, to [API_URL + url] with the options
    as given. *)
Theorem X25_successful_response
    (w : World) (url : string) (options : Options) (responseType : string)
    (response : Response) :
  ok response = true -> status response <> 204 ->
  let L := deliver 0 (Responded response)
             (call (ServiceUtils.attemptFetch url options responseType) (page w)) in
  requests L = [(API_URL w +:+ url, options)] /\ inflight L = [] /\ world L = w /\
  promises L
  = [Some (if String.eqb responseType "blob" then Fulfilled (JBlob (blob response))
           else match json response with
                | JSON v => Fulfilled v
                | NotJSON m => Rejected (mkError SyntaxError m)
                end)].
Proof.
  intros Hok H204 L. subst L.
  destruct (attemptFetch_run w url options responseType (Responded response))
    as (_ & _ & Hp & Hin).
  rewrite Hp, Hin.
  split; [|split; [reflexivity|split]].
  - run. destruct (ServiceUtils.received responseType (Responded response)); reflexivity.
  - run. destruct (ServiceUtils.received responseType (Responded response)); reflexivity.
  - unfold ServiceUtils.received. rewrite Hok. cbn [negb].
    destruct (Z.eqb_spec (status response) 204); [contradiction|].
    destruct (String.eqb responseType "blob"); [reflexivity|].
    destruct (json response); reflexivity.
Qed.

Lemma X25_successful_response_witness :
  let w := mkWorld "https://endurain.example" AuthStore.state ∅ None [] [] [] JNull in
  promises (deliver 0 Sample.profile_ok
              (call (ServiceUtils.attemptFetch "profile" Sample.get_options "json")
                 (page w)))
  = [Some (Fulfilled Sample.profile)].
Proof.
  intros w.
  destruct (X25_successful_response w "profile" Sample.get_options "json"
              (mkResponse 200 (JSON Sample.profile) []) eq_refl ltac:(discriminate))
    as (_ & _ & _ & H).
  exact H.
Defined.
